(** * GeniusGate: question cache, quiz sessions and reward settlement

    A shallow embedding of the quiz back end:
    - [AIQuestion] model and [AIQuestionService] (durable question cache),
    - [AIService.generateQuestions] (tiered lookup in front of the generator),
    - [QuizService] and the parts of [QuizController] that shape responses,
    - the withdrawal handler of [PaymentController],
    - the JavaScript [RewardService] with its own Transaction/User models.

    Conventions.
    - A MongoDB collection is the list of its documents, in insertion order.
    - JavaScript numbers that hold money or ratios are IEEE binary64 values
      ([float], evaluated by the kernel); counters, token counts and
      millisecond timestamps are integers ([Z]).
    - Strings are ASCII strings; [toUpperCase], [toLowerCase] and [trim] act
      on ASCII letters and ASCII white space.
    - An [async] method is a state transformer that returns a result or a
      thrown error together with the store it leaves behind; a thrown error
      does not undo writes already made, exactly as in the source.
    - A call reads the clock once: [now] is [Date.now()] in milliseconds.
    - Schema setters (trim, uppercase, defaults) run when a document is
      built; on [save] the validators run first, then the pre-save hooks
      of the schema, then the insert with its unique indexes.
    - Under [timestamps: true] every update made through the model sets
      [updatedAt] to the time of the call. *)

From Stdlib Require Import ZArith List String Ascii Bool Lia.
From Stdlib Require Import PrimFloat FloatOps SpecFloat DecimalString.
Import ListNotations.

Set Warnings "-inexact-float".
Local Open Scope string_scope.
Local Open Scope Z_scope.

(* ================================================================= *)
(** ** JavaScript primitives *)

Module Js.

(** *** Strings *)

Definition isLower (c : ascii) : bool :=
  let n := nat_of_ascii c in (Nat.leb 97 n && Nat.leb n 122)%bool.

Definition isUpper (c : ascii) : bool :=
  let n := nat_of_ascii c in (Nat.leb 65 n && Nat.leb n 90)%bool.

Definition upperChar (c : ascii) : ascii :=
  if isLower c then ascii_of_nat (nat_of_ascii c - 32) else c.

Definition lowerChar (c : ascii) : ascii :=
  if isUpper c then ascii_of_nat (nat_of_ascii c + 32) else c.

Fixpoint mapString (f : ascii -> ascii) (s : string) : string :=
  match s with
  | EmptyString => EmptyString
  | String c r => String (f c) (mapString f r)
  end.

Definition toUpperCase : string -> string := mapString upperChar.
Definition toLowerCase : string -> string := mapString lowerChar.

(** White space removed by [String.prototype.trim]: TAB, LF, VT, FF, CR
    and SPACE. *)
Definition isSpace (c : ascii) : bool :=
  let n := nat_of_ascii c in
  ((Nat.leb 9 n && Nat.leb n 13) || Nat.eqb n 32)%bool.

Fixpoint allSpace (s : string) : bool :=
  match s with
  | EmptyString => true
  | String c r => (isSpace c && allSpace r)%bool
  end.

Fixpoint trimStart (s : string) : string :=
  match s with
  | EmptyString => EmptyString
  | String c r => if isSpace c then trimStart r else s
  end.

Fixpoint trimEnd (s : string) : string :=
  match s with
  | EmptyString => EmptyString
  | String c r => if allSpace s then EmptyString else String c (trimEnd r)
  end.

Definition trim (s : string) : string := trimEnd (trimStart s).

(** [s.includes(p)] *)
Fixpoint includes (p s : string) : bool :=
  (String.prefix p s ||
   match s with
   | EmptyString => false
   | String _ r => includes p r
   end)%bool.

(** [arr.includes(x)] on an array of strings. *)
Definition arrayIncludes (x : string) (arr : list string) : bool :=
  existsb (String.eqb x) arr.

(** A string used as a condition: the empty string is falsy. *)
Definition truthy (s : string) : bool := negb (String.eqb s "").

(** An integer spliced into a template literal. *)
Definition showInt (z : Z) : string := NilZero.string_of_int (Z.to_int z).

(** *** Numbers *)

(** The binary64 value of an integer (exact below 2^53). *)
Definition ofZ (z : Z) : float :=
  SF2Prim (binary_normalize prec emax z 0 false).

Definition ofNat (n : nat) : float := ofZ (Z.of_nat n).

(** [Math.floor]: NaN, the infinities and the zeros are returned as they
    are; a finite value with a non-negative exponent is already an
    integer. *)
Definition floor (x : float) : float :=
  match Prim2SF x with
  | S754_finite s m e =>
      if 0 <=? e then x
      else
        let z := if s then Z.neg m else Z.pos m in
        let q := z / 2 ^ (- e) in
        if q =? 0 then 0%float
        else SF2Prim (binary_normalize prec emax q 0 s)
  | _ => x
  end.

Definition isNaN (x : float) : bool := negb (PrimFloat.eqb x x).

(** *** Dates *)

(** [d.setHours(d.getHours() + h)] on an instant in milliseconds.  The
    hour field belongs to the wall clock of the process; the server keeps
    UTC, where no hour is skipped or repeated, and the instant moves by
    [h] hours. *)
Definition addLocalHours (t h : Z) : Z := t + h * (60 * 60 * 1000).

(** *** Arrays *)

(** [arr[i]]: [None] stands for [undefined]. *)
Definition index {A : Type} (arr : list A) (i : Z) : option A :=
  if i <? 0 then None else nth_error arr (Z.to_nat i).

(** [arr[i] = v] on an array whose slots may be empty: a write past the
    end extends the array and leaves holes ([None]) in between. *)
Fixpoint assign {A : Type} (arr : list (option A)) (i : nat) (v : A)
  : list (option A) :=
  match i, arr with
  | O, [] => [Some v]
  | O, _ :: r => Some v :: r
  | S k, [] => None :: assign [] k v
  | S k, x :: r => x :: assign r k v
  end.

(** [slot === s] for a possibly empty slot and a string. *)
Definition slotEquals (slot : option (option string)) (s : string) : bool :=
  match slot with
  | Some (Some a) => String.eqb a s
  | _ => false
  end.

End Js.

(* ================================================================= *)
(** ** Errors and asynchronous methods *)

Inductive error : Type :=
| Error_ (message : string)                 (* throw new Error(message) *)
| ValidationError (model path : string)     (* a schema validator failed *)
| DuplicateKey (model path : string).       (* a unique index rejected a write *)

Inductive result (A : Type) : Type :=
| Ok (a : A)
| Throw (e : error).
Arguments Ok {A} a.
Arguments Throw {A} e.

(** [M S A]: a method running against a store of type [S]. *)
Definition M (S A : Type) : Type := S -> result A * S.

Definition ret {S A : Type} (a : A) : M S A := fun s => (Ok a, s).
Definition throw {S A : Type} (e : error) : M S A := fun s => (Throw e, s).

Definition bind {S A B : Type} (m : M S A) (k : A -> M S B) : M S B :=
  fun s =>
    match m s with
    | (Ok a, s') => k a s'
    | (Throw e, s') => (Throw e, s')
    end.

(** [try { m } catch (e) { h e }] *)
Definition tryCatch {S A : Type} (m : M S A) (h : error -> M S A) : M S A :=
  fun s =>
    match m s with
    | (Ok a, s') => (Ok a, s')
    | (Throw e, s') => h e s'
    end.

Definition get {S : Type} : M S S := fun s => (Ok s, s).
Definition put {S : Type} (s : S) : M S unit := fun _ => (Ok tt, s).

Declare Scope async_scope.
Delimit Scope async_scope with async.
Notation "x <- m ;; k" := (bind m (fun x => k))
  (at level 61, m at next level, right associativity) : async_scope.
Notation "m ;;; k" := (bind m (fun _ => k))
  (at level 61, right associativity) : async_scope.

(** First validator that fails, by path. *)
Fixpoint firstInvalid (checks : list (string * bool)) : option string :=
  match checks with
  | [] => None
  | (path, ok) :: r => if ok then firstInvalid r else Some path
  end.

(** [findOneAndUpdate]: the first document matching [hit] is rewritten. *)
Fixpoint updateFirst {A : Type} (hit : A -> bool) (f : A -> A) (l : list A)
  : list A :=
  match l with
  | [] => []
  | e :: r => if hit e then f e :: r else e :: updateFirst hit f r
  end.

(* ================================================================= *)
(** ** Documents of the TypeScript back end *)

(** [Question] (types/ai.types.ts, types/quiz.types.ts).  A field the
    generator left out is the empty string or the empty array, which the
    [required] validators treat like [undefined]. *)
Record Question : Type := mkQuestion {
  question : string;
  options : list string;
  correctAnswer : string;
  explanation : option string;
  topic : option string;
  timeLimit : option Z
}.

(** [IAIQuestion]: one entry of the durable cache.  The free-form
    [metadata], which no operation below reads, is left out.  A document
    that was built and not yet saved has no [cacheKey] (the empty string
    here) and no [expiresAt]. *)
Record AIQuestion : Type := mkAIQuestion {
  category : string;
  difficulty : string;
  questions : list Question;
  aiModel : string;
  aiPrompt : string;
  tokensUsed : Z;
  cost : float;
  cacheKey : string;
  isActive : bool;
  usageCount : Z;
  lastUsed : Z;
  expiresAt : Z;
  createdAt : Z;
  updatedAt : Z
}.

Record AIResponseMetrics : Type := mkMetrics {
  m_tokensUsed : Z;
  m_responseTime : Z;
  m_cost : float;
  m_model : string
}.

(** [ITransaction] (models/transaction.model.ts). *)
Record Transaction : Type := mkTransaction {
  t_user : string;
  t_amount : float;
  t_type : string;
  t_status : string;
  t_description : string;
  t_paymentMethod : string;
  t_paymentReference : string
}.

(** [IQuizSession] (models/quizSession.model.ts).  A slot of [userAnswers]
    that was never written is [None]. *)
Record QuizSession : Type := mkQuizSession {
  s_id : string;
  s_user : string;
  s_category : string;
  s_questions : list Question;
  s_userAnswers : list (option string);
  s_score : Z;
  s_totalQuestions : Z;
  s_timeStarted : Z;
  s_timeCompleted : option Z;
  s_status : string;
  s_paymentReference : string;
  s_rewardEarned : float;
  s_difficulty : string
}.

(** The part of [IUser] the quiz services touch. *)
Record User : Type := mkUser {
  u_id : string;
  u_walletBalance : float
}.

(** The database and the Redis instance seen by the services.  A Redis
    entry carries the time (ms) at which it expires, or [None] when it
    was stored without a time to live. *)
Record Store : Type := mkStore {
  aiQuestions : list AIQuestion;
  redis : list (string * (option Z * list Question));
  users : list User;
  quizSessions : list QuizSession;
  transactions : list Transaction
}.

Definition setAIQuestions (l : list AIQuestion) (db : Store) : Store :=
  mkStore l (redis db) (users db) (quizSessions db) (transactions db).
Definition setRedis (r : list (string * (option Z * list Question))) (db : Store)
  : Store :=
  mkStore (aiQuestions db) r (users db) (quizSessions db) (transactions db).
Definition setUsers (l : list User) (db : Store) : Store :=
  mkStore (aiQuestions db) (redis db) l (quizSessions db) (transactions db).
Definition setQuizSessions (l : list QuizSession) (db : Store) : Store :=
  mkStore (aiQuestions db) (redis db) (users db) l (transactions db).
Definition setTransactions (l : list Transaction) (db : Store) : Store :=
  mkStore (aiQuestions db) (redis db) (users db) (quizSessions db) l.

(** The record returned by [getCacheStats]. *)
Record CacheStats : Type := mkCacheStats {
  totalCached : Z;
  activeCached : Z;
  totalUsage : Z;
  totalCost : float
}.

(* ================================================================= *)
(** ** models/aiQuestion.model.ts *)

Module AIQuestionModel.

Definition labels : list string := ["A"; "B"; "C"; "D"].

Definition categories : list string :=
  ["science"; "technology"; "history"; "geography";
   "sports"; "entertainment"; "politics"; "art";
   "literature"; "mathematics"; "biology"; "physics";
   "chemistry"; "general-knowledge"; "programming"].

Definition difficulties : list string := ["easy"; "medium"; "hard"].

Definition aiModels : list string := ["gpt-3.5-turbo"; "gpt-4"; "gpt-4-turbo"].

Definition lengthZ (s : string) : Z := Z.of_nat (String.length s).

(** Setters of [questionSchema]: [question] and [topic] are trimmed,
    [correctAnswer] is upper-cased and trimmed, [timeLimit] defaults
    to 30. *)
Definition castQuestion (q : Question) : Question :=
  mkQuestion (Js.trim (question q))
             (options q)
             (Js.trim (Js.toUpperCase (correctAnswer q)))
             (explanation q)
             (option_map Js.trim (topic q))
             (Some (match timeLimit q with Some t => t | None => 30 end)).

(** The validator of [options]. *)
Definition optionsValid (opts : list string) : bool :=
  (Nat.eqb (List.length opts) 4 &&
   forallb (fun opt => Nat.ltb 0 (String.length opt)) opts)%bool.

Definition correctAnswerValid (a : string) : bool :=
  (Js.truthy a && Js.arrayIncludes a labels)%bool.

Definition questionValid (q : Question) : bool :=
  (Js.truthy (question q) &&
   (10 <=? lengthZ (question q)) && (lengthZ (question q) <=? 500) &&
   optionsValid (options q) &&
   correctAnswerValid (correctAnswer q) &&
   match explanation q with Some e => lengthZ e <=? 1000 | None => true end &&
   match timeLimit q with Some t => (10 <=? t) && (t <=? 120) | None => true end)%bool.

(** The validator of [questions]. *)
Definition questionsValid (qs : list Question) : bool :=
  (Nat.ltb 0 (List.length qs) && Nat.leb (List.length qs) 20)%bool.

(** Schema validation of a whole entry: the path that fails first.
    [expiresAt] is required as well; it is unset exactly on the documents
    whose [cacheKey] is unset, those that were built and never stored. *)
Definition validate (d : AIQuestion) : option string :=
  firstInvalid
    [("category", Js.truthy (category d) && Js.arrayIncludes (category d) categories);
     ("difficulty", Js.truthy (difficulty d) && Js.arrayIncludes (difficulty d) difficulties);
     ("questions", questionsValid (questions d) && forallb questionValid (questions d));
     ("aiModel", Js.truthy (aiModel d) && Js.arrayIncludes (aiModel d) aiModels);
     ("aiPrompt", Js.truthy (aiPrompt d) && (lengthZ (aiPrompt d) <=? 5000));
     ("tokensUsed", 0 <=? tokensUsed d);
     ("cost", PrimFloat.leb 0 (cost d));
     ("cacheKey", Js.truthy (cacheKey d));
     ("usageCount", 0 <=? usageCount d)]%bool.

(** Pre-save hook, first part:
    [Math.floor(Date.now() / (1000 * 60 * 60))]. *)
Definition hourBucket (now : Z) : Z := now / (1000 * 60 * 60).

Definition deriveCacheKey (cat diff : string) (now : Z) : string :=
  "ai_questions:" ++ cat ++ ":" ++ diff ++ ":" ++ Js.showInt (hourBucket now).

(** Pre-save hook, second part:
    [expiresAt.setHours(expiresAt.getHours() + 24)], on the wall clock of
    the server. *)
Definition deriveExpiresAt (now : Z) : Z := Js.addLocalHours now 24.

(** Second pre-save hook. *)
Definition deriveCost (model : string) (tokens : Z) : float :=
  let costPerToken :=
    if Js.includes "gpt-4" model then 0.00003%float else 0.000002%float in
  (Js.ofZ tokens * costPerToken)%float.

(** What the hooks make of a new document on its way to the insert: the
    two hooks of the schema, and the time stamps kept under
    [timestamps: true]. *)
Definition preSave (now : Z) (d : AIQuestion) : AIQuestion :=
  mkAIQuestion (category d) (difficulty d) (questions d) (aiModel d)
               (aiPrompt d) (tokensUsed d)
               (deriveCost (aiModel d) (tokensUsed d))
               (deriveCacheKey (category d) (difficulty d) now)
               (isActive d) (usageCount d) (lastUsed d)
               (deriveExpiresAt now) now now.

(** [new AIQuestion({...})]: setters and defaults.  [cacheKey] and
    [expiresAt] are not among the fields given, and have no default. *)
Definition create (now : Z) (cat diff : string) (qs : list Question)
           (model prompt : string) (tokens : Z) (cst : float) : AIQuestion :=
  mkAIQuestion (Js.trim cat) diff (map castQuestion qs) model prompt tokens cst
               "" true 0 now 0 now now.

(** [doc.save()] of a new entry: the document is validated as it was
    built; the hooks registered with [pre('save')] run on a document that
    passed, and the insert checks the unique index on [cacheKey]. *)
Definition save (now : Z) (d : AIQuestion) : M Store AIQuestion :=
  fun db =>
    match validate d with
    | Some path => (Throw (ValidationError "AIQuestion" path), db)
    | None =>
        let d' := preSave now d in
        if existsb (fun e => String.eqb (cacheKey e) (cacheKey d')) (aiQuestions db)
        then (Throw (DuplicateKey "AIQuestion" "cacheKey"), db)
        else (Ok d', setAIQuestions (aiQuestions db ++ [d']) db)
    end.

(** What [{ $set: { isActive: false } }] writes into a matched entry. *)
Definition deactivate (now : Z) (d : AIQuestion) : AIQuestion :=
  mkAIQuestion (category d) (difficulty d) (questions d) (aiModel d)
               (aiPrompt d) (tokensUsed d) (cost d) (cacheKey d)
               false (usageCount d) (lastUsed d) (expiresAt d) (createdAt d)
               now.

(** [updateMany(filter, { $set: { isActive: false } })]; the number
    returned is [modifiedCount]. *)
Definition deactivateWhere (now : Z) (filter : AIQuestion -> bool) : M Store Z :=
  fun db =>
    let hit := fun e => (filter e && isActive e)%bool in
    (Ok (Z.of_nat (List.length (List.filter hit (aiQuestions db)))),
     setAIQuestions
       (map (fun e => if filter e then deactivate now e else e) (aiQuestions db))
       db).

(** The document with the greatest [createdAt] among those matching
    ([findOne(...).sort({ createdAt: -1 })]). *)
Fixpoint latest (filter : AIQuestion -> bool) (l : list AIQuestion)
  : option AIQuestion :=
  match l with
  | [] => None
  | e :: r =>
      if filter e then
        match latest filter r with
        | Some e' => if createdAt e <? createdAt e' then Some e' else Some e
        | None => Some e
        end
      else latest filter r
  end.

(** Static [findActiveByCategoryAndDifficulty]. *)
Definition findActiveByCategoryAndDifficulty (now : Z) (cat diff : string)
  : M Store (option AIQuestion) :=
  fun db =>
    (Ok (latest (fun e => String.eqb (category e) (Js.toLowerCase cat) &&
                          String.eqb (difficulty e) (Js.toLowerCase diff) &&
                          isActive e && (now <? expiresAt e))%bool
                (aiQuestions db)), db).

(** Static [incrementUsage]: [findOneAndUpdate({ cacheKey }, ...)]. *)
Definition incrementUsage (now : Z) (key : string) : M Store unit :=
  fun db =>
    (Ok tt,
     setAIQuestions
       (updateFirst (fun e => String.eqb (cacheKey e) key)
          (fun d => mkAIQuestion (category d) (difficulty d) (questions d)
                      (aiModel d) (aiPrompt d) (tokensUsed d) (cost d)
                      (cacheKey d) (isActive d) (usageCount d + 1) now
                      (expiresAt d) (createdAt d) now)
          (aiQuestions db))
       db).

(** Static [deactivateExpired]. *)
Definition deactivateExpired (now : Z) : M Store Z :=
  deactivateWhere now (fun e => (expiresAt e <=? now) && isActive e)%bool.

End AIQuestionModel.

(* ================================================================= *)
(** ** services/aiQuestion.service.ts *)

Module AIQuestionService.
Import AIQuestionModel.
Local Open Scope async_scope.

Definition cacheQuestions (now : Z) (qs : list Question) (cat diff : string)
           (metrics : AIResponseMetrics) (aiPrompt : string) : M Store string :=
  tryCatch
    (aiQuestion <- save now
         (create now (Js.toLowerCase cat) (Js.toLowerCase diff) qs
                 (m_model metrics) aiPrompt (m_tokensUsed metrics) (m_cost metrics)) ;;
     ret (cacheKey aiQuestion))
    (fun _ => throw (Error_ "Failed to cache questions")).

Definition getCachedQuestions (now : Z) (cat diff : string)
  : M Store (option (list Question)) :=
  fun db =>
    match latest (fun e => String.eqb (category e) (Js.toLowerCase cat) &&
                           String.eqb (difficulty e) (Js.toLowerCase diff) &&
                           isActive e)%bool
                 (aiQuestions db) with
    | None => (Ok None, db)
    | Some cached =>
        (incrementUsage now (cacheKey cached) ;;;
         ret (Some (questions cached))) db
    end.

Definition cleanupExpiredCache (now : Z) : M Store Z :=
  deactivateWhere now (fun e => isActive e && (expiresAt e <=? now))%bool.

(** [difficulty] is optional: an absent or empty one does not narrow the
    filter. *)
Definition invalidateCache (now : Z) (cat : string) (diff : option string)
  : M Store Z :=
  deactivateWhere now
    (fun e =>
       String.eqb (category e) (Js.toLowerCase cat) && isActive e &&
       match diff with
       | Some d => if Js.truthy d then String.eqb (difficulty e) (Js.toLowerCase d)
                   else true
       | None => true
       end)%bool.

(** [getCacheStats]: one [$group] over the whole collection; an empty
    collection yields no group and the zero record is returned. *)
Definition getCacheStats : M Store CacheStats :=
  fun db =>
    (Ok match aiQuestions db with
        | [] => mkCacheStats 0 0 0 0%float
        | l =>
            mkCacheStats
              (Z.of_nat (List.length l))
              (Z.of_nat (List.length (List.filter isActive l)))
              (fold_left (fun acc e => acc + usageCount e) l 0)
              (fold_left (fun acc e => (acc + cost e)%float) l 0%float)
        end, db).

End AIQuestionService.

(* ================================================================= *)
(** ** services/cache.service.ts and services/ai.service.ts *)

Module CacheService.

(** Redis [GET]: the value under [key] unless its time to live has run
    out. *)
Definition get (now : Z) (key : string) : M Store (option (list Question)) :=
  fun db =>
    (Ok match List.find (fun kv => String.eqb (fst kv) key) (redis db) with
        | Some (_, (Some expiry, v)) => if now <? expiry then Some v else None
        | Some (_, (None, v)) => Some v
        | None => None
        end, db).

(** Redis [SET] and [SETEX]: the entry under [key] is replaced. *)
Definition store (key : string) (expiry : option Z) (v : list Question)
  : M Store unit :=
  fun db =>
    (Ok tt,
     setRedis ((key, (expiry, v)) ::
               List.filter (fun kv => negb (String.eqb (fst kv) key)) (redis db)) db).

(** [set(key, value, ttlSeconds?)].  A [ttlSeconds] that is absent or 0 is
    falsy and the value is stored without a time to live; otherwise
    [SETEX] is sent, which Redis refuses for a time that is not positive,
    and the [catch] only logs the error. *)
Definition set (now : Z) (key : string) (v : list Question)
           (ttlSeconds : option Z) : M Store unit :=
  match ttlSeconds with
  | Some ttl =>
      if ttl =? 0 then store key None v
      else if 0 <? ttl then store key (Some (now + ttl * 1000)) v
      else ret tt
  | None => store key None v
  end.

End CacheService.

Module AIService.
Local Open Scope async_scope.

Section Generator.

(** The request to the completion API followed by [JSON.parse] of its
    content: the array of raw questions and [usage.total_tokens], or
    [None] when the request, the content or the parsing fails. *)
Variable complete : string -> option (list Question * Z).

(** The prompt text for a category, a difficulty and a count. *)
Variable buildPrompt : string -> string -> nat -> string.

(** [parseAIResponse] keeps four fields of every item. *)
Definition parseAIResponse (raw : list Question) : list Question :=
  map (fun q => mkQuestion (question q) (options q) (correctAnswer q)
                           (explanation q) None None) raw.

(** The last step of [generateQuestions], taken when both tiers missed:
    the prompt, the [try] block and its [catch].  The response time
    recorded in the metrics is the difference of two readings of the
    clock, here the same instant. *)
Definition generate (now : Z) (cat diff : string) (count : nat)
  : M Store (list Question) :=
  let redisCacheKey :=
    "ai_questions:" ++ cat ++ ":" ++ diff ++ ":" ++ Js.showInt (Z.of_nat count) in
  let prompt := buildPrompt cat diff count in
  tryCatch
    (match complete prompt with
     | None => throw (Error_ "No response from AI service")
     | Some (raw, tokens) =>
         let questions := parseAIResponse raw in
         let metrics := mkMetrics tokens 0 0%float "gpt-3.5-turbo" in
         AIQuestionService.cacheQuestions now questions cat diff metrics prompt ;;;
         CacheService.set now redisCacheKey questions (Some 3600) ;;;
         ret questions
     end)
    (fun _ => throw (Error_ "Failed to generate questions")).

Definition generateQuestions (now : Z) (cat diff : string) (count : nat)
  : M Store (list Question) :=
  let redisCacheKey :=
    "ai_questions:" ++ cat ++ ":" ++ diff ++ ":" ++ Js.showInt (Z.of_nat count) in
  let fallback :=
    cached <- CacheService.get now redisCacheKey ;;
    match cached with
    | Some v => ret v
    | None => generate now cat diff count
    end in
  cachedQuestions <- AIQuestionService.getCachedQuestions now cat diff ;;
  match cachedQuestions with
  | Some qs =>
      if Nat.leb count (List.length qs) then ret (firstn count qs) else fallback
  | None => fallback
  end.

End Generator.

End AIService.

(* ================================================================= *)
(** ** models/transaction.model.ts, models/quizSession.model.ts *)

Module TransactionModel.

Definition types : list string := ["debit"; "credit"].
Definition statuses : list string := ["pending"; "completed"; "failed"].
Definition paymentMethods : list string := ["flutterwave"; "stripe"; "momo"].

Definition validate (t : Transaction) : option string :=
  firstInvalid
    [("user", Js.truthy (t_user t));
     ("amount", negb (Js.isNaN (t_amount t)));
     ("type", Js.truthy (t_type t) && Js.arrayIncludes (t_type t) types);
     ("status", Js.arrayIncludes (t_status t) statuses);
     ("description", Js.truthy (t_description t));
     ("paymentMethod",
       Js.truthy (t_paymentMethod t) &&
       Js.arrayIncludes (t_paymentMethod t) paymentMethods);
     ("paymentReference", Js.truthy (t_paymentReference t))]%bool.

(** [doc.save()] of a new transaction; [paymentReference] is unique. *)
Definition save (t : Transaction) : M Store unit :=
  fun db =>
    match validate t with
    | Some path => (Throw (ValidationError "Transaction" path), db)
    | None =>
        if existsb (fun t' => String.eqb (t_paymentReference t')
                                         (t_paymentReference t))
                   (transactions db)
        then (Throw (DuplicateKey "Transaction" "paymentReference"), db)
        else (Ok tt, setTransactions (transactions db ++ [t]) db)
    end.

(** [Transaction.findOne({ paymentReference, user, status })] *)
Definition findOne (paymentReference user status : string) (db : Store)
  : option Transaction :=
  List.find (fun t => String.eqb (t_paymentReference t) paymentReference &&
                      String.eqb (t_user t) user &&
                      String.eqb (t_status t) status)%bool
            (transactions db).

End TransactionModel.

Module QuizSessionModel.

Definition statuses : list string := ["active"; "completed"; "abandoned"].
Definition difficulties : list string := ["easy"; "medium"; "hard"].

(** The session's own [questionSchema] keeps four fields. *)
Definition castQuestion (q : Question) : Question :=
  mkQuestion (question q) (options q) (correctAnswer q) (explanation q) None None.

Definition questionValid (q : Question) : bool :=
  (Js.truthy (question q) && forallb Js.truthy (options q) &&
   Js.truthy (correctAnswer q))%bool.

Definition validate (s : QuizSession) : option string :=
  firstInvalid
    [("user", Js.truthy (s_user s));
     ("category", Js.truthy (s_category s));
     ("questions", forallb questionValid (s_questions s));
     ("status", Js.arrayIncludes (s_status s) statuses);
     ("paymentReference", Js.truthy (s_paymentReference s));
     ("difficulty", Js.arrayIncludes (s_difficulty s) difficulties)].

(** [new QuizSession({...})] as [startQuiz] calls it, with the defaults
    of the schema; [id] is the fresh [_id]. *)
Definition create (now : Z) (id user cat : string) (qs : list Question)
           (total : Z) (paymentReference status : string) : QuizSession :=
  mkQuizSession id user cat (map castQuestion qs) [] 0 total now None status
                paymentReference 0%float "medium".

Fixpoint replace (s : QuizSession) (l : list QuizSession) : list QuizSession :=
  match l with
  | [] => []
  | s' :: r => if String.eqb (s_id s') (s_id s) then s :: r else s' :: replace s r
  end.

(** [doc.save()] of a new session. *)
Definition insert (s : QuizSession) : M Store unit :=
  fun db =>
    match validate s with
    | Some path => (Throw (ValidationError "QuizSession" path), db)
    | None =>
        if existsb (fun s' => String.eqb (s_id s') (s_id s)) (quizSessions db)
        then (Throw (DuplicateKey "QuizSession" "_id"), db)
        else (Ok tt, setQuizSessions (quizSessions db ++ [s]) db)
    end.

(** [doc.save()] of a session loaded from the store: the stored document
    with the same [_id] is rewritten. *)
Definition save (s : QuizSession) : M Store unit :=
  fun db =>
    match validate s with
    | Some path => (Throw (ValidationError "QuizSession" path), db)
    | None => (Ok tt, setQuizSessions (replace s (quizSessions db)) db)
    end.

Definition findById (id : string) (db : Store) : option QuizSession :=
  List.find (fun s => String.eqb (s_id s) id) (quizSessions db).

(** [QuizSession.findOne({ _id, user })] *)
Definition findOne (id user : string) (db : Store) : option QuizSession :=
  List.find (fun s => String.eqb (s_id s) id && String.eqb (s_user s) user)%bool
            (quizSessions db).

End QuizSessionModel.

Module UserModel.

(** [User.findByIdAndUpdate(id, { $inc: { walletBalance: amount } })]:
    no document is touched, and nothing is thrown, when the id is
    unknown. *)
Definition incWalletBalance (id : string) (amount : float) : M Store unit :=
  fun db =>
    (Ok tt,
     setUsers
       (updateFirst (fun u => String.eqb (u_id u) id)
                    (fun u => mkUser (u_id u) (u_walletBalance u + amount)%float)
                    (users db)) db).

Definition findById (id : string) (db : Store) : option User :=
  List.find (fun u => String.eqb (u_id u) id) (users db).

(** [user.save()] of a user document held by the request: the schema
    checks [walletBalance] against [min: 0] (a NaN does not cast), then the
    stored document with the same [_id] is rewritten. *)
Definition save (u : User) : M Store unit :=
  fun db =>
    if PrimFloat.leb 0 (u_walletBalance u)
    then (Ok tt,
          setUsers (updateFirst (fun u' => String.eqb (u_id u') (u_id u))
                                (fun _ => u) (users db)) db)
    else (Throw (ValidationError "User" "walletBalance"), db).

End UserModel.

(* ================================================================= *)
(** ** services/quiz.service.ts *)

(** [Promise.all([m1, m2])]: both writes are issued; the call rejects when
    either does, and neither rejection withdraws the other write. *)
Definition promiseAll {S A B : Type} (m1 : M S A) (m2 : M S B) : M S (A * B) :=
  fun s =>
    let (r1, s1) := m1 s in
    let (r2, s2) := m2 s1 in
    match r1, r2 with
    | Ok a, Ok b => (Ok (a, b), s2)
    | Throw e, _ => (Throw e, s2)
    | Ok _, Throw e => (Throw e, s2)
    end.

Record AnswerResult : Type := mkAnswerResult {
  r_isCorrect : bool;
  r_correctAnswer : string;
  r_explanation : option string
}.

Record QuizResult : Type := mkQuizResult {
  r_score : Z;
  r_total : Z;
  r_reward : float;
  r_percentage : float
}.

Module QuizService.
Local Open Scope async_scope.

Section Generator.
Variable complete : string -> option (list Question * Z).
Variable buildPrompt : string -> string -> nat -> string.

(** [newId] is the [_id] the driver gives the new session. *)
Definition startQuiz (now : Z) (newId userId cat paymentReference : string)
  : M Store QuizSession :=
  db <- get ;;
  match TransactionModel.findOne paymentReference userId "completed" db with
  | None => throw (Error_ "Payment not verified")
  | Some _ =>
      questions <- AIService.generateQuestions complete buildPrompt
                     now cat "medium" 10 ;;
      let quizSession :=
        QuizSessionModel.create now newId userId cat questions
          (Z.of_nat (List.length questions)) paymentReference "active" in
      QuizSessionModel.insert quizSession ;;;
      ret quizSession
  end.

End Generator.

Definition setUserAnswers (a : list (option string)) (s : QuizSession) : QuizSession :=
  mkQuizSession (s_id s) (s_user s) (s_category s) (s_questions s) a
                (s_score s) (s_totalQuestions s) (s_timeStarted s)
                (s_timeCompleted s) (s_status s) (s_paymentReference s)
                (s_rewardEarned s) (s_difficulty s).

Definition submitAnswer (sessionId : string) (questionIndex : Z) (answer : string)
  : M Store AnswerResult :=
  db <- get ;;
  match QuizSessionModel.findById sessionId db with
  | None => throw (Error_ "Quiz session not found")
  | Some session =>
      if negb (String.eqb (s_status session) "active")
      then throw (Error_ "Quiz session is not active")
      else
        match Js.index (s_questions session) questionIndex with
        | None => throw (Error_ "Invalid question index")
        | Some q =>
            let isCorrect := String.eqb answer (correctAnswer q) in
            QuizSessionModel.save
              (setUserAnswers
                 (Js.assign (s_userAnswers session) (Z.to_nat questionIndex) answer)
                 session) ;;;
            ret (mkAnswerResult isCorrect (correctAnswer q) (explanation q))
        end
  end.

(** The scoring loop: [questions.forEach((question, index) => ...)],
    started at [index]. *)
Fixpoint scoreFrom (index : nat) (qs : list Question)
         (answers : list (option string)) : Z :=
  match qs with
  | [] => 0
  | q :: r =>
      (if Js.slotEquals (nth_error answers index) (correctAnswer q) then 1 else 0)
      + scoreFrom (S index) r answers
  end.

Definition rewardRate : float := 0.10%float.

Definition complete_ (now : Z) (score : Z) (reward : float) (s : QuizSession)
  : QuizSession :=
  mkQuizSession (s_id s) (s_user s) (s_category s) (s_questions s)
                (s_userAnswers s) score (s_totalQuestions s) (s_timeStarted s)
                (Some now) "completed" (s_paymentReference s) reward
                (s_difficulty s).

Definition completeQuiz (now : Z) (sessionId userId : string) : M Store QuizResult :=
  db <- get ;;
  match QuizSessionModel.findOne sessionId userId db with
  | None => throw (Error_ "Quiz session not found")
  | Some session =>
      let score := scoreFrom 0 (s_questions session) (s_userAnswers session) in
      let reward := (Js.ofZ score * rewardRate)%float in
      let session' := complete_ now score reward session in
      UserModel.incWalletBalance userId reward ;;;
      let rewardTransaction :=
        mkTransaction userId reward "credit" "completed"
                      ("Quiz reward for " ++ s_category session)
                      "system" ("reward_" ++ sessionId) in
      promiseAll (QuizSessionModel.save session')
                 (TransactionModel.save rewardTransaction) ;;;
      ret (mkQuizResult score (s_totalQuestions session) reward
             (Js.ofZ score / Js.ofZ (s_totalQuestions session) * 100)%float)
  end.

End QuizService.

(* ================================================================= *)
(** ** controllers/quiz.controller.ts *)

Record ApiResponse (D : Type) : Type := mkApiResponse {
  success : bool;
  message : string;
  data : option D;
  statusCode : Z
}.
Arguments mkApiResponse {D}.
Arguments success {D}.
Arguments message {D}.
Arguments data {D}.
Arguments statusCode {D}.

(** One question of the read view.  A key that the object does not carry
    is [None]; [v_explanation] is [Some None] when the key is present and
    the question has no explanation. *)
Record QuestionView : Type := mkQuestionView {
  v_question : string;
  v_options : list string;
  v_userAnswer : option string;
  v_isAnswered : bool;
  v_correctAnswer : option string;
  v_explanation : option (option string);
  v_isCorrect : option bool
}.

Record SessionView : Type := mkSessionView {
  sv_id : string;
  sv_category : string;
  sv_difficulty : string;
  sv_totalQuestions : Z;
  sv_currentQuestion : Z;
  sv_score : Z;
  sv_status : string;
  sv_timeStarted : Z;
  sv_timeCompleted : option Z;
  sv_rewardEarned : float;
  sv_questions : list QuestionView
}.

Record AnswerData : Type := mkAnswerData {
  d_isCorrect : bool;
  d_correctAnswer : string;
  d_explanation : option string;
  d_nextQuestionIndex : Z
}.

Module QuizController.

Definition errorMessage (e : error) : string :=
  match e with
  | Error_ m => m
  | ValidationError model path => model ++ " validation failed: " ++ path
  | DuplicateKey model path => "E11000 duplicate key error: " ++ model ++ "." ++ path
  end.

Definition apiSuccess {D : Type} (msg : string) (d : D) : ApiResponse D :=
  mkApiResponse true msg (Some d) 200.

Definition apiError {D : Type} (msg : string) (code : Z) : ApiResponse D :=
  mkApiResponse false msg None code.

(** [questionIndex] is [None] when the request body has none. *)
Definition validateAnswerInput (sessionId : string) (questionIndex : option Z)
           (answer : string) : option string :=
  if negb (Js.truthy sessionId) then Some "Session ID is required"
  else if match questionIndex with None => true | Some i => i <? 0 end
  then Some "Invalid question index"
  else if (negb (Js.truthy answer) ||
           negb (Js.arrayIncludes (Js.toUpperCase answer) ["A"; "B"; "C"; "D"]))%bool
  then Some "Answer must be A, B, C, or D"
  else None.

Definition submitAnswer (sessionId : string) (questionIndex : option Z)
           (answer : string) : Store -> ApiResponse AnswerData * Store :=
  fun db =>
    match validateAnswerInput sessionId questionIndex answer with
    | Some validationError => (apiError validationError 400, db)
    | None =>
        let i := match questionIndex with Some i => i | None => 0 end in
        match QuizService.submitAnswer sessionId i answer db with
        | (Ok r, db') =>
            (apiSuccess "Answer submitted successfully"
               (mkAnswerData (r_isCorrect r) (r_correctAnswer r)
                             (r_explanation r) (i + 1)), db')
        | (Throw e, db') =>
            (apiError (if Js.truthy (errorMessage e) then errorMessage e
                       else "Failed to submit answer") 500, db')
        end
    end.

(** [arr.map((x, index) => f(x, index))], started at [index]. *)
Fixpoint mapFrom {A B : Type} (index : nat) (f : A -> nat -> B) (l : list A)
  : list B :=
  match l with
  | [] => []
  | x :: r => f x index :: mapFrom (S index) f r
  end.

Definition flatten {A : Type} (o : option (option A)) : option A :=
  match o with Some (Some a) => Some a | _ => None end.

Definition hiddenView (s : QuizSession) (q : Question) (index : nat) : QuestionView :=
  mkQuestionView (question q) (options q)
                 (flatten (nth_error (s_userAnswers s) index))
                 (Nat.ltb index (List.length (s_userAnswers s)))
                 None None None.

Definition revealedView (s : QuizSession) (q : Question) (index : nat) : QuestionView :=
  let v := hiddenView s q index in
  mkQuestionView (v_question v) (v_options v) (v_userAnswer v) (v_isAnswered v)
                 (Some (correctAnswer q)) (Some (explanation q))
                 (Some (Js.slotEquals (nth_error (s_userAnswers s) index)
                                      (correctAnswer q))).

Definition sanitizeQuizSession (s : QuizSession) : SessionView :=
  mkSessionView (s_id s) (s_category s) (s_difficulty s) (s_totalQuestions s)
                (Z.of_nat (List.length (s_userAnswers s))) (s_score s)
                (s_status s) (s_timeStarted s) (s_timeCompleted s)
                (s_rewardEarned s)
                (if String.eqb (s_status s) "completed"
                 then mapFrom 0 (revealedView s) (s_questions s)
                 else mapFrom 0 (hiddenView s) (s_questions s)).

Definition getQuizSession (userId sessionId : string)
  : Store -> ApiResponse SessionView :=
  fun db =>
    match QuizSessionModel.findOne sessionId userId db with
    | None => apiError "Quiz session not found" 404
    | Some quizSession =>
        apiSuccess "Quiz session retrieved successfully"
                   (sanitizeQuizSession quizSession)
    end.

Definition validCategories : list string :=
  ["science"; "technology"; "history"; "geography"; "sports";
   "entertainment"; "politics"; "art"; "literature"; "mathematics";
   "biology"; "physics"; "chemistry"; "general-knowledge"; "programming"].

Definition validDifficulties : list string := ["easy"; "medium"; "hard"].

Definition validateQuizStartInput (cat diff paymentReference : string)
  : option string :=
  if (negb (Js.truthy cat) || negb (Js.arrayIncludes cat validCategories))%bool
  then Some "Invalid quiz category"
  else if (negb (Js.truthy diff) || negb (Js.arrayIncludes diff validDifficulties))%bool
  then Some "Invalid difficulty level"
  else if negb (Js.truthy paymentReference)
  then Some "Payment reference is required"
  else None.

(** The [quizSession] object of the response to a start. *)
Record StartData : Type := mkStartData {
  sd_id : string;
  sd_category : string;
  sd_difficulty : string;
  sd_totalQuestions : Z;
  sd_timeStarted : Z;
  sd_status : string;
  sd_questions : list (string * list string)
}.

Section Generator.
Variable complete : string -> option (list Question * Z).
Variable buildPrompt : string -> string -> nat -> string.

(** The writes of [startQuiz] inside its [try]: the session, the fee taken
    from the user document of the request, the fee transaction. *)
Definition startQuizBody (now : Z) (newId : string) (user : User)
           (cat paymentReference : string) : M Store StartData :=
  bind (QuizService.startQuiz complete buildPrompt now newId (u_id user) cat
                              paymentReference)
    (fun quizSession =>
  bind (UserModel.save (mkUser (u_id user) (u_walletBalance user - 1.00)%float))
    (fun _ =>
  bind (TransactionModel.save
          (mkTransaction (u_id user) 1.00%float "debit" "completed"
                         ("Quiz fee for " ++ cat) "system"
                         ("quiz_fee_" ++ s_id quizSession)))
    (fun _ =>
  ret (mkStartData (s_id quizSession) (s_category quizSession)
                   (s_difficulty quizSession) (s_totalQuestions quizSession)
                   (s_timeStarted quizSession) (s_status quizSession)
                   (map (fun q => (question q, options q))
                        (s_questions quizSession)))))).

(** [user] is the document the authentication put on the request. *)
Definition startQuiz (now : Z) (newId : string) (user : User)
           (cat diff paymentReference : string)
  : Store -> ApiResponse StartData * Store :=
  fun db =>
    match validateQuizStartInput cat diff paymentReference with
    | Some validationError => (apiError validationError 400, db)
    | None =>
        if PrimFloat.ltb (u_walletBalance user) 1.00
        then (apiError "Insufficient wallet balance. Please top up your wallet." 400,
              db)
        else
          match startQuizBody now newId user cat paymentReference db with
          | (Ok d, db') => (apiSuccess "Quiz started successfully" d, db')
          | (Throw e, db') =>
              (apiError (if Js.truthy (errorMessage e) then errorMessage e
                         else "Failed to start quiz") 500, db')
          end
    end.

End Generator.

End QuizController.

(* ================================================================= *)
(** ** controllers/payment.controller.ts: withdrawal *)

Record WithdrawalData : Type := mkWithdrawalData {
  w_transaction : Transaction;
  w_newBalance : float
}.

Module PaymentController.

Definition validWithdrawalMethods : list string :=
  ["flutterwave"; "momo"; "bank_transfer"].

(** A number used as a condition: zero and NaN are falsy. *)
Definition truthyNumber (x : float) : bool :=
  (negb (PrimFloat.eqb x 0) && negb (Js.isNaN x))%bool.

(** [user] is the document the authentication put on the request; the
    reference of the transaction is built from the clock. *)
Definition withdrawFromWallet (now : Z) (user : User) (amount : float)
           (paymentMethod : string)
  : Store -> ApiResponse WithdrawalData * Store :=
  fun db =>
    if (negb (truthyNumber amount) || PrimFloat.leb amount 0)%bool
    then (QuizController.apiError "Invalid withdrawal amount" 400, db)
    else if PrimFloat.ltb (u_walletBalance user) amount
    then (QuizController.apiError "Insufficient wallet balance" 400, db)
    else if negb (Js.arrayIncludes paymentMethod validWithdrawalMethods)
    then (QuizController.apiError "Invalid withdrawal method" 400, db)
    else
      let transaction :=
        mkTransaction (u_id user) amount "credit" "pending"
                      ("Withdrawal to " ++ paymentMethod) paymentMethod
                      ("withdraw_" ++ Js.showInt now) in
      let user' := mkUser (u_id user) (u_walletBalance user - amount)%float in
      match promiseAll (TransactionModel.save transaction) (UserModel.save user') db with
      | (Ok _, db') =>
          (QuizController.apiSuccess "Withdrawal request submitted"
             (mkWithdrawalData transaction (u_walletBalance user')), db')
      | (Throw _, db') =>
          (QuizController.apiError "Failed to process withdrawal" 500, db')
      end.

End PaymentController.

(* ================================================================= *)
(** ** The JavaScript models and services/RewardService.js *)

Module Legacy.
Local Open Scope async_scope.

(** models/User.js *)
Record User : Type := mkUser {
  _id : string;
  walletBalance : float;
  totalEarnings : float;
  gamesPlayed : Z
}.

(** models/Transaction.js; an absent [paymentMethod] is the empty string. *)
Record Transaction : Type := mkTransaction {
  userId : string;
  type : string;
  amount : float;
  status : string;
  paymentMethod : string;
  reference : string;
  description : string
}.

(** models/GameSession.js; [timeSpent] is NaN when it was never set. *)
Record GameQuestion : Type := mkGameQuestion {
  gq_correctAnswer : string;
  gq_userAnswer : string;
  isCorrect : bool
}.

Record GameSession : Type := mkGameSession {
  g_id : string;
  g_userId : string;
  g_questions : list GameQuestion;
  totalScore : float;
  timeSpent : float;
  g_status : string;
  g_createdAt : Z
}.

Record Store : Type := mkStore {
  users : list User;
  transactions : list Transaction;
  gameSessions : list GameSession
}.

Definition types : list string := ["payment"; "payout"; "refund"; "reward"].
Definition statuses : list string := ["pending"; "success"; "failed"; "cancelled"].
Definition paymentMethods : list string := ["flutterwave"; "stripe"; "momo"; "wallet"].

Definition validate (t : Transaction) : option string :=
  firstInvalid
    [("userId", Js.truthy (userId t));
     ("type", Js.truthy (type t) && Js.arrayIncludes (type t) types);
     ("amount", negb (Js.isNaN (amount t)));
     ("status", Js.arrayIncludes (status t) statuses);
     ("paymentMethod",
     negb (Js.truthy (paymentMethod t)) ||
     Js.arrayIncludes (paymentMethod t) paymentMethods)]%bool.

(** [Transaction.create([t], { session })]; [reference] is unique. *)
Definition createTransaction (t : Transaction) : M Store unit :=
  fun db =>
    match validate t with
    | Some path => (Throw (ValidationError "Transaction" path), db)
    | None =>
        if existsb (fun t' => String.eqb (reference t') (reference t))
                   (transactions db)
        then (Throw (DuplicateKey "Transaction" "reference"), db)
        else (Ok tt, mkStore (users db) (transactions db ++ [t]) (gameSessions db))
    end.

(** [User.findByIdAndUpdate(userId, { $inc: {...} }, { session })] *)
Definition creditUser (id : string) (amt : float) : M Store unit :=
  fun db =>
    (Ok tt,
     mkStore
       (updateFirst (fun u => String.eqb (_id u) id)
                    (fun u => mkUser (_id u) (walletBalance u + amt)%float
                                     (totalEarnings u + amt)%float
                                     (gamesPlayed u + 1))
                    (users db))
       (transactions db) (gameSessions db)).

(** [startTransaction] ... [commitTransaction] / [abortTransaction]: the
    writes made under the session reach the store together on commit;
    on abort the store is the one the transaction started from, and the
    error is thrown again. *)
Definition inTransaction {A : Type} (body : M Store A) : M Store A :=
  fun db =>
    match body db with
    | (Ok a, db') => (Ok a, db')
    | (Throw e, _) => (Throw e, db)
    end.

Module RewardService.

Definition calculateBaseReward (accuracy : float) (totalQuestions : nat) : float :=
  let baseAmount := (Js.ofNat totalQuestions * 2)%float in
  (Js.floor (baseAmount * accuracy * 100) / 100)%float.

Definition calculateTimeBonus (timeSpent : float) (totalQuestions : nat) : float :=
  let avgTimePerQuestion := 30%float in
  let expectedTime := (Js.ofNat totalQuestions * avgTimePerQuestion)%float in
  if PrimFloat.ltb timeSpent expectedTime then
    let timeSaved := (expectedTime - timeSpent)%float in
    (timeSaved / 60 * 0.5)%float
  else 0%float.

(** [GameSession.countDocuments({...})] *)
Definition recentWins (now : Z) (uid : string) (db : Store) : nat :=
  List.length
    (List.filter
       (fun g => String.eqb (g_userId g) uid &&
                 String.eqb (g_status g) "completed" &&
                 PrimFloat.leb 0.7 (totalScore g) &&
                 (now - 24 * 60 * 60 * 1000 <=? g_createdAt g))%bool
       (gameSessions db)).

Definition calculateStreakBonus (now : Z) (uid : string) : M Store float :=
  db <- get ;;
  ret (Js.ofNat (recentWins now uid db) * 2)%float.

Definition distributeReward (uid : string) (amt : float) (gameSessionId : string)
  : M Store unit :=
  inTransaction
    (creditUser uid amt ;;;
     createTransaction
       (mkTransaction uid "reward" amt "success" "wallet"
                      ("REWARD_" ++ gameSessionId)
                      ("Quiz reward for session " ++ gameSessionId))).

Definition calculateReward (now : Z) (gameSession : GameSession) : M Store float :=
  let correctAnswers := List.length (List.filter isCorrect (g_questions gameSession)) in
  let totalQuestions := List.length (g_questions gameSession) in
  let accuracy := (Js.ofNat correctAnswers / Js.ofNat totalQuestions)%float in
  let baseReward := calculateBaseReward accuracy totalQuestions in
  let timeBonus := calculateTimeBonus (timeSpent gameSession) totalQuestions in
  streakBonus <- calculateStreakBonus now (g_userId gameSession) ;;
  let totalReward := (baseReward + timeBonus + streakBonus)%float in
  distributeReward (g_userId gameSession) totalReward (g_id gameSession) ;;;
  ret totalReward.

End RewardService.

Definition findUser (id : string) (db : Store) : option User :=
  List.find (fun u => String.eqb (_id u) id) (users db).

End Legacy.

(* ================================================================= *)
(** ** Observations on a store *)

Definition walletOf (uid : string) (db : Store) : option float :=
  option_map u_walletBalance (UserModel.findById uid db).

Definition statusOf (sessionId : string) (db : Store) : option string :=
  option_map s_status (QuizSessionModel.findById sessionId db).


(** The ledger entries carrying a given reference. *)
Definition rewardsFor (ref : string) (db : Legacy.Store) : list Legacy.Transaction :=
  List.filter (fun t => String.eqb (Legacy.reference t) ref) (Legacy.transactions db).

(** The document [cacheQuestions] builds and hands to [save]. *)
Definition entryFor (now : Z) (qs : list Question) (cat diff : string)
           (metrics : AIResponseMetrics) (prompt : string) : AIQuestion :=
  AIQuestionModel.create now (Js.toLowerCase cat) (Js.toLowerCase diff) qs
    (m_model metrics) prompt (m_tokensUsed metrics) (m_cost metrics).

(** The three checks on a question set: one to twenty questions, each
    with exactly four non-empty options and a correct answer among the
    labels A to D. *)
Definition wellFormedSet (qs : list Question) : Prop :=
  (1 <= List.length qs <= 20)%nat /\
  Forall (fun q => List.length (options q) = 4%nat /\
                   Forall (fun opt => opt <> "") (options q) /\
                   In (correctAnswer q) ["A"; "B"; "C"; "D"]) qs.




(** The fields of a cache entry fixed when it is stored. *)
Definition fixedPart (e : AIQuestion)
  : string * string * list Question * string * string * Z * float * string * Z * Z :=
  (category e, difficulty e, questions e, aiModel e, aiPrompt e, tokensUsed e,
   cost e, cacheKey e, expiresAt e, createdAt e).

(** The entries a lookup for a category and a difficulty may serve. *)
Definition servable (cat diff : string) (e : AIQuestion) : bool :=
  (String.eqb (category e) (Js.toLowerCase cat) &&
   String.eqb (difficulty e) (Js.toLowerCase diff) && isActive e)%bool.

(** The statistics [getCacheStats] reports on a store. *)
Definition statsOf (db : Store) : CacheStats :=
  match fst (AIQuestionService.getCacheStats db) with
  | Ok st => st
  | Throw _ => mkCacheStats 0 0 0 0%float
  end.

(** No two entries of the durable cache share a cache key. *)
Definition uniqueKeys (db : Store) : Prop :=
  NoDup (map cacheKey (aiQuestions db)).

(** A method that keeps a property of the store, whatever it returns. *)
Definition preserves {A : Type} (P : Store -> Prop) (m : M Store A) : Prop :=
  forall db, P db -> P (snd (m db)).

(** Two stores with the same users, sessions and ledger. *)
Definition sameAccounts (db db' : Store) : Prop :=
  users db' = users db /\ quizSessions db' = quizSessions db /\
  transactions db' = transactions db.

(** A method that leaves users, sessions and ledger alone, whatever it
    returns. *)
Definition keepsAccounts {A : Type} (m : M Store A) : Prop :=
  forall db, sameAccounts db (snd (m db)).

(** The answers [validateAnswerInput] lets through. *)
Definition acceptedAnswers : list string :=
  ["A"; "B"; "C"; "D"; "a"; "b"; "c"; "d"].

(* ================================================================= *)
(** ** Concrete stores used by the examples *)

Module Fixtures.

Definition q1 : Question :=
  mkQuestion "What is 2 + 2 ?" ["3"; "4"; "5"; "6"] "B"
             (Some "Two and two make four.") None None.

Definition q2 : Question :=
  mkQuestion "Which planet is known as the red planet?"
             ["Mars"; "Venus"; "Jupiter"; "Mercury"] "A"
             (Some "Iron oxide gives Mars its colour.") None None.

Definition topUp : Transaction :=
  mkTransaction "u1" 5%float "credit" "completed" "Wallet top up" "stripe" "pay1".

(** A session with one question, answered correctly, in a given status. *)
Definition sessionIn (status : string) : QuizSession :=
  mkQuizSession "s1" "u1" "science" [q1] [Some "B"] 0 1 1000 None status
                "pay1" 0%float "medium".

Definition storeWith (s : QuizSession) : Store :=
  mkStore [] [] [mkUser "u1" 0%float] [s] [topUp].

Definition activeStore : Store := storeWith (sessionIn "active").
Definition abandonedStore : Store := storeWith (sessionIn "abandoned").

(** A store with the payment "pay1" of user "u1" and no session yet. *)
Definition paidStore : Store := mkStore [] [] [mkUser "u1" 5%float] [] [topUp].

(** A store without any payment. *)
Definition unpaidStore : Store := mkStore [] [] [mkUser "u1" 0%float] [] [].

Definition noCompletion (prompt : string) : option (list Question * Z) := None.
Definition twoQuestions (prompt : string) : option (list Question * Z) :=
  Some ([q1; q2], 120).
Definition plainPrompt (cat diff : string) (count : nat) : string :=
  "Generate questions about " ++ cat.

Definition metrics : AIResponseMetrics := mkMetrics 120 0 0%float "gpt-3.5-turbo".

(** Ten questions, seven of them answered correctly, in 150 seconds. *)
Definition gameQuestion (ok : bool) : Legacy.GameQuestion :=
  Legacy.mkGameQuestion "A" (if ok then "A" else "B") ok.

Definition game : Legacy.GameSession :=
  Legacy.mkGameSession "g1" "u1"
    (map gameQuestion [true; true; true; false; true; true; false; true; false; true])
    0%float 150%float "active" 1000.

Definition legacyStore : Legacy.Store :=
  Legacy.mkStore [Legacy.mkUser "u1" 100%float 0%float 0] [] [].

(** A cache entry that expired at time 2000. *)
Definition expiredEntry : AIQuestion :=
  mkAIQuestion "science" "easy" [q1] "gpt-3.5-turbo" "prompt" 120
               0.00024%float "ai_questions:science:easy:0" true 3 1500 2000 1000
               1500.

Definition cacheStore : Store := mkStore [expiredEntry] [] [] [] [].

(** A cache entry with ten questions for science at medium difficulty,
    in a store where user "u1" holds the payment "pay1". *)
Definition stockedEntry : AIQuestion :=
  mkAIQuestion "science" "medium"
               (map AIQuestionModel.castQuestion
                    [q1; q2; q1; q2; q1; q2; q1; q2; q1; q2])
               "gpt-3.5-turbo" "prompt" 900 0.0018%float
               "ai_questions:science:medium:0" true 0 1000 86401000 1000 1000.

Definition stockedStore : Store :=
  mkStore [stockedEntry] [] [mkUser "u1" 5%float] [] [topUp].

End Fixtures.

(* ================================================================= *)
(** * Properties *)

(** ** Lists and strings *)

Lemma truthy_true (s : string) : Js.truthy s = true <-> s <> "".
Proof.
  unfold Js.truthy. rewrite negb_true_iff. split.
  - intros H E. subst s. discriminate H.
  - intro H. apply String.eqb_neq. exact H.
Qed.

Lemma arrayIncludes_In (x : string) (arr : list string) :
  Js.arrayIncludes x arr = true <-> In x arr.
Proof.
  unfold Js.arrayIncludes. rewrite existsb_exists. split.
  - intros [y [Hy E]]. apply String.eqb_eq in E. subst y. exact Hy.
  - intro H. exists x. split; [exact H | apply String.eqb_refl].
Qed.

Lemma firstInvalid_none_all (checks : list (string * bool)) :
  firstInvalid checks = None -> forall p b, In (p, b) checks -> b = true.
Proof.
  induction checks as [|[p0 b0] r IH]; simpl; intros H p b Hin.
  - contradiction.
  - destruct b0; [|discriminate]. destruct Hin as [E | Hin].
    + inversion E. reflexivity.
    + eapply IH; eassumption.
Qed.

Lemma slotEquals_assign {a : list (option string)} (i j : nat) (v s : string) :
  Js.slotEquals (nth_error (Js.assign a i v) j) s =
  if Nat.eqb j i then String.eqb v s else Js.slotEquals (nth_error a j) s.
Proof.
  revert a j. induction i as [|i IH]; intros a j.
  - destruct a as [|x r], j as [|j]; simpl; try reflexivity.
    destruct j; reflexivity.
  - destruct a as [|x r], j as [|j]; simpl; try reflexivity.
    + rewrite IH. destruct (Nat.eqb j i); [reflexivity|]. destruct j; reflexivity.
    + apply IH.
Qed.

Lemma nth_error_assign_same {a : list (option string)} (i : nat) (v : string) :
  nth_error (Js.assign a i v) i = Some (Some v).
Proof.
  revert a. induction i as [|i IH]; intros [|x r]; simpl; auto.
Qed.

(** ** Scoring *)

Lemma scoreFrom_assign_before qs :
  forall k a i v, (i < k)%nat ->
    QuizService.scoreFrom k qs (Js.assign a i v) = QuizService.scoreFrom k qs a.
Proof.
  induction qs as [|q r IH]; intros k a i v Hlt; simpl; [reflexivity|].
  rewrite slotEquals_assign.
  replace (Nat.eqb k i) with false by (symmetry; apply Nat.eqb_neq; lia).
  rewrite IH by lia. reflexivity.
Qed.

Lemma scoreFrom_assign_wrong qs :
  forall k a i v q,
    nth_error qs i = Some q ->
    String.eqb v (correctAnswer q) = false ->
    QuizService.scoreFrom k qs (Js.assign a (k + i) v) =
    QuizService.scoreFrom k qs a
    - (if Js.slotEquals (nth_error a (k + i)) (correctAnswer q) then 1 else 0).
Proof.
  induction qs as [|q0 r IH]; intros k a i v q Hq Hv.
  - destruct i; discriminate Hq.
  - destruct i as [|i]; simpl in Hq |- *.
    + inversion Hq; subst q0. rewrite Nat.add_0_r.
      rewrite slotEquals_assign, Nat.eqb_refl, Hv.
      rewrite scoreFrom_assign_before by lia. lia.
    + rewrite slotEquals_assign.
      replace (Nat.eqb k (k + S i)) with false by (symmetry; apply Nat.eqb_neq; lia).
      replace (k + S i)%nat with (S k + i)%nat by lia.
      rewrite (IH (S k) a i v q Hq Hv). lia.
Qed.

(** ** Sessions in the store *)

Lemma findById_some (id : string) (db : Store) (s : QuizSession) :
  QuizSessionModel.findById id db = Some s ->
  In s (quizSessions db) /\ s_id s = id.
Proof.
  unfold QuizSessionModel.findById. intro H.
  apply find_some in H. destruct H as [Hin E].
  apply String.eqb_eq in E. split; assumption.
Qed.

Lemma find_replace (s : QuizSession) (l : list QuizSession) (s0 : QuizSession) :
  List.find (fun x => String.eqb (s_id x) (s_id s)) l = Some s0 ->
  List.find (fun x => String.eqb (s_id x) (s_id s)) (QuizSessionModel.replace s l)
  = Some s.
Proof.
  induction l as [|x r IH]; simpl; intro H; [discriminate|].
  destruct (String.eqb (s_id x) (s_id s)) eqn:E; simpl.
  - rewrite String.eqb_refl. reflexivity.
  - rewrite E. apply IH. exact H.
Qed.

Lemma save_loaded (s s0 : QuizSession) (db : Store) :
  QuizSessionModel.findById (s_id s) db = Some s0 ->
  QuizSessionModel.validate s = None ->
  QuizSessionModel.save s db =
    (Ok tt, setQuizSessions (QuizSessionModel.replace s (quizSessions db)) db) /\
  QuizSessionModel.findById (s_id s)
    (setQuizSessions (QuizSessionModel.replace s (quizSessions db)) db) = Some s.
Proof.
  intros Hfind Hval. unfold QuizSessionModel.save. rewrite Hval.
  split; [reflexivity|].
  unfold QuizSessionModel.findById in *. simpl. eapply find_replace. exact Hfind.
Qed.

(** What [submitAnswer] does on an active session and a valid index. *)
Lemma submitAnswer_active (db : Store) (session : QuizSession) (q : Question)
      (sessionId : string) (i : Z) (answer : string) :
  QuizSessionModel.findById sessionId db = Some session ->
  s_status session = "active" ->
  QuizSessionModel.validate session = None ->
  Js.index (s_questions session) i = Some q ->
  let session' :=
    QuizService.setUserAnswers
      (Js.assign (s_userAnswers session) (Z.to_nat i) answer) session in
  exists db',
    QuizService.submitAnswer sessionId i answer db =
      (Ok (mkAnswerResult (String.eqb answer (correctAnswer q))
                          (correctAnswer q) (explanation q)), db') /\
    QuizSessionModel.findById sessionId db' = Some session'.
Proof.
  intros Hfind Hst Hval Hq session'.
  destruct (findById_some _ _ _ Hfind) as [_ Hid].
  assert (Hid' : s_id session' = sessionId) by exact Hid.
  assert (Hval' : QuizSessionModel.validate session' = None) by exact Hval.
  rewrite <- Hid' in Hfind.
  destruct (save_loaded session' session db Hfind Hval') as [Hsave Hget].
  rewrite Hid' in Hfind, Hget.
  eexists. split; [|exact Hget].
  unfold QuizService.submitAnswer, bind, get, ret.
  rewrite Hfind, Hst, String.eqb_refl, Hq.
  change (negb true) with false. cbv beta iota.
  fold session'. rewrite Hsave. reflexivity.
Qed.

Lemma index_nth_error {A : Type} (l : list A) (i : Z) (x : A) :
  Js.index l i = Some x -> 0 <= i /\ nth_error l (Z.to_nat i) = Some x.
Proof.
  unfold Js.index. destruct (i <? 0) eqn:E; [discriminate|].
  apply Z.ltb_ge in E. auto.
Qed.

(** C10.  A submitted answer that differs from the stored correct label
    only in letter case passes [validateAnswerInput], which upper-cases it
    for the membership test only; [submitAnswer] stores it verbatim and
    reports it as incorrect, and the scoring loop of [completeQuiz] does not
    count that question: the new score is the old one less the point the
    slot may have carried before. *)
Theorem case_variant_answer_scored_incorrect
        (db : Store) (session : QuizSession) (q : Question)
        (sessionId : string) (i : Z) (answer : string) :
  QuizSessionModel.findById sessionId db = Some session ->
  s_status session = "active" ->
  QuizSessionModel.validate session = None ->
  Js.index (s_questions session) i = Some q ->
  In (correctAnswer q) ["A"; "B"; "C"; "D"] ->
  answer <> correctAnswer q ->
  Js.toUpperCase answer = Js.toUpperCase (correctAnswer q) ->
  sessionId <> "" ->
  QuizController.validateAnswerInput sessionId (Some i) answer = None /\
  exists db' session',
    QuizService.submitAnswer sessionId i answer db =
      (Ok (mkAnswerResult false (correctAnswer q) (explanation q)), db') /\
    QuizSessionModel.findById sessionId db' = Some session' /\
    s_questions session' = s_questions session /\
    nth_error (s_userAnswers session') (Z.to_nat i) = Some (Some answer) /\
    QuizService.scoreFrom 0 (s_questions session') (s_userAnswers session') =
      QuizService.scoreFrom 0 (s_questions session) (s_userAnswers session)
      - (if Js.slotEquals (nth_error (s_userAnswers session) (Z.to_nat i))
                          (correctAnswer q) then 1 else 0).
Proof.
  intros Hfind Hst Hval Hq Hlabel Hne Hcase Hsid.
  assert (Hwrong : String.eqb answer (correctAnswer q) = false)
    by (apply String.eqb_neq; exact Hne).
  destruct (index_nth_error _ _ _ Hq) as [Hi Hnth].
  split.
  - assert (H1 : Js.truthy sessionId = true) by (apply truthy_true; exact Hsid).
    assert (H2 : (i <? 0) = false) by (apply Z.ltb_ge; exact Hi).
    assert (Hup : Js.arrayIncludes (Js.toUpperCase answer) ["A"; "B"; "C"; "D"] = true).
    { rewrite Hcase. simpl in Hlabel.
      destruct Hlabel as [E | [E | [E | [E | []]]]]; rewrite <- E; reflexivity. }
    assert (Hne' : Js.truthy answer = true).
    { apply truthy_true. intro E. subst answer. simpl in Hcase.
      simpl in Hlabel.
      destruct Hlabel as [E | [E | [E | [E | []]]]]; rewrite <- E in Hcase;
        discriminate Hcase. }
    unfold QuizController.validateAnswerInput.
    rewrite H1, H2, Hup, Hne'. reflexivity.
  - destruct (submitAnswer_active db session q sessionId i answer Hfind Hst Hval Hq)
      as [db' [Hrun Hget]].
    rewrite Hwrong in Hrun.
    eexists. eexists. split; [exact Hrun|]. split; [exact Hget|].
    split; [reflexivity|]. split.
    + simpl. apply nth_error_assign_same.
    + simpl.
      apply (scoreFrom_assign_wrong (s_questions session) 0%nat
               (s_userAnswers session) (Z.to_nat i) answer q Hnth Hwrong).
Qed.

(** At the store [activeStore], session "s1" holds one question whose label
    is "B"; the answer "b" is accepted, stored as "b" and not counted. *)
Lemma case_variant_answer_scored_incorrect_witness :
  QuizController.validateAnswerInput "s1" (Some 0) "b" = None /\
  exists db' session',
    QuizService.submitAnswer "s1" 0 "b" Fixtures.activeStore =
      (Ok (mkAnswerResult false "B" (Some "Two and two make four.")), db') /\
    QuizSessionModel.findById "s1" db' = Some session' /\
    s_questions session' = [Fixtures.q1] /\
    nth_error (s_userAnswers session') 0 = Some (Some "b") /\
    QuizService.scoreFrom 0 (s_questions session') (s_userAnswers session') = 0.
Proof.
  apply (case_variant_answer_scored_incorrect
           Fixtures.activeStore (Fixtures.sessionIn "active") Fixtures.q1 "s1" 0 "b").
  - reflexivity.
  - reflexivity.
  - reflexivity.
  - reflexivity.
  - simpl. auto.
  - discriminate.
  - reflexivity.
  - discriminate.
Defined.

(** ** Starting a quiz *)

Lemma findOne_none (ref uid st : string) (db : Store) :
  (forall t, In t (transactions db) ->
     ~ (t_paymentReference t = ref /\ t_user t = uid /\ t_status t = st)) ->
  TransactionModel.findOne ref uid st db = None.
Proof.
  intro H. unfold TransactionModel.findOne.
  destruct (List.find _ (transactions db)) as [t|] eqn:E; [|reflexivity].
  apply find_some in E. destruct E as [Hin Hm].
  apply andb_prop in Hm. destruct Hm as [Hm H3].
  apply andb_prop in Hm. destruct Hm as [Hm1 Hm2].
  apply String.eqb_eq in Hm1, Hm2, H3.
  exfalso. apply (H t Hin). auto.
Qed.

Lemma findOne_some (ref uid st : string) (db : Store) (t : Transaction) :
  TransactionModel.findOne ref uid st db = Some t ->
  In t (transactions db) /\
  t_paymentReference t = ref /\ t_user t = uid /\ t_status t = st.
Proof.
  unfold TransactionModel.findOne. intro E.
  apply find_some in E. destruct E as [Hin Hm].
  apply andb_prop in Hm. destruct Hm as [Hm H3].
  apply andb_prop in Hm. destruct Hm as [Hm1 Hm2].
  apply String.eqb_eq in Hm1, Hm2, H3. auto.
Qed.

(** C6.  [startQuiz] returns a session only when the store holds a
    transaction with the given payment reference, the given user and
    status "completed"; when there is none it throws "Payment not
    verified" and leaves the store, and so the sessions, as they were. *)
Theorem startQuiz_requires_verified_payment
        (complete : string -> option (list Question * Z))
        (buildPrompt : string -> string -> nat -> string)
        (now : Z) (newId userId cat paymentReference : string) (db : Store) :
  ((forall t, In t (transactions db) ->
      ~ (t_paymentReference t = paymentReference /\ t_user t = userId /\
         t_status t = "completed")) ->
   QuizService.startQuiz complete buildPrompt now newId userId cat
                         paymentReference db
   = (Throw (Error_ "Payment not verified"), db)) /\
  (forall session db',
      QuizService.startQuiz complete buildPrompt now newId userId cat
                            paymentReference db = (Ok session, db') ->
      exists t, In t (transactions db) /\
                t_paymentReference t = paymentReference /\
                t_user t = userId /\ t_status t = "completed").
Proof.
  split.
  - intro Hnone. unfold QuizService.startQuiz, bind, get.
    rewrite (findOne_none _ _ _ _ Hnone). reflexivity.
  - intros session db'. unfold QuizService.startQuiz, bind, get.
    destruct (TransactionModel.findOne paymentReference userId "completed" db)
      as [t|] eqn:E.
    + intros _. exists t. apply findOne_some. exact E.
    + intro H. discriminate H.
Qed.

(** In [unpaidStore] no transaction exists, so the start is refused.  *)
Lemma startQuiz_requires_verified_payment_witness :
  QuizService.startQuiz Fixtures.twoQuestions Fixtures.plainPrompt
                        5000 "s9" "u1" "science" "pay1" Fixtures.unpaidStore
  = (Throw (Error_ "Payment not verified"), Fixtures.unpaidStore).
Proof.
  apply (proj1 (startQuiz_requires_verified_payment
                  Fixtures.twoQuestions Fixtures.plainPrompt
                  5000 "s9" "u1" "science" "pay1" Fixtures.unpaidStore)).
  intros t Hin. simpl in Hin. contradiction.
Defined.

(** With a verified payment and a durable cache entry of ten questions,
    the session is created in state "active" with those questions. *)
Example startQuiz_after_payment :
  exists session db',
    QuizService.startQuiz Fixtures.twoQuestions Fixtures.plainPrompt
                          5000 "s9" "u1" "science" "pay1" Fixtures.stockedStore
    = (Ok session, db') /\
    s_status session = "active" /\
    s_totalQuestions session = 10 /\
    quizSessions db' = [session].
Proof.
  eexists. eexists. split; [vm_compute; reflexivity|].
  repeat split.
Qed.

(** With a verified payment and nothing in either cache tier, the start
    fails and no session is stored, whether the generator answers or
    not. *)
Example startQuiz_generation_failure :
  QuizService.startQuiz Fixtures.noCompletion Fixtures.plainPrompt
                        5000 "s9" "u1" "science" "pay1" Fixtures.paidStore
  = (Throw (Error_ "Failed to generate questions"), Fixtures.paidStore) /\
  QuizService.startQuiz Fixtures.twoQuestions Fixtures.plainPrompt
                        5000 "s9" "u1" "science" "pay1" Fixtures.paidStore
  = (Throw (Error_ "Failed to generate questions"), Fixtures.paidStore).
Proof. split; vm_compute; reflexivity. Qed.

(** ** Terminal sessions *)

(** [submitAnswer] refuses a session that is not active and writes
    nothing. *)
Lemma submitAnswer_rejects_terminal (db : Store) (session : QuizSession)
      (sessionId : string) (i : Z) (answer : string) :
  QuizSessionModel.findById sessionId db = Some session ->
  s_status session <> "active" ->
  QuizService.submitAnswer sessionId i answer db
  = (Throw (Error_ "Quiz session is not active"), db).
Proof.
  intros Hfind Hst. unfold QuizService.submitAnswer, bind, get.
  rewrite Hfind.
  replace (String.eqb (s_status session) "active") with false
    by (symmetry; apply String.eqb_neq; exact Hst).
  reflexivity.
Qed.

(** What [completeQuiz] writes, whatever the status of the session it
    finds: the wallet is credited before anything else is attempted. *)
Lemma completeQuiz_credits_first (now : Z) (sessionId userId : string)
      (db : Store) (session : QuizSession) :
  QuizSessionModel.findOne sessionId userId db = Some session ->
  exists r db',
    QuizService.completeQuiz now sessionId userId db = (r, db') /\
    users db' =
      updateFirst (fun u => String.eqb (u_id u) userId)
        (fun u => mkUser (u_id u)
                    (u_walletBalance u +
                     Js.ofZ (QuizService.scoreFrom 0 (s_questions session)
                                                   (s_userAnswers session))
                     * QuizService.rewardRate)%float)
        (users db).
Proof.
  intro Hfind.
  unfold QuizService.completeQuiz, bind, get. rewrite Hfind.
  unfold UserModel.incWalletBalance, promiseAll, ret.
  cbv beta iota.
  match goal with
  | |- context [QuizSessionModel.save ?s ?d] =>
      destruct (QuizSessionModel.save s d) as [r1 d1] eqn:E1
  end.
  assert (Hu1 : users d1 = users
            (setUsers
               (updateFirst (fun u => String.eqb (u_id u) userId)
                  (fun u => mkUser (u_id u)
                     (u_walletBalance u +
                      Js.ofZ (QuizService.scoreFrom 0 (s_questions session)
                                (s_userAnswers session))
                      * QuizService.rewardRate)%float)
                  (users db)) db)).
  { unfold QuizSessionModel.save in E1.
    destruct (QuizSessionModel.validate _); inversion E1; reflexivity. }
  match goal with
  | |- context [TransactionModel.save ?t ?d] =>
      destruct (TransactionModel.save t d) as [r2 d2] eqn:E2
  end.
  assert (Hu2 : users d2 = users d1).
  { unfold TransactionModel.save in E2.
    destruct (TransactionModel.validate _); [inversion E2; reflexivity|].
    destruct (existsb _ _); inversion E2; reflexivity. }
  destruct r1, r2; eexists; eexists; (split; [reflexivity|]);
    rewrite Hu2, Hu1; reflexivity.
Qed.

(** C3.  [completeQuiz] has no guard on the status: run on the abandoned
    session "s1" it scores the session again, moves it to "completed" and
    credits the wallet, although the call itself ends in an error. *)
Theorem completeQuiz_settles_abandoned_session :
  statusOf "s1" Fixtures.abandonedStore = Some "abandoned" /\
  walletOf "u1" Fixtures.abandonedStore = Some 0%float /\
  exists r db' session',
    QuizService.completeQuiz 9000 "s1" "u1" Fixtures.abandonedStore = (r, db') /\
    QuizSessionModel.findById "s1" db' = Some session' /\
    s_status session' = "completed" /\
    s_score session' = 1 /\
    s_timeCompleted session' = Some 9000 /\
    walletOf "u1" db' = Some 0.1%float.
Proof.
  split; [reflexivity|]. split; [reflexivity|].
  eexists. eexists. eexists.
  split; [vm_compute; reflexivity|].
  split; [vm_compute; reflexivity|].
  repeat split.
Qed.

(** C1.  In [completeQuiz] the three writes are separate: on the active
    session "s1" the insertion of the reward transaction is refused (its
    [paymentMethod] "system" is not in the schema's enum) and the call
    throws, yet the wallet has been credited, the session is stored as
    completed, and the ledger has no reward entry. *)
Theorem completeQuiz_failure_keeps_partial_writes :
  exists db',
    QuizService.completeQuiz 9000 "s1" "u1" Fixtures.activeStore
    = (Throw (ValidationError "Transaction" "paymentMethod"), db') /\
    walletOf "u1" Fixtures.activeStore = Some 0%float /\
    walletOf "u1" db' = Some 0.1%float /\
    statusOf "s1" Fixtures.activeStore = Some "active" /\
    statusOf "s1" db' = Some "completed" /\
    transactions db' = transactions Fixtures.activeStore.
Proof.
  eexists. split; [vm_compute; reflexivity|].
  repeat split.
Qed.

(** C2.  Two calls of [completeQuiz] on the same session credit the wallet
    twice (0.1 + 0.1), and no transaction with the reference derived from
    the session id exists afterwards. *)
Theorem completeQuiz_twice_credits_twice :
  exists r1 db1 r2 db2,
    QuizService.completeQuiz 9000 "s1" "u1" Fixtures.activeStore = (r1, db1) /\
    QuizService.completeQuiz 9500 "s1" "u1" db1 = (r2, db2) /\
    walletOf "u1" Fixtures.activeStore = Some 0%float /\
    walletOf "u1" db1 = Some 0.1%float /\
    walletOf "u1" db2 = Some 0.2%float /\
    List.filter (fun t => String.eqb (t_paymentReference t) "reward_s1")
                (transactions db2) = [].
Proof.
  eexists. eexists. eexists. eexists.
  split; [vm_compute; reflexivity|].
  split; [vm_compute; reflexivity|].
  repeat split.
Qed.

(** The reward of [completeQuiz] is a flat rate per correct answer: seven
    correct answers earn 7 * 0.10 in binary64. *)
Example completeQuiz_flat_rate :
  (Js.ofZ 7 * QuizService.rewardRate)%float = 0.7000000000000001%float.
Proof. vm_compute. reflexivity. Qed.

(** ** Settlement in RewardService *)

(** [distributeReward] is all or nothing: when it throws, the store is the
    one it started from. *)
Lemma distributeReward_all_or_nothing (uid : string) (amt : float)
      (gid : string) (db db' : Legacy.Store) (e : error) :
  Legacy.RewardService.distributeReward uid amt gid db = (Throw e, db') ->
  db' = db.
Proof.
  unfold Legacy.RewardService.distributeReward, Legacy.inTransaction.
  destruct (bind _ _ db) as [[a|e'] d]; intro H; inversion H; reflexivity.
Qed.


(** Once a reward with the reference of a session is in the ledger, a
    further [distributeReward] for that session is rejected and changes
    nothing. *)
Lemma distributeReward_settled_rejected (uid : string) (amt : float)
      (gid : string) (db : Legacy.Store) :
  existsb (fun t => String.eqb (Legacy.reference t) ("REWARD_" ++ gid))
          (Legacy.transactions db) = true ->
  exists e, Legacy.RewardService.distributeReward uid amt gid db = (Throw e, db).
Proof.
  intro Hdup.
  unfold Legacy.RewardService.distributeReward, Legacy.inTransaction, bind,
    Legacy.creditUser, Legacy.createTransaction.
  destruct (Legacy.validate _).
  - eexists. reflexivity.
  - cbn [Legacy.transactions Legacy.reference]. rewrite Hdup.
    eexists. reflexivity.
Qed.

Lemma find_updateFirst {A : Type} (hit : A -> bool) (f : A -> A) (l : list A) :
  (forall x, hit (f x) = hit x) ->
  List.find hit (updateFirst hit f l) = option_map f (List.find hit l).
Proof.
  intro Hf. induction l as [|x r IH]; simpl; [reflexivity|].
  destruct (hit x) eqn:E; simpl.
  - rewrite Hf, E. reflexivity.
  - rewrite E. exact IH.
Qed.


Lemma filter_none {A : Type} (p : A -> bool) (l : list A) :
  (forall x, In x l -> p x = false) -> List.filter p l = [].
Proof.
  induction l as [|x r IH]; simpl; intro H; [reflexivity|].
  rewrite (H x (or_introl eq_refl)). apply IH. intros y Hy. apply H. right. exact Hy.
Qed.





(** ** The answer-reveal policy *)

Lemma nth_error_mapFrom {A B : Type} (f : A -> nat -> B) (l : list A) :
  forall k i,
    nth_error (QuizController.mapFrom k f l) i =
    option_map (fun x => f x (k + i)%nat) (nth_error l i).
Proof.
  induction l as [|x r IH]; intros k i.
  - destruct i; reflexivity.
  - destruct i as [|i]; simpl.
    + rewrite Nat.add_0_r. reflexivity.
    + rewrite IH. replace (S k + i)%nat with (k + S i)%nat by lia. reflexivity.
Qed.

Lemma Forall_mapFrom {A B : Type} (P : B -> Prop) (f : A -> nat -> B) (l : list A) :
  (forall x i, P (f x i)) -> forall k, Forall P (QuizController.mapFrom k f l).
Proof.
  intro H. induction l as [|x r IH]; intro k; simpl; constructor; auto.
Qed.

Lemma length_mapFrom {A B : Type} (f : A -> nat -> B) (l : list A) :
  forall k, List.length (QuizController.mapFrom k f l) = List.length l.
Proof.
  induction l as [|x r IH]; intro k; simpl; [reflexivity|]. rewrite IH. reflexivity.
Qed.

(** C4 (amended).  The read view of a session that is not completed, an
    active one in particular, carries no [correctAnswer], [explanation] or
    [isCorrect] for any question; the read view of a completed session
    carries all three for every question; and the result of [submitAnswer]
    on an active session carries the correct answer and the explanation of
    the question that was answered. *)
Theorem reveal_policy (s : QuizSession) :
  (s_status s <> "completed" ->
   Forall (fun v => v_correctAnswer v = None /\ v_explanation v = None /\
                    v_isCorrect v = None)
          (sv_questions (QuizController.sanitizeQuizSession s))) /\
  (s_status s = "completed" ->
   List.length (sv_questions (QuizController.sanitizeQuizSession s))
     = List.length (s_questions s) /\
   forall i q, nth_error (s_questions s) i = Some q ->
     exists v,
       nth_error (sv_questions (QuizController.sanitizeQuizSession s)) i = Some v /\
       v_correctAnswer v = Some (correctAnswer q) /\
       v_explanation v = Some (explanation q) /\
       v_isCorrect v =
         Some (Js.slotEquals (nth_error (s_userAnswers s) i) (correctAnswer q))) /\
  (s_status s = "active" ->
   forall db i answer q r db',
     QuizSessionModel.findById (s_id s) db = Some s ->
     Js.index (s_questions s) i = Some q ->
     QuizService.submitAnswer (s_id s) i answer db = (Ok r, db') ->
     r_correctAnswer r = correctAnswer q /\ r_explanation r = explanation q).
Proof.
  split; [|split].
  - intro Hst. unfold QuizController.sanitizeQuizSession.
    cbn [sv_questions].
    replace (String.eqb (s_status s) "completed") with false
      by (symmetry; apply String.eqb_neq; exact Hst).
    apply Forall_mapFrom. intros q i. repeat split.
  - intro Hst. unfold QuizController.sanitizeQuizSession.
    cbn [sv_questions]. rewrite Hst.
    change (String.eqb "completed" "completed") with true. cbv iota.
    split; [apply length_mapFrom|].
    intros i q Hq. rewrite nth_error_mapFrom, Hq.
    eexists. split; [reflexivity|]. repeat split.
  - intros Hst db i answer q r db' Hfind Hq.
    unfold QuizService.submitAnswer, bind, get, ret.
    rewrite Hfind, Hst, String.eqb_refl, Hq.
    change (negb true) with false. cbv beta iota.
    destruct (QuizSessionModel.save _ db) as [[u|e] d]; intro H; inversion H.
    split; reflexivity.
Qed.

(** The three parts on the sessions of the fixtures.  *)
Lemma reveal_policy_witness :
  Forall (fun v => v_correctAnswer v = None /\ v_explanation v = None /\
                   v_isCorrect v = None)
         (sv_questions (QuizController.sanitizeQuizSession (Fixtures.sessionIn "active")))
  /\
  (exists v,
     nth_error (sv_questions
                  (QuizController.sanitizeQuizSession (Fixtures.sessionIn "completed")))
               0 = Some v /\
     v_correctAnswer v = Some "B" /\
     v_explanation v = Some (Some "Two and two make four.") /\
     v_isCorrect v = Some true)
  /\
  (exists r db',
     QuizService.submitAnswer "s1" 0 "A" Fixtures.activeStore = (Ok r, db') /\
     r_correctAnswer r = "B" /\ r_explanation r = Some "Two and two make four.").
Proof.
  split; [|split].
  - apply (proj1 (reveal_policy (Fixtures.sessionIn "active"))). discriminate.
  - apply (proj2 (proj1 (proj2 (reveal_policy (Fixtures.sessionIn "completed")))
                        eq_refl) 0%nat Fixtures.q1 eq_refl).
  - destruct (QuizService.submitAnswer "s1" 0 "A" Fixtures.activeStore)
      as [[r | e] d] eqn:E.
    + exists r, d. split; [reflexivity|].
      apply (proj2 (proj2 (reveal_policy (Fixtures.sessionIn "active")))
               eq_refl Fixtures.activeStore 0 "A" Fixtures.q1 r d);
        [reflexivity | reflexivity | exact E].
    + vm_compute in E. discriminate E.
Defined.

(** C4 (as stated).  While session "s1" is active, the response to
    submitting the wrong answer "A" for question 0 discloses the correct
    answer "B" and its explanation, and the session is still active
    afterwards. *)
Lemma submitAnswer_response_reveals_answer :
  exists d db',
    QuizController.submitAnswer "s1" (Some 0) "A" Fixtures.activeStore
    = (mkApiResponse true "Answer submitted successfully" (Some d) 200, db') /\
    statusOf "s1" Fixtures.activeStore = Some "active" /\
    statusOf "s1" db' = Some "active" /\
    d_isCorrect d = false /\
    d_correctAnswer d = "B" /\
    d_explanation d = Some "Two and two make four.".
Proof.
  eexists. eexists. split; [vm_compute; reflexivity|].
  repeat split.
Qed.

(** ** The durable question cache *)

Lemma wellFormed_of_checks (qs : list Question) :
  (AIQuestionModel.questionsValid qs &&
   forallb AIQuestionModel.questionValid qs)%bool = true ->
  wellFormedSet qs.
Proof.
  intro H. apply andb_prop in H. destruct H as [Hn Hall].
  unfold AIQuestionModel.questionsValid in Hn.
  apply andb_prop in Hn. destruct Hn as [H1 H2].
  apply Nat.ltb_lt in H1. apply Nat.leb_le in H2.
  split; [lia|].
  apply Forall_forall. intros q Hq.
  rewrite forallb_forall in Hall. specialize (Hall q Hq).
  unfold AIQuestionModel.questionValid in Hall.
  repeat (apply andb_prop in Hall; destruct Hall as [Hall ?]).
  match goal with
  | Ho : AIQuestionModel.optionsValid _ = true,
    Hc : AIQuestionModel.correctAnswerValid _ = true |- _ =>
      unfold AIQuestionModel.optionsValid in Ho;
      unfold AIQuestionModel.correctAnswerValid in Hc;
      apply andb_prop in Ho; destruct Ho as [Ho1 Ho2];
      apply andb_prop in Hc; destruct Hc as [_ Hc]
  end.
  split; [apply Nat.eqb_eq; assumption|]. split.
  - apply Forall_forall. intros opt Hopt.
    rewrite forallb_forall in Ho2. specialize (Ho2 opt Hopt).
    apply Nat.ltb_lt in Ho2. intro E. subst opt. simpl in Ho2. lia.
  - apply arrayIncludes_In. assumption.
Qed.

Lemma validate_none_wellFormed (d : AIQuestion) :
  AIQuestionModel.validate d = None -> wellFormedSet (questions d).
Proof.
  intro H. apply wellFormed_of_checks.
  apply (firstInvalid_none_all _ H "questions"). simpl. auto.
Qed.

(** A document that was just built never passes validation: its
    [cacheKey] is required and still unset. *)
Lemma create_not_valid (now : Z) (cat diff : string) (qs : list Question)
      (model prompt : string) (tokens : Z) (cst : float) :
  AIQuestionModel.validate
    (AIQuestionModel.create now cat diff qs model prompt tokens cst) <> None.
Proof.
  intro H.
  assert (E := firstInvalid_none_all _ H "cacheKey"
                 (Js.truthy (cacheKey (AIQuestionModel.create now cat diff qs model
                                         prompt tokens cst)))).
  cbn [AIQuestionModel.create cacheKey] in E.
  assert (F : Js.truthy "" = true).
  { apply E. cbn [AIQuestionModel.create cacheKey]. simpl. tauto. }
  discriminate F.
Qed.

Lemma save_cases (now : Z) (d : AIQuestion) (db : Store) :
  let e := AIQuestionModel.preSave now d in
  (AIQuestionModel.save now d db
     = (Ok e, setAIQuestions (aiQuestions db ++ [e]) db) /\
   AIQuestionModel.validate d = None)
  \/
  (exists err, AIQuestionModel.save now d db = (Throw err, db)).
Proof.
  intro e. unfold AIQuestionModel.save. fold e.
  destruct (AIQuestionModel.validate d) as [path|] eqn:Hv.
  - right. eexists. reflexivity.
  - destruct (existsb _ (aiQuestions db)) eqn:Hu.
    + right. eexists. reflexivity.
    + left. split; reflexivity.
Qed.

Lemma cacheQuestions_cases (now : Z) (qs : list Question) (cat diff : string)
      (metrics : AIResponseMetrics) (prompt : string) (db : Store) :
  let d := entryFor now qs cat diff metrics prompt in
  let e := AIQuestionModel.preSave now d in
  (AIQuestionService.cacheQuestions now qs cat diff metrics prompt db
     = (Ok (cacheKey e), setAIQuestions (aiQuestions db ++ [e]) db) /\
   AIQuestionModel.validate d = None)
  \/
  AIQuestionService.cacheQuestions now qs cat diff metrics prompt db
     = (Throw (Error_ "Failed to cache questions"), db).
Proof.
  intros d e.
  unfold AIQuestionService.cacheQuestions, tryCatch, bind, ret, throw.
  fold (entryFor now qs cat diff metrics prompt). fold d.
  destruct (save_cases now d db) as [[E Hv] | [err E]]; rewrite E.
  - left. split; [reflexivity | exact Hv].
  - right. reflexivity.
Qed.

(** [cacheQuestions] stores nothing and returns no key. *)
Lemma cacheQuestions_throws (now : Z) (qs : list Question) (cat diff : string)
      (metrics : AIResponseMetrics) (prompt : string) (db : Store) :
  AIQuestionService.cacheQuestions now qs cat diff metrics prompt db
  = (Throw (Error_ "Failed to cache questions"), db).
Proof.
  destruct (cacheQuestions_cases now qs cat diff metrics prompt db)
    as [[_ Hv] | E]; [|exact E].
  exfalso. exact (create_not_valid _ _ _ _ _ _ _ _ Hv).
Qed.

(** The last step of [generateQuestions] always ends in its [catch]. *)
Lemma generate_throws (complete : string -> option (list Question * Z))
      (buildPrompt : string -> string -> nat -> string)
      (now : Z) (cat diff : string) (count : nat) (db : Store) :
  AIService.generate complete buildPrompt now cat diff count db
  = (Throw (Error_ "Failed to generate questions"), db).
Proof.
  unfold AIService.generate, tryCatch, bind.
  destruct (complete (buildPrompt cat diff count)) as [[raw tokens]|].
  - rewrite cacheQuestions_throws. reflexivity.
  - reflexivity.
Qed.

(** C7.  [cacheQuestions] writes an entry only when the set, as the schema
    setters leave it, has one to twenty questions, each with exactly four
    non-empty options and a correct answer among A, B, C and D; a set that
    fails one of these checks is refused with "Failed to cache questions",
    the generation that produced it fails with "Failed to generate
    questions", and in both cases the store is unchanged. *)
Theorem cacheQuestions_stores_only_wellFormed_sets
        (now : Z) (qs : list Question) (cat diff : string)
        (metrics : AIResponseMetrics) (prompt : string) (db : Store) :
  (forall key db',
      AIQuestionService.cacheQuestions now qs cat diff metrics prompt db
        = (Ok key, db') ->
      exists e,
        aiQuestions db' = (aiQuestions db ++ [e])%list /\
        cacheKey e = key /\
        questions e = map AIQuestionModel.castQuestion qs /\
        wellFormedSet (questions e)) /\
  (~ wellFormedSet (map AIQuestionModel.castQuestion qs) ->
   AIQuestionService.cacheQuestions now qs cat diff metrics prompt db
     = (Throw (Error_ "Failed to cache questions"), db)) /\
  (forall complete buildPrompt count raw tokens,
      complete (buildPrompt cat diff count) = Some (raw, tokens) ->
      ~ wellFormedSet
          (map AIQuestionModel.castQuestion (AIService.parseAIResponse raw)) ->
      AIService.generate complete buildPrompt now cat diff count db
        = (Throw (Error_ "Failed to generate questions"), db)).
Proof.
  split; [|split].
  - intros key db' H.
    destruct (cacheQuestions_cases now qs cat diff metrics prompt db)
      as [[E Hv] | E]; rewrite E in H; inversion H.
    exists (AIQuestionModel.preSave now (entryFor now qs cat diff metrics prompt)).
    split; [reflexivity|]. split; [reflexivity|]. split; [reflexivity|].
    apply (validate_none_wellFormed _ Hv).
  - intro Hbad.
    destruct (cacheQuestions_cases now qs cat diff metrics prompt db)
      as [[_ Hv] | E]; [|exact E].
    exfalso. apply Hbad. apply (validate_none_wellFormed _ Hv).
  - intros complete buildPrompt count raw tokens Hc Hbad.
    unfold AIService.generate, tryCatch, bind. rewrite Hc.
    destruct (cacheQuestions_cases now (AIService.parseAIResponse raw) cat diff
                (mkMetrics tokens 0 0%float "gpt-3.5-turbo")
                (buildPrompt cat diff count) db)
      as [[_ Hv] | E].
    + exfalso. apply Hbad. apply (validate_none_wellFormed _ Hv).
    + rewrite E. reflexivity.
Qed.

(** A set whose only question has three options is refused, and nothing
    is written. *)
Lemma cacheQuestions_stores_only_wellFormed_sets_witness :
  AIQuestionService.cacheQuestions 7200001
    [mkQuestion "What is 2 + 2 ?" ["3"; "4"; "5"] "B" None None None]
    "science" "easy" Fixtures.metrics "prompt" Fixtures.unpaidStore
  = (Throw (Error_ "Failed to cache questions"), Fixtures.unpaidStore).
Proof.
  apply (proj1 (proj2 (cacheQuestions_stores_only_wellFormed_sets
                         7200001
                         [mkQuestion "What is 2 + 2 ?" ["3"; "4"; "5"] "B"
                                     None None None]
                         "science" "easy" Fixtures.metrics "prompt"
                         Fixtures.unpaidStore))).
  intros [_ H]. inversion H as [|q r [Hlen _] _]. discriminate Hlen.
Defined.

(** ** Cache keys *)

Lemma hourBucket_seconds (now : Z) :
  AIQuestionModel.hourBucket now = now / 1000 / 3600.
Proof.
  unfold AIQuestionModel.hourBucket.
  rewrite Z.div_div by lia. reflexivity.
Qed.

Lemma category_normal (cat : string) :
  In cat AIQuestionModel.categories -> Js.trim (Js.toLowerCase cat) = cat.
Proof.
  intro H. simpl in H.
  repeat (destruct H as [H | H]; [rewrite <- H; reflexivity|]).
  contradiction.
Qed.

Lemma difficulty_normal (diff : string) :
  In diff AIQuestionModel.difficulties -> Js.toLowerCase diff = diff.
Proof.
  intro H. simpl in H.
  repeat (destruct H as [H | H]; [rewrite <- H; reflexivity|]).
  contradiction.
Qed.

(** What the first pre-save hook would assign to the document that
    [cacheQuestions] builds: for a valid category and difficulty the key
    ai_questions:{category}:{difficulty}:{hourBucket}, the bucket being the
    Unix time in seconds divided by 3600 and rounded down, so that two
    times of one bucket give one key. *)
Lemma preSave_cacheKey (cat diff : string) (now : Z) (qs : list Question)
      (metrics : AIResponseMetrics) (prompt : string) :
  In cat AIQuestionModel.categories ->
  In diff AIQuestionModel.difficulties ->
  cacheKey (AIQuestionModel.preSave now (entryFor now qs cat diff metrics prompt))
  = "ai_questions:" ++ cat ++ ":" ++ diff ++ ":" ++ Js.showInt (now / 1000 / 3600).
Proof.
  intros Hcat Hdiff.
  unfold AIQuestionModel.preSave, entryFor, AIQuestionModel.create.
  cbn [cacheKey category difficulty].
  unfold AIQuestionModel.deriveCacheKey.
  rewrite (category_normal cat Hcat), (difficulty_normal diff Hdiff),
    hourBucket_seconds. reflexivity.
Qed.

(** C8 (code).  The key ai_questions:{category}:{difficulty}:{hourBucket}
    is assigned by a hook that runs on documents that passed validation,
    and validation refuses every document [cacheQuestions] builds, because
    its required [cacheKey] is still unset.  So [save] throws a validation
    error, [cacheQuestions] throws "Failed to cache questions", no entry
    is stored and no key is returned.  With both cache tiers empty, two
    requests for two science questions of difficulty easy in hour 2 (at
    7 200 001 ms and at 7 205 000 ms), to a generator that answers with a
    well-formed set, both fail with "Failed to generate questions" and
    leave the store as it was. *)
Theorem cacheQuestions_never_returns_key
        (now : Z) (qs : list Question) (cat diff : string)
        (metrics : AIResponseMetrics) (prompt : string) (db : Store) :
  (exists path,
      AIQuestionModel.save now (entryFor now qs cat diff metrics prompt) db
      = (Throw (ValidationError "AIQuestion" path), db)) /\
  AIQuestionService.cacheQuestions now qs cat diff metrics prompt db
    = (Throw (Error_ "Failed to cache questions"), db) /\
  AIQuestionModel.save 7200001
      (entryFor 7200001 [Fixtures.q1; Fixtures.q2] "science" "easy"
                Fixtures.metrics "prompt") Fixtures.paidStore
    = (Throw (ValidationError "AIQuestion" "cacheKey"), Fixtures.paidStore) /\
  AIService.generateQuestions Fixtures.twoQuestions Fixtures.plainPrompt
      7200001 "science" "easy" 2 Fixtures.paidStore
    = (Throw (Error_ "Failed to generate questions"), Fixtures.paidStore) /\
  AIService.generateQuestions Fixtures.twoQuestions Fixtures.plainPrompt
      7205000 "science" "easy" 2 Fixtures.paidStore
    = (Throw (Error_ "Failed to generate questions"), Fixtures.paidStore).
Proof.
  split; [|split; [|split; [|split]]].
  - unfold AIQuestionModel.save.
    destruct (AIQuestionModel.validate (entryFor now qs cat diff metrics prompt))
      as [path|] eqn:Hv.
    + exists path. reflexivity.
    + exfalso. exact (create_not_valid _ _ _ _ _ _ _ _ Hv).
  - apply cacheQuestions_throws.
  - vm_compute. reflexivity.
  - vm_compute. reflexivity.
  - vm_compute. reflexivity.
Qed.

(** The set of the two fixture questions is well formed, and the key its
    entry would carry in hour 2 is ai_questions:science:easy:2; it is
    refused all the same. *)
Example cacheQuestions_refuses_wellFormed_set :
  wellFormedSet (map AIQuestionModel.castQuestion [Fixtures.q1; Fixtures.q2]) /\
  cacheKey (AIQuestionModel.preSave 7200001
              (entryFor 7200001 [Fixtures.q1; Fixtures.q2] "science" "easy"
                        Fixtures.metrics "prompt"))
    = "ai_questions:science:easy:2" /\
  AIQuestionService.cacheQuestions 7200001 [Fixtures.q1; Fixtures.q2]
      "science" "easy" Fixtures.metrics "prompt" Fixtures.paidStore
    = (Throw (Error_ "Failed to cache questions"), Fixtures.paidStore).
Proof.
  split; [|split].
  - split; [simpl; lia|].
    repeat constructor; simpl; try discriminate; tauto.
  - vm_compute. reflexivity.
  - apply cacheQuestions_throws.
Qed.

(** ** Invalidation and expiry *)






(** The tiered lookup over one hour, on a store that holds an entry of
    ten questions: two requests are served from that entry, which counts
    both uses; a request for more questions than it holds fails. *)
Example generateQuestions_reuses_entry_within_hour :
  exists qs1 db1 qs2 db2 e,
    AIService.generateQuestions Fixtures.twoQuestions Fixtures.plainPrompt
      7200001 "science" "medium" 10 Fixtures.stockedStore = (Ok qs1, db1) /\
    AIService.generateQuestions Fixtures.noCompletion Fixtures.plainPrompt
      7205000 "science" "medium" 2 db1 = (Ok qs2, db2) /\
    List.length qs1 = 10%nat /\ List.length qs2 = 2%nat /\
    aiQuestions db2 = [e] /\
    cacheKey e = "ai_questions:science:medium:0" /\
    usageCount e = 2 /\ lastUsed e = 7205000 /\
    fst (AIService.generateQuestions Fixtures.twoQuestions Fixtures.plainPrompt
           7205000 "science" "medium" 11 db2)
    = Throw (Error_ "Failed to generate questions").
Proof.
  do 5 eexists.
  split; [vm_compute; reflexivity|].
  split; [vm_compute; reflexivity|].
  repeat split.
Qed.

(* ================================================================= *)
(** * Further properties of the services *)

(** ** Array writes *)

Lemma length_assign {A : Type} (a : list (option A)) (i : nat) (v : A) :
  List.length (Js.assign a i v) = Nat.max (List.length a) (S i).
Proof.
  revert a. induction i as [|i IH]; intros [|x r]; simpl; try reflexivity.
  - destruct (List.length r); reflexivity.
  - rewrite IH. reflexivity.
  - rewrite IH. reflexivity.
Qed.

Lemma flatten_assign_other {A : Type} (a : list (option A)) (i j : nat) (v : A) :
  j <> i ->
  QuizController.flatten (nth_error (Js.assign a i v) j) =
  QuizController.flatten (nth_error a j).
Proof.
  revert a j. induction i as [|i IH]; intros a j Hne.
  - destruct j as [|j]; [contradiction|].
    destruct a as [|x r]; simpl; [destruct j; reflexivity | reflexivity].
  - destruct j as [|j]; destruct a as [|x r]; simpl; try reflexivity.
    + rewrite IH by lia. destruct j; reflexivity.
    + apply IH. lia.
Qed.

Lemma index_none_iff {A : Type} (l : list A) (i : Z) :
  Js.index l i = None <-> i < 0 \/ Z.of_nat (List.length l) <= i.
Proof.
  unfold Js.index. destruct (i <? 0) eqn:E.
  - apply Z.ltb_lt in E. split; auto.
  - apply Z.ltb_ge in E. rewrite nth_error_None. lia.
Qed.

(** The general form of the scoring step: writing [v] into slot [k + i]
    takes away what the slot counted before and adds what [v] counts. *)
Lemma scoreFrom_assign qs :
  forall k a i v q,
    nth_error qs i = Some q ->
    QuizService.scoreFrom k qs (Js.assign a (k + i) v) =
    QuizService.scoreFrom k qs a
    - (if Js.slotEquals (nth_error a (k + i)) (correctAnswer q) then 1 else 0)
    + (if String.eqb v (correctAnswer q) then 1 else 0).
Proof.
  induction qs as [|q0 r IH]; intros k a i v q Hq.
  - destruct i; discriminate Hq.
  - destruct i as [|i]; simpl in Hq |- *.
    + inversion Hq; subst q0. rewrite Nat.add_0_r.
      rewrite slotEquals_assign, Nat.eqb_refl.
      rewrite scoreFrom_assign_before by lia. lia.
    + rewrite slotEquals_assign.
      replace (Nat.eqb k (k + S i)) with false by (symmetry; apply Nat.eqb_neq; lia).
      replace (k + S i)%nat with (S k + i)%nat by lia.
      rewrite (IH (S k) a i v q Hq). lia.
Qed.

Lemma scoreFrom_bounds qs :
  forall k a, 0 <= QuizService.scoreFrom k qs a <= Z.of_nat (List.length qs).
Proof.
  induction qs as [|q r IH]; intros k a; simpl QuizService.scoreFrom.
  - simpl. lia.
  - specialize (IH (S k) a).
    change (List.length (q :: r)) with (S (List.length r)).
    destruct (Js.slotEquals _ _); lia.
Qed.

(** ** Submitting answers *)

(** X1.  A call of [submitAnswer] that throws has written nothing: the
    store it leaves is the store it was given. *)
Theorem submitAnswer_failure_writes_nothing
        (sessionId : string) (i : Z) (answer : string) (db db' : Store) (e : error) :
  QuizService.submitAnswer sessionId i answer db = (Throw e, db') -> db' = db.
Proof.
  unfold QuizService.submitAnswer, bind, get, ret, throw.
  destruct (QuizSessionModel.findById sessionId db) as [session|];
    [|intro H; inversion H; reflexivity].
  destruct (negb (String.eqb (s_status session) "active"));
    [intro H; inversion H; reflexivity|].
  destruct (Js.index (s_questions session) i) as [q|];
    [|intro H; inversion H; reflexivity].
  unfold QuizSessionModel.save.
  destruct (QuizSessionModel.validate _); intro H; inversion H; reflexivity.
Qed.

Lemma submitAnswer_failure_writes_nothing_witness :
  exists e,
    QuizService.submitAnswer "unknown" 0 "A" Fixtures.activeStore
    = (Throw e, Fixtures.activeStore).
Proof.
  destruct (QuizService.submitAnswer "unknown" 0 "A" Fixtures.activeStore)
    as [[r | e] d] eqn:E.
  - vm_compute in E. discriminate E.
  - exists e.
    rewrite (submitAnswer_failure_writes_nothing "unknown" 0 "A"
               Fixtures.activeStore d e E).
    reflexivity.
Defined.

(** X2.  On an active session an index below zero or not below the number
    of questions is refused with "Invalid question index", and nothing is
    written. *)
Theorem submitAnswer_index_out_of_range
        (db : Store) (session : QuizSession) (sessionId : string) (i : Z)
        (answer : string) :
  QuizSessionModel.findById sessionId db = Some session ->
  s_status session = "active" ->
  i < 0 \/ Z.of_nat (List.length (s_questions session)) <= i ->
  QuizService.submitAnswer sessionId i answer db
  = (Throw (Error_ "Invalid question index"), db).
Proof.
  intros Hfind Hst Hi.
  unfold QuizService.submitAnswer, bind, get.
  rewrite Hfind, Hst, String.eqb_refl.
  rewrite (proj2 (index_none_iff _ _) Hi). reflexivity.
Qed.

Lemma submitAnswer_index_out_of_range_witness :
  QuizService.submitAnswer "s1" 1 "A" Fixtures.activeStore
  = (Throw (Error_ "Invalid question index"), Fixtures.activeStore).
Proof.
  apply (submitAnswer_index_out_of_range Fixtures.activeStore
           (Fixtures.sessionIn "active") "s1" 1 "A").
  - reflexivity.
  - reflexivity.
  - right. simpl. lia.
Defined.

(** X3.  A successful [submitAnswer] overwrites exactly one slot: slot [i]
    holds the new answer, every other slot reads as before, the array
    grows to [i + 1] at most, and questions, status, users, ledger and
    cache are untouched. *)
Theorem submitAnswer_overwrites_one_slot
        (db : Store) (session : QuizSession) (q : Question)
        (sessionId : string) (i : Z) (answer : string) :
  QuizSessionModel.findById sessionId db = Some session ->
  s_status session = "active" ->
  QuizSessionModel.validate session = None ->
  Js.index (s_questions session) i = Some q ->
  exists r db' session',
    QuizService.submitAnswer sessionId i answer db = (Ok r, db') /\
    QuizSessionModel.findById sessionId db' = Some session' /\
    nth_error (s_userAnswers session') (Z.to_nat i) = Some (Some answer) /\
    (forall j, j <> Z.to_nat i ->
       QuizController.flatten (nth_error (s_userAnswers session') j) =
       QuizController.flatten (nth_error (s_userAnswers session) j)) /\
    List.length (s_userAnswers session') =
      Nat.max (List.length (s_userAnswers session)) (S (Z.to_nat i)) /\
    s_questions session' = s_questions session /\
    s_status session' = "active" /\
    users db' = users db /\ transactions db' = transactions db /\
    aiQuestions db' = aiQuestions db.
Proof.
  intros Hfind Hst Hval Hq.
  destruct (submitAnswer_active db session q sessionId i answer Hfind Hst Hval Hq)
    as [db' [Hrun Hget]].
  exists (mkAnswerResult (String.eqb answer (correctAnswer q))
                         (correctAnswer q) (explanation q)), db'.
  eexists. split; [exact Hrun|]. split; [exact Hget|].
  cbn [QuizService.setUserAnswers s_userAnswers s_questions s_status].
  split; [apply nth_error_assign_same|].
  split; [intros j Hj; apply flatten_assign_other; exact Hj|].
  split; [apply length_assign|].
  split; [reflexivity|]. split; [exact Hst|].
  unfold QuizService.submitAnswer, bind, get, ret in Hrun.
  rewrite Hfind, Hst, String.eqb_refl, Hq in Hrun.
  change (negb true) with false in Hrun. cbv beta iota in Hrun.
  unfold QuizSessionModel.save in Hrun.
  change (QuizSessionModel.validate
            (QuizService.setUserAnswers
               (Js.assign (s_userAnswers session) (Z.to_nat i) answer) session))
    with (QuizSessionModel.validate session) in Hrun.
  rewrite Hval in Hrun. inversion Hrun. repeat split.
Qed.

Lemma submitAnswer_overwrites_one_slot_witness :
  exists r db' session',
    QuizService.submitAnswer "s1" 0 "C" Fixtures.activeStore = (Ok r, db') /\
    QuizSessionModel.findById "s1" db' = Some session' /\
    nth_error (s_userAnswers session') 0 = Some (Some "C") /\
    (forall j, j <> 0%nat ->
       QuizController.flatten (nth_error (s_userAnswers session') j) =
       QuizController.flatten (nth_error [Some "B"] j)) /\
    List.length (s_userAnswers session') = 1%nat /\
    s_questions session' = [Fixtures.q1] /\
    s_status session' = "active" /\
    users db' = users Fixtures.activeStore /\
    transactions db' = transactions Fixtures.activeStore /\
    aiQuestions db' = aiQuestions Fixtures.activeStore.
Proof.
  apply (submitAnswer_overwrites_one_slot Fixtures.activeStore
           (Fixtures.sessionIn "active") Fixtures.q1 "s1" 0 "C");
    reflexivity.
Defined.

(** X4.  The verdict of [submitAnswer] is the one the scoring loop of
    [completeQuiz] applies: after the write, the score of the stored
    session is the score before, less what slot [i] counted before, plus
    one exactly when the call reported the answer as correct. *)
Theorem submitAnswer_verdict_matches_scoring
        (db : Store) (session : QuizSession) (q : Question)
        (sessionId : string) (i : Z) (answer : string) :
  QuizSessionModel.findById sessionId db = Some session ->
  s_status session = "active" ->
  QuizSessionModel.validate session = None ->
  Js.index (s_questions session) i = Some q ->
  exists r db' session',
    QuizService.submitAnswer sessionId i answer db = (Ok r, db') /\
    QuizSessionModel.findById sessionId db' = Some session' /\
    QuizService.scoreFrom 0 (s_questions session') (s_userAnswers session') =
      QuizService.scoreFrom 0 (s_questions session) (s_userAnswers session)
      - (if Js.slotEquals (nth_error (s_userAnswers session) (Z.to_nat i))
                          (correctAnswer q) then 1 else 0)
      + (if r_isCorrect r then 1 else 0).
Proof.
  intros Hfind Hst Hval Hq.
  destruct (submitAnswer_active db session q sessionId i answer Hfind Hst Hval Hq)
    as [db' [Hrun Hget]].
  destruct (index_nth_error _ _ _ Hq) as [_ Hnth].
  eexists. eexists. eexists. split; [exact Hrun|]. split; [exact Hget|].
  cbn [QuizService.setUserAnswers s_userAnswers s_questions r_isCorrect].
  apply (scoreFrom_assign (s_questions session) 0%nat (s_userAnswers session)
           (Z.to_nat i) answer q Hnth).
Qed.

Lemma submitAnswer_verdict_matches_scoring_witness :
  exists r db' session',
    QuizService.submitAnswer "s1" 0 "C" Fixtures.activeStore = (Ok r, db') /\
    QuizSessionModel.findById "s1" db' = Some session' /\
    QuizService.scoreFrom 0 (s_questions session') (s_userAnswers session') =
      QuizService.scoreFrom 0 [Fixtures.q1] [Some "B"]
      - (if Js.slotEquals (nth_error [Some "B"] 0) "B" then 1 else 0)
      + (if r_isCorrect r then 1 else 0).
Proof.
  apply (submitAnswer_verdict_matches_scoring Fixtures.activeStore
           (Fixtures.sessionIn "active") Fixtures.q1 "s1" 0 "C");
    reflexivity.
Defined.

(** ** Completing a quiz *)

Lemma transaction_validate_method (t : Transaction) :
  TransactionModel.validate t = None ->
  In (t_paymentMethod t) TransactionModel.paymentMethods.
Proof.
  intro H.
  assert (E : (Js.truthy (t_paymentMethod t) &&
               Js.arrayIncludes (t_paymentMethod t) TransactionModel.paymentMethods)%bool
              = true).
  { apply (firstInvalid_none_all _ H "paymentMethod"). simpl. tauto. }
  apply andb_prop in E. apply arrayIncludes_In. apply E.
Qed.

Lemma system_transaction_rejected (t : Transaction) (db : Store) :
  t_paymentMethod t = "system" ->
  exists path,
    TransactionModel.save t db = (Throw (ValidationError "Transaction" path), db).
Proof.
  intro Hm. unfold TransactionModel.save.
  destruct (TransactionModel.validate t) as [path|] eqn:E.
  - exists path. reflexivity.
  - apply transaction_validate_method in E. rewrite Hm in E. simpl in E.
    repeat (destruct E as [E | E]; [discriminate E|]). contradiction.
Qed.

(** X5.  [completeQuiz] never returns a result.  When it finds no session
    of the user it throws "Quiz session not found"; otherwise the reward
    transaction it builds names the payment method "system", which the
    enum of the Transaction schema does not contain, so the insertion is
    refused and the call throws. *)
Theorem completeQuiz_never_returns
        (now : Z) (sessionId userId : string) (db : Store) :
  exists e db', QuizService.completeQuiz now sessionId userId db = (Throw e, db').
Proof.
  unfold QuizService.completeQuiz, bind, get, throw.
  destruct (QuizSessionModel.findOne sessionId userId db) as [session|].
  - unfold UserModel.incWalletBalance, promiseAll. cbv beta iota.
    match goal with
    | |- context [QuizSessionModel.save ?s ?d] =>
        destruct (QuizSessionModel.save s d) as [r1 d1]
    end.
    match goal with
    | |- context [TransactionModel.save ?t d1] =>
        destruct (system_transaction_rejected t d1 eq_refl) as [path Hrej];
        rewrite Hrej
    end.
    destruct r1; eexists; eexists; reflexivity.
  - eexists. eexists. reflexivity.
Qed.

(** X6.  A session is completed only by its owner: when no session with
    the given id belongs to the given user, [completeQuiz] throws "Quiz
    session not found" and writes nothing; no wallet is credited. *)
Theorem completeQuiz_foreign_session
        (now : Z) (sessionId userId : string) (db : Store) :
  (forall s, In s (quizSessions db) -> s_id s = sessionId -> s_user s <> userId) ->
  QuizService.completeQuiz now sessionId userId db
  = (Throw (Error_ "Quiz session not found"), db).
Proof.
  intro H. unfold QuizService.completeQuiz, bind, get.
  destruct (QuizSessionModel.findOne sessionId userId db) as [s|] eqn:E;
    [|reflexivity].
  unfold QuizSessionModel.findOne in E. apply find_some in E.
  destruct E as [Hin Hm]. apply andb_prop in Hm. destruct Hm as [H1 H2].
  apply String.eqb_eq in H1, H2. exfalso. exact (H s Hin H1 H2).
Qed.

Lemma completeQuiz_foreign_session_witness :
  QuizService.completeQuiz 9000 "s1" "u2" Fixtures.activeStore
  = (Throw (Error_ "Quiz session not found"), Fixtures.activeStore).
Proof.
  apply (completeQuiz_foreign_session 9000 "s1" "u2" Fixtures.activeStore).
  intros s Hin _. simpl in Hin. destruct Hin as [E | []].
  rewrite <- E. discriminate.
Defined.

(** X7.  What [completeQuiz] leaves in the session it finds: status
    "completed", the completion time, the score recomputed from the stored
    answers, between zero and the number of questions, the reward 0.10 per
    point, and questions and answers as they were. *)
Theorem completeQuiz_stores_recomputed_score
        (now : Z) (sessionId userId : string) (db : Store) (session : QuizSession) :
  QuizSessionModel.findOne sessionId userId db = Some session ->
  QuizSessionModel.findById sessionId db = Some session ->
  QuizSessionModel.validate session = None ->
  exists r db' session',
    QuizService.completeQuiz now sessionId userId db = (r, db') /\
    QuizSessionModel.findById sessionId db' = Some session' /\
    s_status session' = "completed" /\
    s_timeCompleted session' = Some now /\
    s_score session' =
      QuizService.scoreFrom 0 (s_questions session) (s_userAnswers session) /\
    0 <= s_score session' <= Z.of_nat (List.length (s_questions session)) /\
    s_rewardEarned session' = (Js.ofZ (s_score session') * 0.10)%float /\
    s_questions session' = s_questions session /\
    s_userAnswers session' = s_userAnswers session.
Proof.
  intros Hone Hid Hval.
  destruct (findById_some _ _ _ Hid) as [_ Hsid].
  set (score := QuizService.scoreFrom 0 (s_questions session) (s_userAnswers session)).
  set (session' := QuizService.complete_ now score
                     (Js.ofZ score * QuizService.rewardRate)%float session).
  assert (Hval' : QuizSessionModel.validate session' = None).
  { unfold QuizSessionModel.validate in *.
    cbn [session' QuizService.complete_ s_user s_category s_questions s_status
         s_paymentReference s_difficulty firstInvalid] in *.
    destruct (Js.truthy (s_user session)); [|discriminate Hval].
    destruct (Js.truthy (s_category session)); [|discriminate Hval].
    destruct (forallb QuizSessionModel.questionValid (s_questions session));
      [|discriminate Hval].
    destruct (Js.arrayIncludes (s_status session) QuizSessionModel.statuses);
      [|discriminate Hval].
    exact Hval. }
  unfold QuizService.completeQuiz, bind, get, ret.
  rewrite Hone. unfold UserModel.incWalletBalance, promiseAll. cbv beta iota.
  fold score. fold session'.
  unfold QuizSessionModel.save at 1. rewrite Hval'.
  match goal with
  | |- context [TransactionModel.save ?t ?d] =>
      destruct (system_transaction_rejected t d eq_refl) as [path Hrej];
      rewrite Hrej
  end.
  eexists. eexists. exists session'.
  split; [reflexivity|]. split.
  - unfold QuizSessionModel.findById in *. cbn [quizSessions setQuizSessions setUsers].
    rewrite <- Hsid in Hid |- *.
    change (s_id session) with (s_id session').
    eapply find_replace. exact Hid.
  - cbn [session' QuizService.complete_ s_status s_timeCompleted s_score
         s_rewardEarned s_questions s_userAnswers].
    repeat split; try reflexivity; apply scoreFrom_bounds.
Qed.

Lemma completeQuiz_stores_recomputed_score_witness :
  exists r db' session',
    QuizService.completeQuiz 9000 "s1" "u1" Fixtures.activeStore = (r, db') /\
    QuizSessionModel.findById "s1" db' = Some session' /\
    s_status session' = "completed" /\
    s_timeCompleted session' = Some 9000 /\
    s_score session' = QuizService.scoreFrom 0 [Fixtures.q1] [Some "B"] /\
    0 <= s_score session' <= 1 /\
    s_rewardEarned session' = (Js.ofZ (s_score session') * 0.10)%float /\
    s_questions session' = [Fixtures.q1] /\
    s_userAnswers session' = [Some "B"].
Proof.
  apply (completeQuiz_stores_recomputed_score 9000 "s1" "u1" Fixtures.activeStore
           (Fixtures.sessionIn "active"));
    reflexivity.
Defined.

(** ** What the question engine leaves alone *)

Lemma sameAccounts_refl (db : Store) : sameAccounts db db.
Proof. repeat split. Qed.

Lemma sameAccounts_trans (a b c : Store) :
  sameAccounts a b -> sameAccounts b c -> sameAccounts a c.
Proof.
  intros [H1 [H2 H3]] [H4 [H5 H6]]. repeat split; congruence.
Qed.

Lemma keepsAccounts_ret {A : Type} (a : A) : keepsAccounts (@ret Store A a).
Proof. intro db. apply sameAccounts_refl. Qed.

Lemma keepsAccounts_throw {A : Type} (e : error) : keepsAccounts (@throw Store A e).
Proof. intro db. apply sameAccounts_refl. Qed.

Lemma keepsAccounts_bind {A B : Type} (m : M Store A) (k : A -> M Store B) :
  keepsAccounts m -> (forall a, keepsAccounts (k a)) -> keepsAccounts (bind m k).
Proof.
  intros Hm Hk db. unfold bind. specialize (Hm db).
  destruct (m db) as [[a | e] d]; simpl in Hm |- *; [|exact Hm].
  eapply sameAccounts_trans; [exact Hm | apply Hk].
Qed.

Lemma keepsAccounts_tryCatch {A : Type} (m : M Store A) (h : error -> M Store A) :
  keepsAccounts m -> (forall e, keepsAccounts (h e)) -> keepsAccounts (tryCatch m h).
Proof.
  intros Hm Hh db. unfold tryCatch. specialize (Hm db).
  destruct (m db) as [[a | e] d]; simpl in Hm |- *; [exact Hm|].
  eapply sameAccounts_trans; [exact Hm | apply Hh].
Qed.

Lemma keepsAccounts_cacheQuestions now qs cat diff metrics prompt :
  keepsAccounts (AIQuestionService.cacheQuestions now qs cat diff metrics prompt).
Proof.
  intro db.
  rewrite cacheQuestions_throws. repeat split.
Qed.

Lemma keepsAccounts_getCachedQuestions now cat diff :
  keepsAccounts (AIQuestionService.getCachedQuestions now cat diff).
Proof.
  intro db. unfold AIQuestionService.getCachedQuestions.
  destruct (AIQuestionModel.latest _ _); repeat split.
Qed.

Lemma keepsAccounts_cacheGet now key : keepsAccounts (CacheService.get now key).
Proof. intro db. repeat split. Qed.

Lemma keepsAccounts_cacheSet now key v ttl :
  keepsAccounts (CacheService.set now key v ttl).
Proof.
  intro db. unfold CacheService.set.
  destruct ttl as [t|]; [destruct (t =? 0); [|destruct (0 <? t)]|]; repeat split.
Qed.

Lemma keepsAccounts_generate complete buildPrompt now cat diff count :
  keepsAccounts (AIService.generate complete buildPrompt now cat diff count).
Proof.
  unfold AIService.generate. apply keepsAccounts_tryCatch.
  - destruct (complete (buildPrompt cat diff count)) as [[raw tokens]|].
    + apply keepsAccounts_bind; [apply keepsAccounts_cacheQuestions|].
      intros _. apply keepsAccounts_bind; [apply keepsAccounts_cacheSet|].
      intros _. apply keepsAccounts_ret.
    + apply keepsAccounts_throw.
  - intro e. apply keepsAccounts_throw.
Qed.

(** X8.  [generateQuestions] reads and writes the two cache tiers only:
    whatever it returns, users, quiz sessions and the ledger are as they
    were. *)
Theorem generateQuestions_keeps_accounts
        (complete : string -> option (list Question * Z))
        (buildPrompt : string -> string -> nat -> string)
        (now : Z) (cat diff : string) (count : nat) :
  keepsAccounts (AIService.generateQuestions complete buildPrompt now cat diff count).
Proof.
  unfold AIService.generateQuestions.
  assert (Hfallback : keepsAccounts
            (bind (CacheService.get now
                     ("ai_questions:" ++ cat ++ ":" ++ diff ++ ":" ++
                      Js.showInt (Z.of_nat count)))
                  (fun cached =>
                     match cached with
                     | Some v => ret v
                     | None => AIService.generate complete buildPrompt now cat diff count
                     end))).
  { apply keepsAccounts_bind; [apply keepsAccounts_cacheGet|].
    intros [v|]; [apply keepsAccounts_ret | apply keepsAccounts_generate]. }
  apply keepsAccounts_bind; [apply keepsAccounts_getCachedQuestions|].
  intros [qs|]; [|exact Hfallback].
  destruct (Nat.leb count (List.length qs)); [apply keepsAccounts_ret | exact Hfallback].
Qed.

(** ** The session a start creates *)

(** X9.  When [startQuiz] returns a session, that session is the one
    appended to the store: active, owned by the user, with the given id,
    category and payment reference, no answers, score 0, and
    [totalQuestions] equal to the number of its questions.  The service
    itself takes no fee: users and ledger are unchanged. *)
Theorem startQuiz_creates_active_session
        (complete : string -> option (list Question * Z))
        (buildPrompt : string -> string -> nat -> string)
        (now : Z) (newId userId cat paymentReference : string)
        (db db' : Store) (session : QuizSession) :
  QuizService.startQuiz complete buildPrompt now newId userId cat
                        paymentReference db = (Ok session, db') ->
  s_id session = newId /\ s_user session = userId /\
  s_category session = cat /\ s_paymentReference session = paymentReference /\
  s_status session = "active" /\ s_userAnswers session = [] /\
  s_score session = 0 /\
  s_totalQuestions session = Z.of_nat (List.length (s_questions session)) /\
  quizSessions db' = (quizSessions db ++ [session])%list /\
  users db' = users db /\ transactions db' = transactions db.
Proof.
  unfold QuizService.startQuiz, bind, get, ret.
  destruct (TransactionModel.findOne paymentReference userId "completed" db);
    [|intro H; discriminate H].
  pose proof (generateQuestions_keeps_accounts complete buildPrompt now cat
                "medium" 10 db) as Hkeep.
  destruct (AIService.generateQuestions complete buildPrompt now cat "medium" 10 db)
    as [[qs | e] d]; [|intro H; discriminate H].
  simpl snd in Hkeep. destruct Hkeep as [Hu [Hs Ht]].
  unfold QuizSessionModel.insert.
  destruct (QuizSessionModel.validate _); [intro H; discriminate H|].
  destruct (existsb _ _); intro H; inversion H; subst.
  cbn [QuizSessionModel.create s_id s_user s_category s_paymentReference s_status
       s_userAnswers s_score s_totalQuestions s_questions quizSessions users
       transactions setQuizSessions].
  rewrite length_map, Hs, Hu, Ht. repeat split.
Qed.

(** A store whose durable cache holds ten science questions. *)
Lemma startQuiz_creates_active_session_witness :
  exists session db',
    QuizService.startQuiz Fixtures.noCompletion Fixtures.plainPrompt
                          5000 "s9" "u1" "science" "pay1" Fixtures.stockedStore
    = (Ok session, db') /\
    s_id session = "s9" /\ s_user session = "u1" /\
    s_category session = "science" /\ s_paymentReference session = "pay1" /\
    s_status session = "active" /\ s_userAnswers session = [] /\
    s_score session = 0 /\
    s_totalQuestions session = Z.of_nat (List.length (s_questions session)) /\
    quizSessions db' = (quizSessions Fixtures.stockedStore ++ [session])%list /\
    users db' = users Fixtures.stockedStore /\
    transactions db' = transactions Fixtures.stockedStore.
Proof.
  destruct (QuizService.startQuiz Fixtures.noCompletion Fixtures.plainPrompt
              5000 "s9" "u1" "science" "pay1" Fixtures.stockedStore)
    as [[session | e] d] eqn:E.
  - exists session, d. split; [reflexivity|].
    exact (startQuiz_creates_active_session _ _ _ _ _ _ _ _ _ _ E).
  - vm_compute in E. discriminate E.
Defined.

(** ** The start and answer handlers of the controller *)

(** X10.  The start handler never answers with success.  It refuses bad
    input and a balance under 1.00; past these checks, either the service
    throws, or the user document fails to save, or the fee transaction,
    whose payment method "system" the Transaction schema does not list,
    is refused; each ends in the [catch] of the handler. *)
Theorem startQuiz_handler_never_succeeds
        (complete : string -> option (list Question * Z))
        (buildPrompt : string -> string -> nat -> string)
        (now : Z) (newId : string) (user : User)
        (cat diff paymentReference : string) (db : Store) :
  success (fst (QuizController.startQuiz complete buildPrompt now newId user
                                         cat diff paymentReference db)) = false.
Proof.
  unfold QuizController.startQuiz.
  destruct (QuizController.validateQuizStartInput cat diff paymentReference);
    [reflexivity|].
  destruct (PrimFloat.ltb (u_walletBalance user) 1); [reflexivity|].
  unfold QuizController.startQuizBody, bind.
  destruct (QuizService.startQuiz complete buildPrompt now newId (u_id user) cat
                                  paymentReference db) as [[session | e] d1];
    [|reflexivity].
  destruct (UserModel.save _ d1) as [[u | e] d2]; [|reflexivity].
  match goal with
  | |- context [TransactionModel.save ?t d2] =>
      destruct (system_transaction_rejected t d2 eq_refl) as [path Hrej];
      rewrite Hrej
  end.
  reflexivity.
Qed.

(** X11.  A start refused for its input or for a balance under 1.00 is
    answered with status 400 and writes nothing: no session, no fee. *)
Theorem startQuiz_handler_refusal_writes_nothing
        (complete : string -> option (list Question * Z))
        (buildPrompt : string -> string -> nat -> string)
        (now : Z) (newId : string) (user : User)
        (cat diff paymentReference : string) (db : Store) :
  QuizController.validateQuizStartInput cat diff paymentReference <> None \/
  PrimFloat.ltb (u_walletBalance user) 1 = true ->
  exists msg,
    QuizController.startQuiz complete buildPrompt now newId user
                             cat diff paymentReference db
    = (mkApiResponse false msg None 400, db).
Proof.
  intro H. unfold QuizController.startQuiz, QuizController.apiError.
  destruct (QuizController.validateQuizStartInput cat diff paymentReference)
    as [msg|].
  - exists msg. reflexivity.
  - destruct H as [H | H]; [contradiction H; reflexivity|].
    rewrite H. eexists. reflexivity.
Qed.

Lemma startQuiz_handler_refusal_writes_nothing_witness :
  exists msg,
    QuizController.startQuiz Fixtures.twoQuestions Fixtures.plainPrompt
                             5000 "s9" (mkUser "u1" 0.5%float)
                             "science" "easy" "pay1" Fixtures.paidStore
    = (mkApiResponse false msg None 400, Fixtures.paidStore).
Proof.
  apply (startQuiz_handler_refusal_writes_nothing
           Fixtures.twoQuestions Fixtures.plainPrompt 5000 "s9"
           (mkUser "u1" 0.5%float) "science" "easy" "pay1" Fixtures.paidStore).
  right. vm_compute. reflexivity.
Defined.

(** Past the checks and with ten questions in the durable cache, the
    session is stored and the fee is taken from the wallet before the fee
    transaction is refused: the handler answers with status 500 and the
    ledger has no fee entry.  With nothing in the cache the service has
    already thrown, and the answer 500 comes with no write at all. *)
Example startQuiz_handler_fee_without_ledger_entry :
  (exists msg db',
      QuizController.startQuiz Fixtures.twoQuestions Fixtures.plainPrompt
                               5000 "s9" (mkUser "u1" 5%float)
                               "science" "easy" "pay1" Fixtures.stockedStore
      = (mkApiResponse false msg None 500, db') /\
      walletOf "u1" db' = Some 4%float /\
      statusOf "s9" db' = Some "active" /\
      transactions db' = transactions Fixtures.stockedStore) /\
  QuizController.startQuiz Fixtures.twoQuestions Fixtures.plainPrompt
                           5000 "s9" (mkUser "u1" 5%float)
                           "science" "easy" "pay1" Fixtures.paidStore
  = (mkApiResponse false "Failed to generate questions" None 500,
     Fixtures.paidStore).
Proof.
  split.
  - eexists. eexists. split; [vm_compute; reflexivity|]. repeat split.
  - vm_compute. reflexivity.
Qed.

Lemma upperChar_label (c d : ascii) :
  In d ["A"; "B"; "C"; "D"]%char ->
  Js.upperChar c = d -> c = d \/ c = Js.lowerChar d.
Proof.
  intros Hd H. simpl in Hd.
  destruct Hd as [E | [E | [E | [E | []]]]]; subst d;
    destruct c as [[] [] [] [] [] [] [] []]; vm_compute in H;
      try discriminate H; (left; reflexivity) || (right; reflexivity).
Qed.

Lemma toUpperCase_label (a l : string) :
  In l ["A"; "B"; "C"; "D"] -> Js.toUpperCase a = l ->
  In a acceptedAnswers.
Proof.
  intros Hl H. destruct a as [|c [|c' r]].
  - simpl in Hl. destruct Hl as [E | [E | [E | [E | []]]]]; subst l; discriminate H.
  - simpl in Hl.
    destruct Hl as [E | [E | [E | [E | []]]]]; subst l;
      simpl in H; inversion H as [Hc];
      match goal with
      | Hc : Js.upperChar c = ?d |- _ =>
          destruct (upperChar_label c d ltac:(simpl; tauto) Hc) as [-> | ->]
      end; simpl; tauto.
  - simpl in Hl. destruct Hl as [E | [E | [E | [E | []]]]]; subst l; discriminate H.
Qed.

(** X12.  [validateAnswerInput] lets a request through exactly when the
    session id is not empty, a question index is present and not negative,
    and the answer is one of the letters A, B, C, D in either case. *)
Theorem validateAnswerInput_accepts_iff
        (sessionId : string) (questionIndex : option Z) (answer : string) :
  QuizController.validateAnswerInput sessionId questionIndex answer = None <->
  sessionId <> "" /\
  (exists i, questionIndex = Some i /\ 0 <= i) /\
  In answer acceptedAnswers.
Proof.
  unfold QuizController.validateAnswerInput. split.
  - destruct (Js.truthy sessionId) eqn:Hs; cbn [negb]; [|discriminate].
    destruct questionIndex as [i|]; [|discriminate].
    destruct (i <? 0) eqn:Hi; [discriminate|].
    destruct (Js.truthy answer) eqn:Ha; cbn [negb orb]; [|discriminate].
    destruct (Js.arrayIncludes (Js.toUpperCase answer) ["A"; "B"; "C"; "D"]) eqn:Hu;
      cbn [negb]; [|discriminate].
    intros _. split; [apply truthy_true; exact Hs|].
    split; [exists i; split; [reflexivity | apply Z.ltb_ge; exact Hi]|].
    apply arrayIncludes_In in Hu.
    exact (toUpperCase_label answer (Js.toUpperCase answer) Hu eq_refl).
  - intros [Hs [[i [-> Hi]] Ha]].
    replace (Js.truthy sessionId) with true by (symmetry; apply truthy_true; exact Hs).
    replace (i <? 0) with false by (symmetry; apply Z.ltb_ge; exact Hi).
    simpl in Ha.
    repeat (destruct Ha as [Ha | Ha]; [rewrite <- Ha; reflexivity|]).
    contradiction.
Qed.

(** ** The read view *)

(** X13.  The read view lists every question of the session, in order,
    with its text, its options and the answer given so far, whatever the
    status; [currentQuestion] is the length of the answer array and a
    question counts as answered when its index is below that length. *)
Theorem sanitizeQuizSession_lists_every_question (s : QuizSession) :
  List.length (sv_questions (QuizController.sanitizeQuizSession s))
    = List.length (s_questions s) /\
  sv_currentQuestion (QuizController.sanitizeQuizSession s)
    = Z.of_nat (List.length (s_userAnswers s)) /\
  forall i q, nth_error (s_questions s) i = Some q ->
    exists v,
      nth_error (sv_questions (QuizController.sanitizeQuizSession s)) i = Some v /\
      v_question v = question q /\ v_options v = options q /\
      v_userAnswer v = QuizController.flatten (nth_error (s_userAnswers s) i) /\
      v_isAnswered v = Nat.ltb i (List.length (s_userAnswers s)).
Proof.
  unfold QuizController.sanitizeQuizSession. cbn [sv_questions sv_currentQuestion].
  split; [destruct (String.eqb (s_status s) "completed"); apply length_mapFrom|].
  split; [reflexivity|].
  intros i q Hq.
  destruct (String.eqb (s_status s) "completed");
    rewrite nth_error_mapFrom, Hq; eexists; (split; [reflexivity|]);
      repeat split.
Qed.

(** X14.  [getQuizSession] serves a session to its owner only: when no
    session with the given id belongs to the user the answer is 404
    without data, and otherwise the data is the sanitized view of a
    session with that id and that owner. *)
Theorem getQuizSession_owner_only (userId sessionId : string) (db : Store) :
  ((forall s, In s (quizSessions db) -> s_id s = sessionId -> s_user s <> userId) ->
   QuizController.getQuizSession userId sessionId db
   = mkApiResponse false "Quiz session not found" None 404) /\
  (forall view,
     data (QuizController.getQuizSession userId sessionId db) = Some view ->
     exists s, In s (quizSessions db) /\ s_id s = sessionId /\
               s_user s = userId /\
               view = QuizController.sanitizeQuizSession s).
Proof.
  unfold QuizController.getQuizSession. split.
  - intro H.
    destruct (QuizSessionModel.findOne sessionId userId db) as [s|] eqn:E;
      [|reflexivity].
    unfold QuizSessionModel.findOne in E. apply find_some in E.
    destruct E as [Hin Hm]. apply andb_prop in Hm. destruct Hm as [H1 H2].
    apply String.eqb_eq in H1, H2. exfalso. exact (H s Hin H1 H2).
  - intros view.
    destruct (QuizSessionModel.findOne sessionId userId db) as [s|] eqn:E;
      [|intro H; discriminate H].
    intro H. injection H as Hview. exists s.
    unfold QuizSessionModel.findOne in E. apply find_some in E.
    destruct E as [Hin Hm]. apply andb_prop in Hm. destruct Hm as [Hm1 Hm2].
    apply String.eqb_eq in Hm1, Hm2. auto.
Qed.

Lemma getQuizSession_owner_only_witness :
  QuizController.getQuizSession "u2" "s1" Fixtures.activeStore
  = mkApiResponse false "Quiz session not found" None 404.
Proof.
  apply (proj1 (getQuizSession_owner_only "u2" "s1" Fixtures.activeStore)).
  intros s Hin _. simpl in Hin. destruct Hin as [E | []].
  rewrite <- E. discriminate.
Defined.

Lemma validateAnswerInput_accepts_iff_witness :
  QuizController.validateAnswerInput "s1" (Some 0) "b" = None.
Proof.
  apply (proj2 (validateAnswerInput_accepts_iff "s1" (Some 0) "b")).
  split; [discriminate|]. split; [exists 0; split; [reflexivity | lia]|].
  simpl. tauto.
Defined.

Lemma sanitizeQuizSession_lists_every_question_witness :
  exists v,
    nth_error (sv_questions
                 (QuizController.sanitizeQuizSession (Fixtures.sessionIn "active")))
              0 = Some v /\
    v_question v = "What is 2 + 2 ?" /\ v_options v = ["3"; "4"; "5"; "6"] /\
    v_userAnswer v = Some "B" /\ v_isAnswered v = true.
Proof.
  apply (proj2 (proj2 (sanitizeQuizSession_lists_every_question
                         (Fixtures.sessionIn "active")))
               0%nat Fixtures.q1 eq_refl).
Defined.

(** ** Lookups in the durable cache *)

Lemma latest_some (f : AIQuestion -> bool) (l : list AIQuestion) (e : AIQuestion) :
  AIQuestionModel.latest f l = Some e ->
  In e l /\ f e = true /\
  forall e', In e' l -> f e' = true -> createdAt e' <= createdAt e.
Proof.
  revert e. induction l as [|x r IH]; intros e H; simpl in H; [discriminate|].
  destruct (f x) eqn:Hx.
  - destruct (AIQuestionModel.latest f r) as [e0|] eqn:Hr.
    + destruct (IH e0 eq_refl) as [Hin [Hf Hmax]].
      destruct (createdAt x <? createdAt e0) eqn:Hlt; inversion H; subst e.
      * apply Z.ltb_lt in Hlt. split; [right; exact Hin|]. split; [exact Hf|].
        intros e' [E | Hin'] Hf'; [subst e'; lia | apply Hmax; assumption].
      * apply Z.ltb_ge in Hlt. split; [left; reflexivity|]. split; [exact Hx|].
        intros e' [E | Hin'] Hf'; [subst e'; lia|].
        specialize (Hmax e' Hin' Hf'). lia.
    + inversion H; subst e. split; [left; reflexivity|]. split; [exact Hx|].
      intros e' [E | Hin'] Hf'; [subst e'; lia|].
      exfalso. clear IH H. induction r as [|y r IHr]; [contradiction|].
      simpl in Hr. destruct (f y) eqn:Hy.
      * destruct (AIQuestionModel.latest f r) as [e1|];
          [destruct (createdAt y <? createdAt e1)|]; discriminate Hr.
      * destruct Hin' as [E | Hin']; [subst y; congruence | auto].
  - destruct (IH e H) as [Hin [Hf Hmax]].
    split; [right; exact Hin|]. split; [exact Hf|].
    intros e' [E | Hin'] Hf'; [subst e'; congruence | apply Hmax; assumption].
Qed.

Lemma latest_none (f : AIQuestion -> bool) (l : list AIQuestion) :
  AIQuestionModel.latest f l = None <-> forall e, In e l -> f e = false.
Proof.
  induction l as [|x r IH]; simpl.
  - split; [intros _ e [] | reflexivity].
  - destruct (f x) eqn:Hx.
    + split.
      * destruct (AIQuestionModel.latest f r) as [e1|];
          [destruct (createdAt x <? createdAt e1)|]; discriminate.
      * intro H. specialize (H x (or_introl eq_refl)). congruence.
    + rewrite IH. split.
      * intros H e [E | Hin]; [subst e; exact Hx | apply H; exact Hin].
      * intros H e Hin. apply H. right. exact Hin.
Qed.

(** X15.  [findActiveByCategoryAndDifficulty] returns only an entry of the
    store that is active, not yet expired and of the requested category and
    difficulty (compared in lower case), and among those the one created
    last; it returns nothing exactly when no such entry exists. *)
Theorem findActive_returns_newest_fresh_entry
        (now : Z) (cat diff : string) (db : Store) :
  exists r,
    AIQuestionModel.findActiveByCategoryAndDifficulty now cat diff db = (Ok r, db) /\
    (forall e, r = Some e ->
       In e (aiQuestions db) /\
       category e = Js.toLowerCase cat /\ difficulty e = Js.toLowerCase diff /\
       isActive e = true /\ now < expiresAt e /\
       forall e', In e' (aiQuestions db) ->
                  servable cat diff e' = true -> now < expiresAt e' ->
                  createdAt e' <= createdAt e) /\
    (r = None <->
     forall e, In e (aiQuestions db) ->
               servable cat diff e = true -> expiresAt e <= now).
Proof.
  unfold AIQuestionModel.findActiveByCategoryAndDifficulty.
  eexists. split; [reflexivity|]. split.
  - intros e H. apply latest_some in H. destruct H as [Hin [Hf Hmax]].
    apply andb_prop in Hf. destruct Hf as [Hf H4].
    apply andb_prop in Hf. destruct Hf as [Hf H3].
    apply andb_prop in Hf. destruct Hf as [H1 H2].
    apply String.eqb_eq in H1, H2. apply Z.ltb_lt in H4.
    repeat (split; [assumption|]).
    intros e' Hin' Hs Hfresh. apply Hmax; [exact Hin'|].
    unfold servable in Hs. rewrite Hs. apply Z.ltb_lt. exact Hfresh.
  - rewrite latest_none. split.
    + intros H e Hin Hs. specialize (H e Hin).
      unfold servable in Hs. rewrite Hs in H. simpl in H.
      apply Z.ltb_ge in H. exact H.
    + intros H e Hin.
      destruct (servable cat diff e) eqn:Hs.
      * unfold servable in Hs. rewrite Hs. simpl.
        apply Z.ltb_ge. apply H; [exact Hin | exact Hs].
      * unfold servable in Hs. rewrite Hs. reflexivity.
Qed.

Lemma findActive_returns_newest_fresh_entry_witness :
  exists r,
    AIQuestionModel.findActiveByCategoryAndDifficulty 3000 "science" "easy"
      Fixtures.cacheStore = (Ok r, Fixtures.cacheStore) /\
    r = None.
Proof.
  destruct (findActive_returns_newest_fresh_entry 3000 "science" "easy"
              Fixtures.cacheStore) as [r [E [_ Hnone]]].
  exists r. split; [exact E|].
  apply (proj2 Hnone). intros e Hin _. simpl in Hin.
  destruct Hin as [<- | []]. simpl. lia.
Defined.

(** ** Usage counting and the fixed part of an entry *)

Lemma usage_fold_shift (l : list AIQuestion) (a : Z) :
  fold_left (fun acc e => acc + usageCount e) l a =
  a + fold_left (fun acc e => acc + usageCount e) l 0.
Proof.
  revert a. induction l as [|x r IH]; intro a; simpl; [lia|].
  rewrite (IH (a + usageCount x)), (IH (usageCount x)). lia.
Qed.

Lemma stats_totalUsage (db : Store) :
  totalUsage (statsOf db) =
  fold_left (fun acc e => acc + usageCount e) (aiQuestions db) 0.
Proof.
  unfold statsOf, AIQuestionService.getCacheStats. simpl.
  destruct (aiQuestions db); reflexivity.
Qed.

Lemma stats_totalCached (db : Store) :
  totalCached (statsOf db) = Z.of_nat (List.length (aiQuestions db)).
Proof.
  unfold statsOf, AIQuestionService.getCacheStats. simpl.
  destruct (aiQuestions db); reflexivity.
Qed.

Lemma stats_activeCached (db : Store) :
  activeCached (statsOf db) =
  Z.of_nat (List.length (List.filter isActive (aiQuestions db))).
Proof.
  unfold statsOf, AIQuestionService.getCacheStats. simpl.
  destruct (aiQuestions db); reflexivity.
Qed.

Lemma stats_totalCost (db : Store) :
  totalCost (statsOf db) =
  fold_left (fun acc c => (acc + c)%float) (map cost (aiQuestions db)) 0%float.
Proof.
  unfold statsOf, AIQuestionService.getCacheStats. cbn [fst].
  assert (H : forall l a,
             fold_left (fun acc e => (acc + cost e)%float) l a =
             fold_left (fun acc c => (acc + c)%float) (map cost l) a).
  { induction l as [|x r IH]; intro a; simpl; [reflexivity | apply IH]. }
  destruct (aiQuestions db) as [|x r]; [reflexivity|].
  cbn [totalCost]. apply H.
Qed.

Lemma fixedPart_cost (l l' : list AIQuestion) :
  map fixedPart l' = map fixedPart l -> map cost l' = map cost l.
Proof.
  revert l'. induction l as [|x r IH]; intros [|x' r'] H; simpl in H;
    try discriminate H; [reflexivity|].
  inversion H. simpl. f_equal; [assumption | apply IH; assumption].
Qed.

Lemma fixedPart_keys (l l' : list AIQuestion) :
  map fixedPart l' = map fixedPart l -> map cacheKey l' = map cacheKey l.
Proof.
  revert l'. induction l as [|x r IH]; intros [|x' r'] H; simpl in H;
    try discriminate H; [reflexivity|].
  inversion H. simpl. f_equal; [assumption | apply IH; assumption].
Qed.

Lemma updateFirst_fixedPart (hit : AIQuestion -> bool) (f : AIQuestion -> AIQuestion)
      (l : list AIQuestion) :
  (forall e, fixedPart (f e) = fixedPart e) ->
  map fixedPart (updateFirst hit f l) = map fixedPart l.
Proof.
  intro Hf. induction l as [|x r IH]; simpl; [reflexivity|].
  destruct (hit x); simpl; [rewrite Hf; reflexivity | rewrite IH; reflexivity].
Qed.

Lemma updateFirst_active (hit : AIQuestion -> bool) (f : AIQuestion -> AIQuestion)
      (l : list AIQuestion) :
  (forall e, isActive (f e) = isActive e) ->
  map isActive (updateFirst hit f l) = map isActive l.
Proof.
  intro Hf. induction l as [|x r IH]; simpl; [reflexivity|].
  destruct (hit x); simpl; [rewrite Hf; reflexivity | rewrite IH; reflexivity].
Qed.

Lemma updateFirst_usage (hit : AIQuestion -> bool) (f : AIQuestion -> AIQuestion)
      (l : list AIQuestion) (e : AIQuestion) :
  (forall x, usageCount (f x) = usageCount x + 1) ->
  In e l -> hit e = true ->
  fold_left (fun acc x => acc + usageCount x) (updateFirst hit f l) 0 =
  fold_left (fun acc x => acc + usageCount x) l 0 + 1.
Proof.
  intros Hf Hin Hhit. induction l as [|x r IH]; [contradiction|].
  simpl. destruct (hit x) eqn:Hx.
  - simpl. rewrite (usage_fold_shift r (usageCount (f x))),
      (usage_fold_shift r (usageCount x)), Hf. lia.
  - destruct Hin as [E | Hin]; [subst x; congruence|].
    simpl. rewrite (usage_fold_shift _ (usageCount x)),
      (usage_fold_shift r (usageCount x)), (IH Hin). lia.
Qed.

(** X16.  [getCachedQuestions] either misses, returning null and leaving
    the store as it was, or serves the questions of the newest active
    entry of the category and difficulty, without looking at its expiry
    time.  A hit counts exactly one more use in the statistics and touches
    nothing else: the entries keep their fixed fields and their active
    flags, and their number, the fast tier, users, sessions and ledger
    are unchanged. *)
Theorem getCachedQuestions_hit_or_miss (now : Z) (cat diff : string) (db : Store) :
  ((forall e, In e (aiQuestions db) -> servable cat diff e = false) /\
   AIQuestionService.getCachedQuestions now cat diff db = (Ok None, db))
  \/
  (exists cached db',
      AIQuestionService.getCachedQuestions now cat diff db
        = (Ok (Some (questions cached)), db') /\
      In cached (aiQuestions db) /\ servable cat diff cached = true /\
      (forall e, In e (aiQuestions db) -> servable cat diff e = true ->
                 createdAt e <= createdAt cached) /\
      totalUsage (statsOf db') = totalUsage (statsOf db) + 1 /\
      map fixedPart (aiQuestions db') = map fixedPart (aiQuestions db) /\
      map isActive (aiQuestions db') = map isActive (aiQuestions db) /\
      redis db' = redis db /\ sameAccounts db db').
Proof.
  unfold AIQuestionService.getCachedQuestions.
  change (fun e : AIQuestion =>
            (String.eqb (category e) (Js.toLowerCase cat) &&
             String.eqb (difficulty e) (Js.toLowerCase diff) && isActive e)%bool)
    with (servable cat diff).
  destruct (AIQuestionModel.latest (servable cat diff) (aiQuestions db))
    as [cached|] eqn:E.
  - right. destruct (latest_some _ _ _ E) as [Hin [Hs Hmax]].
    exists cached. eexists. split; [reflexivity|].
    split; [exact Hin|]. split; [exact Hs|]. split; [exact Hmax|].
    rewrite !stats_totalUsage.
    cbn [snd aiQuestions setAIQuestions redis]. split.
    + apply (updateFirst_usage _ _ _ cached); [reflexivity | exact Hin |].
      apply String.eqb_refl.
    + split; [apply updateFirst_fixedPart; reflexivity|].
      split; [apply updateFirst_active; reflexivity|].
      repeat split.
  - left. split; [apply latest_none; exact E | reflexivity].
Qed.

(** A sweep has switched the expired entry off, yet an entry that is
    still flagged active is served after its expiry time. *)
Example getCachedQuestions_serves_expired_active_entry :
  exists db',
    AIQuestionService.getCachedQuestions 3000 "science" "easy" Fixtures.cacheStore
    = (Ok (Some [Fixtures.q1]), db') /\
    expiresAt Fixtures.expiredEntry < 3000.
Proof.
  eexists. split; [vm_compute; reflexivity | reflexivity].
Qed.

Lemma deactivateWhere_fixedPart (now : Z) (filter : AIQuestion -> bool)
      (db : Store) :
  map fixedPart (aiQuestions (snd (AIQuestionModel.deactivateWhere now filter db)))
  = map fixedPart (aiQuestions db).
Proof.
  unfold AIQuestionModel.deactivateWhere. cbn [snd aiQuestions setAIQuestions].
  induction (aiQuestions db) as [|x r IH]; simpl; [reflexivity|].
  rewrite IH. destruct (filter x); reflexivity.
Qed.

(** X17.  What is fixed when an entry is stored stays fixed: category,
    difficulty, questions, model, prompt, tokens, cost, cache key, creation
    and expiry time of every entry are the same, entry by entry, after
    [incrementUsage], [getCachedQuestions], [invalidateCache],
    [cleanupExpiredCache] and [deactivateExpired]; in particular no expiry
    time is ever extended.  [cacheQuestions] keeps the existing entries as
    they are and adds at most one. *)
Theorem cache_entries_fixed_part_is_immutable
        (now : Z) (cat : string) (diff : string) (odiff : option string)
        (key : string) (qs : list Question) (metrics : AIResponseMetrics)
        (prompt : string) (db : Store) :
  let same (db' : Store) :=
    map fixedPart (aiQuestions db') = map fixedPart (aiQuestions db) in
  same (snd (AIQuestionModel.incrementUsage now key db)) /\
  same (snd (AIQuestionService.getCachedQuestions now cat diff db)) /\
  same (snd (AIQuestionService.invalidateCache now cat odiff db)) /\
  same (snd (AIQuestionService.cleanupExpiredCache now db)) /\
  same (snd (AIQuestionModel.deactivateExpired now db)) /\
  exists tail,
    aiQuestions (snd (AIQuestionService.cacheQuestions now qs cat diff metrics
                                                       prompt db))
    = (aiQuestions db ++ tail)%list /\ (List.length tail <= 1)%nat.
Proof.
  intro same. unfold same.
  split; [apply updateFirst_fixedPart; reflexivity|].
  split.
  { destruct (getCachedQuestions_hit_or_miss now cat diff db)
      as [[_ E] | [cached [db' [E [_ [_ [_ [_ [H _]]]]]]]]]; rewrite E;
      [reflexivity | exact H]. }
  split; [apply deactivateWhere_fixedPart|].
  split; [apply deactivateWhere_fixedPart|].
  split; [apply deactivateWhere_fixedPart|].
  destruct (cacheQuestions_cases now qs cat diff metrics prompt db)
    as [[E _] | E]; rewrite E.
  - eexists. split; [reflexivity | simpl; lia].
  - exists []. split; [simpl; rewrite app_nil_r; reflexivity | simpl; lia].
Qed.

(** ** Invalidation, sweep and statistics *)

Lemma deactivateWhere_run (now : Z) (f : AIQuestion -> bool) (db : Store) :
  AIQuestionModel.deactivateWhere now f db =
  (Ok (Z.of_nat (List.length
                   (List.filter (fun e => (f e && isActive e)%bool) (aiQuestions db)))),
   setAIQuestions
     (map (fun e => if f e then AIQuestionModel.deactivate now e else e)
          (aiQuestions db)) db).
Proof. reflexivity. Qed.

Lemma deactivate_twice (now now' : Z) (f : AIQuestion -> bool) (l : list AIQuestion) :
  (forall e, f e = true -> isActive e = true) ->
  let g := fun e => if f e then AIQuestionModel.deactivate now e else e in
  let g' := fun e => if f e then AIQuestionModel.deactivate now' e else e in
  map g' (map g l) = map g l /\
  List.filter (fun e => (f e && isActive e)%bool) (map g l) = [].
Proof.
  intros Hf g g'.
  assert (Hoff : forall e, f (AIQuestionModel.deactivate now e) = false).
  { intro e. destruct (f (AIQuestionModel.deactivate now e)) eqn:E; [|reflexivity].
    apply Hf in E. discriminate E. }
  assert (Hg : forall x, g' (g x) = g x /\ (f (g x) && isActive (g x))%bool = false).
  { intro x. unfold g, g'. destruct (f x) eqn:Hx.
    - rewrite Hoff. split; reflexivity.
    - rewrite Hx. split; reflexivity. }
  induction l as [|x r [IH1 IH2]]; [split; reflexivity|].
  cbn [map List.filter]. destruct (Hg x) as [H1 H2].
  rewrite H1, H2, IH1, IH2. split; reflexivity.
Qed.

Lemma deactivate_active_count (now : Z) (f : AIQuestion -> bool)
      (l : list AIQuestion) :
  (forall e, f e = true -> isActive e = true) ->
  (List.length (List.filter isActive
     (map (fun e => if f e then AIQuestionModel.deactivate now e else e) l))
   + List.length (List.filter (fun e => (f e && isActive e)%bool) l)
   = List.length (List.filter isActive l))%nat.
Proof.
  intro Hf. induction l as [|x r IH]; [reflexivity|].
  simpl. destruct (f x) eqn:Hx.
  - rewrite (Hf x Hx). simpl. lia.
  - simpl. destruct (isActive x); simpl; lia.
Qed.

Lemma deactivate_usage (now : Z) (f : AIQuestion -> bool) (l : list AIQuestion)
      (a : Z) :
  fold_left (fun acc e => acc + usageCount e)
    (map (fun e => if f e then AIQuestionModel.deactivate now e else e) l) a
  = fold_left (fun acc e => acc + usageCount e) l a.
Proof.
  revert a. induction l as [|x r IH]; intro a; simpl; [reflexivity|].
  rewrite IH. destruct (f x); reflexivity.
Qed.

Lemma deactivateWhere_stats (now : Z) (f : AIQuestion -> bool) (db : Store) :
  (forall e, f e = true -> isActive e = true) ->
  exists n db',
    AIQuestionModel.deactivateWhere now f db = (Ok n, db') /\
    totalCached (statsOf db') = totalCached (statsOf db) /\
    totalUsage (statsOf db') = totalUsage (statsOf db) /\
    totalCost (statsOf db') = totalCost (statsOf db) /\
    activeCached (statsOf db') = activeCached (statsOf db) - n /\
    forall now', AIQuestionModel.deactivateWhere now' f db' = (Ok 0, db').
Proof.
  intro Hf. rewrite deactivateWhere_run. eexists. eexists.
  split; [reflexivity|].
  rewrite !stats_totalCached, !stats_totalUsage, !stats_totalCost,
    !stats_activeCached.
  cbn [aiQuestions setAIQuestions].
  split; [rewrite length_map; reflexivity|].
  split; [apply deactivate_usage|].
  split.
  { f_equal. apply fixedPart_cost.
    exact (deactivateWhere_fixedPart now f db). }
  split.
  { pose proof (deactivate_active_count now f (aiQuestions db) Hf). lia. }
  intro now'. rewrite deactivateWhere_run. cbn [aiQuestions setAIQuestions].
  destruct (deactivate_twice now now' f (aiQuestions db) Hf) as [H1 H2].
  rewrite H1, H2. reflexivity.
Qed.

(** X18.  After [invalidateCache] for a category, a lookup for that
    category misses and changes nothing, for every difficulty when the
    invalidation named none and for the named difficulty otherwise, until
    a new entry is stored. *)
Theorem invalidateCache_then_lookup_misses
        (now0 now : Z) (cat diff : string) (odiff : option string) (db : Store) :
  odiff = None \/ odiff = Some diff ->
  AIQuestionService.getCachedQuestions now cat diff
    (snd (AIQuestionService.invalidateCache now0 cat odiff db))
  = (Ok None, snd (AIQuestionService.invalidateCache now0 cat odiff db)).
Proof.
  intro Hd.
  destruct (getCachedQuestions_hit_or_miss now cat diff
              (snd (AIQuestionService.invalidateCache now0 cat odiff db)))
    as [[_ E] | [cached [db' [_ [Hin [Hs _]]]]]]; [exact E|].
  exfalso.
  unfold AIQuestionService.invalidateCache in Hin.
  rewrite deactivateWhere_run in Hin. cbn [snd aiQuestions setAIQuestions] in Hin.
  apply in_map_iff in Hin. destruct Hin as [x [Hx _]].
  unfold servable in Hs.
  destruct (String.eqb (category x) (Js.toLowerCase cat)) eqn:Hc;
    destruct (isActive x) eqn:Ha; simpl in Hx; subst cached;
      cbn [AIQuestionModel.deactivate category difficulty isActive] in Hs;
      rewrite ?Hc, ?Ha in Hs; simpl in Hs; try discriminate Hs.
  - destruct Hd as [-> | ->].
    + cbn [AIQuestionModel.deactivate category difficulty isActive] in Hs.
      rewrite Hc in Hs. simpl in Hs. rewrite andb_false_r in Hs. discriminate Hs.
    + destruct (Js.truthy diff).
      * destruct (String.eqb (difficulty x) (Js.toLowerCase diff)) eqn:Hdf;
          cbn [AIQuestionModel.deactivate category difficulty isActive] in Hs;
          rewrite ?Hc, ?Hdf, ?Ha in Hs; simpl in Hs; discriminate Hs.
      * cbn [AIQuestionModel.deactivate category difficulty isActive] in Hs.
        rewrite Hc in Hs. simpl in Hs. rewrite andb_false_r in Hs. discriminate Hs.
  - rewrite andb_false_r in Hs. discriminate Hs.
Qed.

Lemma invalidateCache_then_lookup_misses_witness :
  AIQuestionService.getCachedQuestions 1500 "Science" "easy"
    (snd (AIQuestionService.invalidateCache 1400 "science" None Fixtures.cacheStore))
  = (Ok None,
     snd (AIQuestionService.invalidateCache 1400 "science" None Fixtures.cacheStore)).
Proof.
  apply (invalidateCache_then_lookup_misses 1400 1500 "Science" "easy" None
           Fixtures.cacheStore).
  left. reflexivity.
Defined.

Lemma invalidate_filter_active (cat : string) (odiff : option string) (e : AIQuestion) :
  (String.eqb (category e) (Js.toLowerCase cat) && isActive e &&
   match odiff with
   | Some d => if Js.truthy d then String.eqb (difficulty e) (Js.toLowerCase d)
               else true
   | None => true
   end)%bool = true -> isActive e = true.
Proof.
  intro H. apply andb_prop in H. destruct H as [H _].
  apply andb_prop in H. apply H.
Qed.

(** X19.  [cleanupExpiredCache] returns the number of entries that were
    active and expired; afterwards every entry still active expires in
    the future, and a second sweep at the same time modifies nothing and
    returns 0. *)
Theorem cleanupExpiredCache_sweeps_once (now : Z) (db : Store) :
  exists db',
    AIQuestionService.cleanupExpiredCache now db =
      (Ok (Z.of_nat (List.length
                       (List.filter (fun e => (isActive e && (expiresAt e <=? now))%bool)
                                    (aiQuestions db)))), db') /\
    (forall e, In e (aiQuestions db') -> isActive e = true -> now < expiresAt e) /\
    AIQuestionService.cleanupExpiredCache now db' = (Ok 0, db').
Proof.
  unfold AIQuestionService.cleanupExpiredCache.
  set (f := fun e : AIQuestion => (isActive e && (expiresAt e <=? now))%bool).
  assert (Hf : forall e, f e = true -> isActive e = true).
  { intros e H. apply andb_prop in H. apply H. }
  destruct (deactivateWhere_stats now f db Hf) as [n [db' [E [_ [_ [_ [_ Hidem]]]]]]].
  rewrite deactivateWhere_run in E. inversion E as [[Hn Hdb]].
  exists db'. split.
  - rewrite deactivateWhere_run. rewrite Hdb. f_equal. f_equal. f_equal. f_equal.
    apply filter_ext. intro e. unfold f. destruct (isActive e); simpl;
      [rewrite andb_true_r; reflexivity | reflexivity].
  - split; [|exact (Hidem now)].
    intros e Hin Ha. rewrite <- Hdb in Hin. cbn [aiQuestions setAIQuestions] in Hin.
    apply in_map_iff in Hin. destruct Hin as [x [Hx _]].
    destruct (f x) eqn:Hfx.
    + subst e. discriminate Ha.
    + subst e. unfold f in Hfx. rewrite Ha in Hfx. simpl in Hfx.
      apply Z.leb_gt in Hfx. exact Hfx.
Qed.

(** X20.  Invalidation and sweep show in the statistics as a drop of
    [activeCached] by exactly the number each returns; [totalCached],
    [totalUsage] and [totalCost] are what they were, and repeating the
    operation modifies nothing. *)
Theorem deactivation_shows_in_stats
        (now : Z) (cat : string) (odiff : option string) (db : Store) :
  (exists n db',
      AIQuestionService.invalidateCache now cat odiff db = (Ok n, db') /\
      totalCached (statsOf db') = totalCached (statsOf db) /\
      totalUsage (statsOf db') = totalUsage (statsOf db) /\
      totalCost (statsOf db') = totalCost (statsOf db) /\
      activeCached (statsOf db') = activeCached (statsOf db) - n /\
      forall now', AIQuestionService.invalidateCache now' cat odiff db' = (Ok 0, db')) /\
  (exists n db',
      AIQuestionService.cleanupExpiredCache now db = (Ok n, db') /\
      totalCached (statsOf db') = totalCached (statsOf db) /\
      totalUsage (statsOf db') = totalUsage (statsOf db) /\
      totalCost (statsOf db') = totalCost (statsOf db) /\
      activeCached (statsOf db') = activeCached (statsOf db) - n /\
      AIQuestionService.cleanupExpiredCache now db' = (Ok 0, db')).
Proof.
  split.
  - unfold AIQuestionService.invalidateCache.
    apply deactivateWhere_stats. intro e. apply invalidate_filter_active.
  - unfold AIQuestionService.cleanupExpiredCache.
    destruct (deactivateWhere_stats now
                (fun e => (isActive e && (expiresAt e <=? now))%bool) db)
      as [n [db' [E [H1 [H2 [H3 [H4 H5]]]]]]].
    { intros e H. apply andb_prop in H. apply H. }
    exists n, db'. repeat (split; [assumption|]). exact (H5 now).
Qed.

(** On an empty cache the statistics are all zero. *)
Example getCacheStats_empty :
  AIQuestionService.getCacheStats Fixtures.unpaidStore
  = (Ok (mkCacheStats 0 0 0 0%float), Fixtures.unpaidStore).
Proof. reflexivity. Qed.

(** ** Unique cache keys *)

Lemma preserves_ret {A : Type} (P : Store -> Prop) (a : A) : preserves P (@ret Store A a).
Proof. intros db H. exact H. Qed.

Lemma preserves_throw {A : Type} (P : Store -> Prop) (e : error) :
  preserves P (@throw Store A e).
Proof. intros db H. exact H. Qed.

Lemma preserves_bind {A B : Type} (P : Store -> Prop) (m : M Store A)
      (k : A -> M Store B) :
  preserves P m -> (forall a, preserves P (k a)) -> preserves P (bind m k).
Proof.
  intros Hm Hk db H. unfold bind. specialize (Hm db H).
  destruct (m db) as [[a | e] d]; simpl in Hm |- *; [apply Hk; exact Hm | exact Hm].
Qed.

Lemma preserves_tryCatch {A : Type} (P : Store -> Prop) (m : M Store A)
      (h : error -> M Store A) :
  preserves P m -> (forall e, preserves P (h e)) -> preserves P (tryCatch m h).
Proof.
  intros Hm Hh db H. unfold tryCatch. specialize (Hm db H).
  destruct (m db) as [[a | e] d]; simpl in Hm |- *; [exact Hm | apply Hh; exact Hm].
Qed.

Lemma existsb_key_false (k : string) (l : list AIQuestion) :
  existsb (fun e => String.eqb (cacheKey e) k) l = false ->
  ~ In k (map cacheKey l).
Proof.
  intros H Hin. apply in_map_iff in Hin. destruct Hin as [e [E Hin]].
  assert (existsb (fun e => String.eqb (cacheKey e) k) l = true).
  { apply existsb_exists. exists e. split; [exact Hin|].
    rewrite E. apply String.eqb_refl. }
  congruence.
Qed.

Lemma uniqueKeys_cacheQuestions now qs cat diff metrics prompt :
  preserves uniqueKeys
    (AIQuestionService.cacheQuestions now qs cat diff metrics prompt).
Proof.
  intros db H. unfold AIQuestionService.cacheQuestions, tryCatch, bind.
  fold (entryFor now qs cat diff metrics prompt).
  unfold AIQuestionModel.save.
  destruct (AIQuestionModel.validate _); [exact H|].
  destruct (existsb _ (aiQuestions db)) eqn:Hfresh; [exact H|].
  unfold uniqueKeys in *. cbn [ret snd aiQuestions setAIQuestions].
  rewrite map_app. simpl.
  apply NoDup_app; [exact H | constructor; [simpl; tauto | constructor] |].
  intros k Hk [E' | []]. subst k.
  exact (existsb_key_false _ _ Hfresh Hk).
Qed.

Lemma uniqueKeys_same_keys (db db' : Store) :
  map fixedPart (aiQuestions db') = map fixedPart (aiQuestions db) ->
  uniqueKeys db -> uniqueKeys db'.
Proof.
  intros H Hu. unfold uniqueKeys in *. rewrite (fixedPart_keys _ _ H). exact Hu.
Qed.

Lemma uniqueKeys_getCachedQuestions now cat diff :
  preserves uniqueKeys (AIQuestionService.getCachedQuestions now cat diff).
Proof.
  intros db H.
  destruct (getCachedQuestions_hit_or_miss now cat diff db)
    as [[_ E] | [cached [db' [E [_ [_ [_ [_ [Hfix _]]]]]]]]]; rewrite E;
    [exact H | exact (uniqueKeys_same_keys _ _ Hfix H)].
Qed.

(** X21.  Cache keys stay unique.  If no two entries of the durable cache
    share a key, none do after [generateQuestions], whichever tier answers
    and whether or not the generation succeeds, nor after [cacheQuestions],
    [invalidateCache] or [cleanupExpiredCache]. *)
Theorem cache_keys_stay_unique
        (complete : string -> option (list Question * Z))
        (buildPrompt : string -> string -> nat -> string)
        (now : Z) (cat diff : string) (odiff : option string) (count : nat)
        (qs : list Question) (metrics : AIResponseMetrics) (prompt : string) :
  preserves uniqueKeys
    (AIService.generateQuestions complete buildPrompt now cat diff count) /\
  preserves uniqueKeys
    (AIQuestionService.cacheQuestions now qs cat diff metrics prompt) /\
  preserves uniqueKeys (AIQuestionService.invalidateCache now cat odiff) /\
  preserves uniqueKeys (AIQuestionService.cleanupExpiredCache now).
Proof.
  assert (Hgen : preserves uniqueKeys
                   (AIService.generate complete buildPrompt now cat diff count)).
  { unfold AIService.generate. apply preserves_tryCatch.
    - destruct (complete (buildPrompt cat diff count)) as [[raw tokens]|].
      + apply preserves_bind; [apply uniqueKeys_cacheQuestions|].
        intros _. apply preserves_bind; [intros db H; exact H|].
        intros _. apply preserves_ret.
      + apply preserves_throw.
    - intro e. apply preserves_throw. }
  split; [|split; [apply uniqueKeys_cacheQuestions|split]].
  - unfold AIService.generateQuestions.
    assert (Hfallback : preserves uniqueKeys
              (bind (CacheService.get now
                       ("ai_questions:" ++ cat ++ ":" ++ diff ++ ":" ++
                        Js.showInt (Z.of_nat count)))
                    (fun cached =>
                       match cached with
                       | Some v => ret v
                       | None => AIService.generate complete buildPrompt now cat
                                                    diff count
                       end))).
    { apply preserves_bind; [intros db H; exact H|].
      intros [v|]; [apply preserves_ret | exact Hgen]. }
    apply preserves_bind; [apply uniqueKeys_getCachedQuestions|].
    intros [l|]; [|exact Hfallback].
    destruct (Nat.leb count (List.length l)); [apply preserves_ret | exact Hfallback].
  - intros db H. eapply uniqueKeys_same_keys; [|exact H].
    apply deactivateWhere_fixedPart.
  - intros db H. eapply uniqueKeys_same_keys; [|exact H].
    apply deactivateWhere_fixedPart.
Qed.

Lemma cache_keys_stay_unique_witness :
  uniqueKeys
    (snd (AIService.generateQuestions Fixtures.twoQuestions Fixtures.plainPrompt
            7200001 "science" "easy" 2 Fixtures.cacheStore)).
Proof.
  apply (proj1 (cache_keys_stay_unique Fixtures.twoQuestions Fixtures.plainPrompt
                  7200001 "science" "easy" None 2 [] Fixtures.metrics "")).
  unfold uniqueKeys. simpl. constructor; [simpl; tauto | constructor].
Defined.

(** ** The tiers of the question engine *)

(** X22.  When the durable tier holds at least [count] questions,
    [generateQuestions] returns exactly the first [count] of them and
    stops there: neither the fast tier nor the generator is consulted, so
    the result does not depend on the generator. *)
Theorem generateQuestions_durable_hit
        (complete : string -> option (list Question * Z))
        (buildPrompt : string -> string -> nat -> string)
        (now : Z) (cat diff : string) (count : nat)
        (db db1 : Store) (qs : list Question) :
  AIQuestionService.getCachedQuestions now cat diff db = (Ok (Some qs), db1) ->
  (count <= List.length qs)%nat ->
  AIService.generateQuestions complete buildPrompt now cat diff count db
    = (Ok (firstn count qs), db1) /\
  List.length (firstn count qs) = count.
Proof.
  intros Hhit Hlen. split; [|apply firstn_length_le; exact Hlen].
  unfold AIService.generateQuestions, bind. rewrite Hhit.
  replace (Nat.leb count (List.length qs)) with true
    by (symmetry; apply Nat.leb_le; exact Hlen).
  reflexivity.
Qed.

Lemma generateQuestions_durable_hit_witness :
  AIService.generateQuestions Fixtures.noCompletion Fixtures.plainPrompt
    1500 "science" "easy" 1 Fixtures.cacheStore
  = (Ok (firstn 1 [Fixtures.q1]),
     snd (AIQuestionService.getCachedQuestions 1500 "science" "easy"
            Fixtures.cacheStore)) /\
  List.length (firstn 1 [Fixtures.q1]) = 1%nat.
Proof.
  apply (generateQuestions_durable_hit Fixtures.noCompletion Fixtures.plainPrompt
           1500 "science" "easy" 1 Fixtures.cacheStore).
  - reflexivity.
  - simpl. lia.
Defined.

Lemma cacheGet_run (now : Z) (key : string) (db : Store) :
  exists r, CacheService.get now key db = (Ok r, db).
Proof. unfold CacheService.get. eexists. reflexivity. Qed.

(** X23.  A failed [generateQuestions] leaves no trace in either tier: the
    error is "Failed to generate questions" whatever went wrong, the fast
    tier is unchanged, and the durable tier holds the same entries with
    the same fixed fields (at most a use was counted by the lookup that
    came first). *)
Theorem generateQuestions_failure_writes_no_entry
        (complete : string -> option (list Question * Z))
        (buildPrompt : string -> string -> nat -> string)
        (now : Z) (cat diff : string) (count : nat)
        (db db' : Store) (e : error) :
  AIService.generateQuestions complete buildPrompt now cat diff count db
    = (Throw e, db') ->
  e = Error_ "Failed to generate questions" /\
  redis db' = redis db /\
  map fixedPart (aiQuestions db') = map fixedPart (aiQuestions db) /\
  sameAccounts db db'.
Proof.
  assert (Hfallback : forall d e0 d',
            bind (CacheService.get now
                    ("ai_questions:" ++ cat ++ ":" ++ diff ++ ":" ++
                     Js.showInt (Z.of_nat count)))
                 (fun cached =>
                    match cached with
                    | Some v => ret v
                    | None => AIService.generate complete buildPrompt now cat
                                                 diff count
                    end) d = (Throw e0, d') ->
            e0 = Error_ "Failed to generate questions" /\ d' = d).
  { intros d e0 d'. unfold bind.
    destruct (cacheGet_run now
                ("ai_questions:" ++ cat ++ ":" ++ diff ++ ":" ++
                 Js.showInt (Z.of_nat count)) d) as [[v|] G]; rewrite G.
    - intro H. discriminate H.
    - rewrite generate_throws. intro H. inversion H. split; reflexivity. }
  unfold AIService.generateQuestions. unfold bind at 1.
  destruct (getCachedQuestions_hit_or_miss now cat diff db)
    as [[_ E] | [cached [d1 [E [_ [_ [_ [_ [Hfix [_ [Hred Hacc]]]]]]]]]]];
    rewrite E.
  - intro H. apply Hfallback in H. destruct H as [-> ->].
    split; [reflexivity|]. split; [reflexivity|]. split; [reflexivity|].
    apply sameAccounts_refl.
  - destruct (Nat.leb count (List.length (questions cached)));
      [intro H; discriminate H|].
    intro H. apply Hfallback in H. destruct H as [-> ->].
    split; [reflexivity|]. split; [exact Hred|]. split; [exact Hfix | exact Hacc].
Qed.

Lemma generateQuestions_failure_writes_no_entry_witness :
  exists e db',
    AIService.generateQuestions Fixtures.noCompletion Fixtures.plainPrompt
      1500 "science" "easy" 5 Fixtures.cacheStore = (Throw e, db') /\
    e = Error_ "Failed to generate questions" /\
    redis db' = redis Fixtures.cacheStore /\
    map fixedPart (aiQuestions db') = map fixedPart (aiQuestions Fixtures.cacheStore) /\
    sameAccounts Fixtures.cacheStore db'.
Proof.
  destruct (AIService.generateQuestions Fixtures.noCompletion Fixtures.plainPrompt
              1500 "science" "easy" 5 Fixtures.cacheStore) as [[qs | e] d] eqn:E.
  - vm_compute in E. discriminate E.
  - exists e, d. split; [reflexivity|].
    exact (generateQuestions_failure_writes_no_entry _ _ _ _ _ _ _ _ _ E).
Defined.

Lemma find_filter {A : Type} (p q : A -> bool) (l : list A) :
  (forall x, p x = true -> q x = true) ->
  List.find p (List.filter q l) = List.find p l.
Proof.
  intro H. induction l as [|x r IH]; simpl; [reflexivity|].
  destruct (q x) eqn:Hq; simpl.
  - rewrite IH. reflexivity.
  - destruct (p x) eqn:Hp; [rewrite (H x Hp) in Hq; discriminate Hq | exact IH].
Qed.

Lemma cacheStore_then_get (now' : Z) (key key' : string) (expiry : option Z)
      (v : list Question) (db : Store) :
  fst (CacheService.get now' key (snd (CacheService.store key expiry v db)))
    = Ok (match expiry with
          | Some t => if now' <? t then Some v else None
          | None => Some v
          end) /\
  (key' <> key ->
   fst (CacheService.get now' key' (snd (CacheService.store key expiry v db)))
     = fst (CacheService.get now' key' db)).
Proof.
  unfold CacheService.get, CacheService.store. cbn [fst snd redis setRedis].
  split.
  - cbn [List.find fst]. rewrite String.eqb_refl. destruct expiry; reflexivity.
  - intro Hne. cbn [List.find fst].
    replace (String.eqb key key') with false
      by (symmetry; apply String.eqb_neq; congruence).
    rewrite find_filter; [reflexivity|].
    intros [k x] Hk. simpl in Hk |- *. apply String.eqb_eq in Hk. subst k.
    apply negb_true_iff. apply String.eqb_neq. exact Hne.
Qed.

(** X24.  The fast tier round trip.  After [set(key, v, ttl)] with a
    positive [ttl], a [get] of the same key returns [v] while fewer than
    [ttl] seconds have passed and null from then on.  Without a [ttl], or
    with 0, the value is stored without a time to live and every later
    [get] returns it.  A negative [ttl] is refused by Redis and the error
    is swallowed: the store is what it was.  [set] itself never throws,
    and the value under any other key is what it was. *)
Theorem cache_set_then_get
        (now now' : Z) (key key' : string) (v : list Question) (ttl : option Z)
        (db : Store) :
  let db1 := snd (CacheService.set now key v ttl db) in
  (forall t, ttl = Some t -> 0 < t ->
     fst (CacheService.get now' key db1)
       = Ok (if now' <? now + t * 1000 then Some v else None)) /\
  (ttl = None \/ ttl = Some 0 ->
     fst (CacheService.get now' key db1) = Ok (Some v)) /\
  (forall t, ttl = Some t -> t < 0 -> db1 = db) /\
  (key' <> key ->
     fst (CacheService.get now' key' db1) = fst (CacheService.get now' key' db)) /\
  fst (CacheService.set now key v ttl db) = Ok tt.
Proof.
  intro db1. subst db1. unfold CacheService.set.
  split; [|split; [|split; [|split]]].
  - intros t -> Ht.
    replace (t =? 0) with false by (symmetry; apply Z.eqb_neq; lia).
    replace (0 <? t) with true by (symmetry; apply Z.ltb_lt; lia).
    apply (proj1 (cacheStore_then_get now' key key' (Some (now + t * 1000)) v db)).
  - intros [-> | ->]; cbn [Z.eqb];
      apply (proj1 (cacheStore_then_get now' key key' None v db)).
  - intros t -> Ht.
    replace (t =? 0) with false by (symmetry; apply Z.eqb_neq; lia).
    replace (0 <? t) with false by (symmetry; apply Z.ltb_ge; lia).
    reflexivity.
  - intro Hne. destruct ttl as [t|].
    + destruct (t =? 0); [|destruct (0 <? t)];
        [apply cacheStore_then_get; exact Hne
        |apply cacheStore_then_get; exact Hne
        |reflexivity].
    + apply cacheStore_then_get; exact Hne.
  - destruct ttl as [t|]; [destruct (t =? 0); [|destruct (0 <? t)]|]; reflexivity.
Qed.

(** One hour for "k" at time 1000, read at time 5000; no time to live;
    a time to live of -5 seconds. *)
Lemma cache_set_then_get_witness :
  (fst (CacheService.get 5000 "k"
          (snd (CacheService.set 1000 "k" [Fixtures.q1] (Some 3600)
                  Fixtures.unpaidStore)))
     = Ok (if 5000 <? 1000 + 3600 * 1000 then Some [Fixtures.q1] else None) /\
   fst (CacheService.get 5000 "other"
          (snd (CacheService.set 1000 "k" [Fixtures.q1] (Some 3600)
                  Fixtures.unpaidStore)))
     = fst (CacheService.get 5000 "other" Fixtures.unpaidStore)) /\
  fst (CacheService.get 5000 "k"
         (snd (CacheService.set 1000 "k" [Fixtures.q1] None Fixtures.unpaidStore)))
    = Ok (Some [Fixtures.q1]) /\
  snd (CacheService.set 1000 "k" [Fixtures.q1] (Some (-5)) Fixtures.unpaidStore)
    = Fixtures.unpaidStore.
Proof.
  split; [|split].
  - destruct (cache_set_then_get 1000 5000 "k" "other" [Fixtures.q1] (Some 3600)
                Fixtures.unpaidStore) as [H1 [_ [_ [H4 _]]]].
    split; [apply (H1 3600); [reflexivity | lia] | apply H4; discriminate].
  - destruct (cache_set_then_get 1000 5000 "k" "other" [Fixtures.q1] None
                Fixtures.unpaidStore) as [_ [H2 _]].
    apply H2. left. reflexivity.
  - destruct (cache_set_then_get 1000 5000 "k" "other" [Fixtures.q1] (Some (-5))
                Fixtures.unpaidStore) as [_ [_ [H3 _]]].
    apply (H3 (-5)); [reflexivity | lia].
Defined.

Lemma getCachedQuestions_run (now : Z) (cat diff : string) (db : Store) :
  exists r d, AIQuestionService.getCachedQuestions now cat diff db = (Ok r, d).
Proof.
  destruct (getCachedQuestions_hit_or_miss now cat diff db)
    as [[_ E] | [cached [db' [E _]]]]; rewrite E; eexists; eexists; reflexivity.
Qed.

(** X25.  [generateQuestions] answers from a cache tier or not at all.
    Its last step, the generation, always ends in "Failed to generate
    questions": the entry it builds is refused by [cacheQuestions], before
    the fast tier is written.  So a call that returns questions returned
    the first [count] questions of the durable entry that
    [getCachedQuestions] found, or the value the fast tier holds under the
    key of the request; and a call that finds fewer than [count] questions
    in the durable tier and nothing in the fast tier throws, whatever the
    generator answers.  In both cases the store is the one the durable
    lookup left. *)
Theorem generateQuestions_answers_from_cache_only
        (complete : string -> option (list Question * Z))
        (buildPrompt : string -> string -> nat -> string)
        (now : Z) (cat diff : string) (count : nat) (db : Store) :
  let key :=
    "ai_questions:" ++ cat ++ ":" ++ diff ++ ":" ++ Js.showInt (Z.of_nat count) in
  let looked := AIQuestionService.getCachedQuestions now cat diff db in
  (forall qs db',
      AIService.generateQuestions complete buildPrompt now cat diff count db
        = (Ok qs, db') ->
      db' = snd looked /\
      ((exists l, fst looked = Ok (Some l) /\ (count <= List.length l)%nat /\
                  qs = firstn count l) \/
       fst (CacheService.get now key (snd looked)) = Ok (Some qs))) /\
  ((forall l, fst looked = Ok (Some l) -> (List.length l < count)%nat) ->
   fst (CacheService.get now key (snd looked)) = Ok None ->
   AIService.generateQuestions complete buildPrompt now cat diff count db
     = (Throw (Error_ "Failed to generate questions"), snd looked)).
Proof.
  intros key looked. subst looked.
  assert (Hfallback : forall d,
            bind (CacheService.get now key)
                 (fun cached =>
                    match cached with
                    | Some v => ret v
                    | None => AIService.generate complete buildPrompt now cat
                                                 diff count
                    end) d
            = match fst (CacheService.get now key d) with
              | Ok (Some v) => (Ok v, d)
              | _ => (Throw (Error_ "Failed to generate questions"), d)
              end).
  { intro d. unfold bind.
    destruct (cacheGet_run now key d) as [[v|] G]; rewrite G; cbn [fst].
    - reflexivity.
    - apply generate_throws. }
  unfold AIService.generateQuestions. fold key. unfold bind at 1 4.
  destruct (getCachedQuestions_run now cat diff db) as [r [d E]].
  rewrite E. cbn [fst snd]. split.
  - intros qs db'. destruct r as [l|].
    + destruct (Nat.leb count (List.length l)) eqn:Hl.
      * intro H. inversion H. split; [reflexivity|]. left.
        exists l. split; [reflexivity|].
        split; [apply Nat.leb_le; exact Hl | reflexivity].
      * rewrite Hfallback.
        destruct (fst (CacheService.get now key d)) as [[v|]|e];
          intro H; inversion H. split; [reflexivity|]. right. reflexivity.
    + rewrite Hfallback.
      destruct (fst (CacheService.get now key d)) as [[v|]|e];
        intro H; inversion H. split; [reflexivity|]. right. reflexivity.
  - intros Hshort Hmiss. destruct r as [l|].
    + replace (Nat.leb count (List.length l)) with false
        by (symmetry; apply Nat.leb_gt; apply Hshort; reflexivity).
      rewrite Hfallback, Hmiss. reflexivity.
    + rewrite Hfallback, Hmiss. reflexivity.
Qed.

(** A request for ten questions is served from the entry of
    [stockedStore]; a request for eleven finds too few there and nothing
    in the fast tier, and fails although the generator answers. *)
Lemma generateQuestions_answers_from_cache_only_witness :
  (exists qs db',
      AIService.generateQuestions Fixtures.twoQuestions Fixtures.plainPrompt
        5000 "science" "medium" 10 Fixtures.stockedStore = (Ok qs, db') /\
      db' = snd (AIQuestionService.getCachedQuestions 5000 "science" "medium"
                   Fixtures.stockedStore) /\
      ((exists l,
           fst (AIQuestionService.getCachedQuestions 5000 "science" "medium"
                  Fixtures.stockedStore) = Ok (Some l) /\
           (10 <= List.length l)%nat /\ qs = firstn 10 l) \/
       fst (CacheService.get 5000 "ai_questions:science:medium:10"
              (snd (AIQuestionService.getCachedQuestions 5000 "science" "medium"
                      Fixtures.stockedStore))) = Ok (Some qs))) /\
  AIService.generateQuestions Fixtures.twoQuestions Fixtures.plainPrompt
    5000 "science" "medium" 11 Fixtures.stockedStore
  = (Throw (Error_ "Failed to generate questions"),
     snd (AIQuestionService.getCachedQuestions 5000 "science" "medium"
            Fixtures.stockedStore)).
Proof.
  split.
  - destruct (AIService.generateQuestions Fixtures.twoQuestions Fixtures.plainPrompt
                5000 "science" "medium" 10 Fixtures.stockedStore)
      as [[qs | e] d] eqn:E.
    + exists qs, d. split; [reflexivity|].
      exact (proj1 (generateQuestions_answers_from_cache_only
                      Fixtures.twoQuestions Fixtures.plainPrompt
                      5000 "science" "medium" 10 Fixtures.stockedStore) qs d E).
    + vm_compute in E. discriminate E.
  - apply (proj2 (generateQuestions_answers_from_cache_only
                    Fixtures.twoQuestions Fixtures.plainPrompt
                    5000 "science" "medium" 11 Fixtures.stockedStore)).
    + intros l H. vm_compute in H. inversion H. simpl. lia.
    + vm_compute. reflexivity.
Defined.

(** ** RewardService: one settlement per session *)

Lemma distributeReward_ok (uid : string) (amt : float) (gid : string)
      (db db' : Legacy.Store) :
  Legacy.RewardService.distributeReward uid amt gid db = (Ok tt, db') ->
  existsb (fun t => String.eqb (Legacy.reference t) ("REWARD_" ++ gid))
          (Legacy.transactions db) = false /\
  db' =
  Legacy.mkStore
    (updateFirst (fun u => String.eqb (Legacy._id u) uid)
       (fun u => Legacy.mkUser (Legacy._id u)
                   (Legacy.walletBalance u + amt)%float
                   (Legacy.totalEarnings u + amt)%float
                   (Legacy.gamesPlayed u + 1))
       (Legacy.users db))
    (Legacy.transactions db ++
     [Legacy.mkTransaction uid "reward" amt "success" "wallet"
        ("REWARD_" ++ gid) ("Quiz reward for session " ++ gid)])
    (Legacy.gameSessions db).
Proof.
  unfold Legacy.RewardService.distributeReward, Legacy.inTransaction, bind,
    Legacy.creditUser, Legacy.createTransaction.
  destruct (Legacy.validate _); [intro H; discriminate H|].
  cbn [Legacy.transactions Legacy.reference Legacy.users Legacy.gameSessions].
  destruct (existsb _ (Legacy.transactions db)) eqn:E; intro H;
    [discriminate H|].
  inversion H. split; reflexivity.
Qed.

Lemma existsb_app_last {A : Type} (p : A -> bool) (l : list A) (x : A) :
  p x = true -> existsb p (l ++ [x]) = true.
Proof.
  intro H. rewrite existsb_app. simpl. rewrite H.
  rewrite orb_true_r. reflexivity.
Qed.

(** X26.  A session is settled once.  When [calculateReward] has succeeded
    for a session, the ledger holds exactly one transaction with the
    reference of that session, and every further [calculateReward] for it,
    at any time, throws and leaves wallet and ledger exactly as the first
    call left them. *)
Theorem calculateReward_settles_once
        (now now' : Z) (g : Legacy.GameSession) (db db1 : Legacy.Store) (r : float) :
  Legacy.RewardService.calculateReward now g db = (Ok r, db1) ->
  List.length (rewardsFor ("REWARD_" ++ Legacy.g_id g) db1) = 1%nat /\
  exists e, Legacy.RewardService.calculateReward now' g db1 = (Throw e, db1).
Proof.
  unfold Legacy.RewardService.calculateReward,
    Legacy.RewardService.calculateStreakBonus, bind, get, ret.
  cbv beta iota.
  match goal with
  | |- context [Legacy.RewardService.distributeReward ?u ?a ?i db] =>
      destruct (Legacy.RewardService.distributeReward u a i db)
        as [[[] | e] d] eqn:E
  end; intro H; [|discriminate H].
  inversion H; subst d. clear H.
  apply distributeReward_ok in E. destruct E as [Hfresh Hdb].
  assert (Hin : existsb
            (fun t => String.eqb (Legacy.reference t) ("REWARD_" ++ Legacy.g_id g))
            (Legacy.transactions db1) = true).
  { rewrite Hdb. cbn [Legacy.transactions].
    apply existsb_app_last. apply String.eqb_refl. }
  split.
  - unfold rewardsFor. rewrite Hdb. cbn [Legacy.transactions].
    rewrite filter_app. simpl. rewrite String.eqb_refl.
    rewrite filter_none; [reflexivity|].
    intros t Ht. destruct (String.eqb (Legacy.reference t) _) eqn:Et; [|reflexivity].
    assert (existsb
              (fun t => String.eqb (Legacy.reference t) ("REWARD_" ++ Legacy.g_id g))
              (Legacy.transactions db) = true)
      by (apply existsb_exists; exists t; split; assumption).
    congruence.
  - match goal with
    | |- context [Legacy.RewardService.distributeReward ?u ?a ?i db1] =>
        destruct (distributeReward_settled_rejected u a i db1 Hin) as [e He];
        rewrite He
    end.
    exists e. reflexivity.
Qed.

Lemma calculateReward_settles_once_witness :
  exists r db1,
    Legacy.RewardService.calculateReward 5000 Fixtures.game Fixtures.legacyStore
      = (Ok r, db1) /\
    List.length (rewardsFor "REWARD_g1" db1) = 1%nat /\
    exists e, Legacy.RewardService.calculateReward 9000 Fixtures.game db1
              = (Throw e, db1).
Proof.
  destruct (Legacy.RewardService.calculateReward 5000 Fixtures.game
              Fixtures.legacyStore) as [[r | e] d] eqn:E.
  - exists r, d. split; [reflexivity|].
    exact (calculateReward_settles_once 5000 9000 Fixtures.game
             Fixtures.legacyStore d r E).
  - vm_compute in E. discriminate E.
Defined.

Lemma find_updateFirst_other {A : Type} (p hit : A -> bool) (f : A -> A) (l : list A) :
  (forall x, hit x = true -> p x = false /\ p (f x) = false) ->
  List.find p (updateFirst hit f l) = List.find p l.
Proof.
  intro H. induction l as [|x r IH]; simpl; [reflexivity|].
  destruct (hit x) eqn:Hx; simpl.
  - destruct (H x Hx) as [H1 H2]. rewrite H1, H2. reflexivity.
  - rewrite IH. reflexivity.
Qed.

Lemma updateFirst_no_hit {A : Type} (hit : A -> bool) (f : A -> A) (l : list A) :
  List.find hit l = None -> updateFirst hit f l = l.
Proof.
  induction l as [|x r IH]; simpl; [reflexivity|].
  destruct (hit x); [discriminate|]. intro H. rewrite (IH H). reflexivity.
Qed.

(** X27.  A committed [distributeReward] credits one user and no other:
    the user with the given id gains the amount in [walletBalance] and in
    [totalEarnings] and one game played; every other user reads as before;
    the ledger gains the reward transaction.  When no user has the id,
    the transaction is recorded all the same and no wallet is credited. *)
Theorem distributeReward_credits_one_user
        (uid : string) (amt : float) (gid : string) (db db' : Legacy.Store) :
  Legacy.RewardService.distributeReward uid amt gid db = (Ok tt, db') ->
  Legacy.findUser uid db' =
    option_map (fun u => Legacy.mkUser (Legacy._id u)
                           (Legacy.walletBalance u + amt)%float
                           (Legacy.totalEarnings u + amt)%float
                           (Legacy.gamesPlayed u + 1))
               (Legacy.findUser uid db) /\
  (forall uid', uid' <> uid -> Legacy.findUser uid' db' = Legacy.findUser uid' db) /\
  (Legacy.findUser uid db = None -> Legacy.users db' = Legacy.users db) /\
  Legacy.transactions db' =
    (Legacy.transactions db ++
     [Legacy.mkTransaction uid "reward" amt "success" "wallet"
        ("REWARD_" ++ gid) ("Quiz reward for session " ++ gid)])%list.
Proof.
  intro H. apply distributeReward_ok in H. destruct H as [_ ->].
  unfold Legacy.findUser. cbn [Legacy.users Legacy.transactions].
  split; [apply find_updateFirst; reflexivity|].
  split.
  - intros uid' Hne. apply find_updateFirst_other.
    intros x Hx. apply String.eqb_eq in Hx. cbn [Legacy._id].
    rewrite Hx. split; apply String.eqb_neq; congruence.
  - split; [apply updateFirst_no_hit | reflexivity].
Qed.

Lemma distributeReward_credits_one_user_witness :
  exists db',
    Legacy.RewardService.distributeReward "nobody" 2%float "g7" Fixtures.legacyStore
      = (Ok tt, db') /\
    Legacy.users db' = Legacy.users Fixtures.legacyStore /\
    Legacy.transactions db' =
      [Legacy.mkTransaction "nobody" "reward" 2%float "success" "wallet"
         "REWARD_g7" "Quiz reward for session g7"].
Proof.
  destruct (Legacy.RewardService.distributeReward "nobody" 2%float "g7"
              Fixtures.legacyStore) as [[[] | e] d] eqn:E.
  - exists d. split; [reflexivity|].
    destruct (distributeReward_credits_one_user "nobody" 2%float "g7"
                Fixtures.legacyStore d E) as [_ [_ [Hnone Htx]]].
    split; [apply Hnone; reflexivity | exact Htx].
  - vm_compute in E. discriminate E.
Defined.

(** ** Withdrawals *)

(** X28.  A withdrawal is refused with status 400, and nothing is written
    (no transaction, no change of balance), when the amount is zero, NaN
    or negative, when it exceeds the balance of the user, or when the
    method is not a withdrawal method. *)
Theorem withdrawal_refused_writes_nothing
        (now : Z) (user : User) (amount : float) (paymentMethod : string)
        (db : Store) :
  PaymentController.truthyNumber amount = false \/
  PrimFloat.leb amount 0 = true \/
  PrimFloat.ltb (u_walletBalance user) amount = true \/
  Js.arrayIncludes paymentMethod PaymentController.validWithdrawalMethods = false ->
  exists msg,
    PaymentController.withdrawFromWallet now user amount paymentMethod db
    = (mkApiResponse false msg None 400, db).
Proof.
  intro H. unfold PaymentController.withdrawFromWallet, QuizController.apiError.
  destruct (negb (PaymentController.truthyNumber amount) || PrimFloat.leb amount 0)%bool
    eqn:H1; [eexists; reflexivity|].
  apply orb_false_elim in H1. destruct H1 as [H1 H2].
  apply negb_false_iff in H1.
  destruct (PrimFloat.ltb (u_walletBalance user) amount) eqn:H3;
    [eexists; reflexivity|].
  destruct (Js.arrayIncludes paymentMethod PaymentController.validWithdrawalMethods)
    eqn:H4; [|eexists; reflexivity].
  destruct H as [H | [H | [H | H]]]; congruence.
Qed.

Lemma withdrawal_refused_writes_nothing_witness :
  exists msg,
    PaymentController.withdrawFromWallet 7000 (mkUser "u1" 5%float) 8%float
      "momo" Fixtures.paidStore
    = (mkApiResponse false msg None 400, Fixtures.paidStore).
Proof.
  apply (withdrawal_refused_writes_nothing 7000 (mkUser "u1" 5%float) 8%float
           "momo" Fixtures.paidStore).
  right. right. left. vm_compute. reflexivity.
Defined.

Lemma transaction_save_ok (t : Transaction) (u : unit) (db db' : Store) :
  TransactionModel.save t db = (Ok u, db') ->
  TransactionModel.validate t = None /\
  existsb (fun t' => String.eqb (t_paymentReference t') (t_paymentReference t))
          (transactions db) = false /\
  db' = setTransactions (transactions db ++ [t]) db.
Proof.
  unfold TransactionModel.save.
  destruct (TransactionModel.validate t); [intro H; discriminate H|].
  destruct (existsb _ _); intro H; inversion H. repeat split.
Qed.

(** X29.  A withdrawal answered with success was made by flutterwave or
    momo, for an amount the balance covered; the ledger has gained one
    pending credit transaction of that amount under a reference no other
    transaction carries, and the stored balance of the user is the balance
    of the request less the amount, which is also the [newBalance] of the
    response. *)
Theorem withdrawal_success_effects
        (now : Z) (user : User) (amount : float) (paymentMethod : string)
        (db db' : Store) (resp : ApiResponse WithdrawalData) :
  PaymentController.withdrawFromWallet now user amount paymentMethod db
    = (resp, db') ->
  success resp = true ->
  let transaction :=
    mkTransaction (u_id user) amount "credit" "pending"
                  ("Withdrawal to " ++ paymentMethod) paymentMethod
                  ("withdraw_" ++ Js.showInt now) in
  let user' := mkUser (u_id user) (u_walletBalance user - amount)%float in
  In paymentMethod ["flutterwave"; "momo"] /\
  PrimFloat.ltb (u_walletBalance user) amount = false /\
  (forall t, In t (transactions db) ->
             t_paymentReference t <> "withdraw_" ++ Js.showInt now) /\
  transactions db' = (transactions db ++ [transaction])%list /\
  users db' = updateFirst (fun u => String.eqb (u_id u) (u_id user))
                          (fun _ => user') (users db) /\
  data resp = Some (mkWithdrawalData transaction (u_walletBalance user')).
Proof.
  unfold PaymentController.withdrawFromWallet, QuizController.apiError,
    QuizController.apiSuccess.
  destruct (negb (PaymentController.truthyNumber amount) || PrimFloat.leb amount 0)%bool;
    [intro H; inversion H; subst resp; discriminate|].
  destruct (PrimFloat.ltb (u_walletBalance user) amount) eqn:Hbal;
    [intro H; inversion H; subst resp; discriminate|].
  destruct (Js.arrayIncludes paymentMethod PaymentController.validWithdrawalMethods)
    eqn:Hm; simpl negb; cbv iota;
    [|intro H; inversion H; subst resp; discriminate].
  unfold promiseAll.
  destruct (TransactionModel.save _ db) as [r1 d1] eqn:E1.
  destruct (UserModel.save _ d1) as [r2 d2] eqn:E2.
  destruct r1 as [u1 | e1];
    [|intro H; inversion H; subst resp; discriminate].
  destruct r2 as [u2 | e2];
    [|intro H; inversion H; subst resp; discriminate].
  intro H. inversion H; subst resp db'. clear H. intros _.
  apply transaction_save_ok in E1. destruct E1 as [Hval [Hfresh Hd1]].
  unfold UserModel.save in E2.
  destruct (PrimFloat.leb 0 _); [|discriminate E2].
  inversion E2; subst d2. subst d1.
  split.
  { apply transaction_validate_method in Hval. cbn [t_paymentMethod] in Hval.
    apply arrayIncludes_In in Hm. simpl in Hval, Hm |- *.
    destruct Hval as [E | [E | [E | []]]]; subst paymentMethod; auto.
    destruct Hm as [E | [E | [E | []]]]; discriminate E. }
  split; [reflexivity|].
  split.
  { intros t Hin E.
    assert (existsb (fun t' => String.eqb (t_paymentReference t')
                                          ("withdraw_" ++ Js.showInt now))
                    (transactions db) = true).
    { apply existsb_exists. exists t. split; [exact Hin|].
      rewrite E. apply String.eqb_refl. }
    cbn [t_paymentReference] in Hfresh. congruence. }
  repeat split.
Qed.

Lemma withdrawal_success_effects_witness :
  exists resp db',
    PaymentController.withdrawFromWallet 7000 (mkUser "u1" 5%float) 2%float
      "momo" Fixtures.paidStore = (resp, db') /\
    success resp = true /\
    In "momo" ["flutterwave"; "momo"] /\
    walletOf "u1" db' = Some 3%float /\
    transactions db' =
      (transactions Fixtures.paidStore ++
       [mkTransaction "u1" 2%float "credit" "pending" "Withdrawal to momo" "momo"
                      "withdraw_7000"])%list.
Proof.
  destruct (PaymentController.withdrawFromWallet 7000 (mkUser "u1" 5%float) 2%float
              "momo" Fixtures.paidStore) as [resp d] eqn:E.
  assert (Hs : success resp = true).
  { vm_compute in E. inversion E. reflexivity. }
  destruct (withdrawal_success_effects 7000 (mkUser "u1" 5%float) 2%float "momo"
              Fixtures.paidStore d resp E Hs) as [Hm [_ [_ [Ht [Hu _]]]]].
  exists resp, d. split; [reflexivity|]. split; [exact Hs|]. split; [exact Hm|].
  split; [|exact Ht].
  unfold walletOf, UserModel.findById. rewrite Hu. reflexivity.
Defined.

(** X30.  The method "bank_transfer" passes the check of the handler but
    is not a payment method of the Transaction schema: such a withdrawal,
    for a valid amount the balance covers, is answered with status 500,
    records no transaction, and still writes the reduced balance to the
    user. *)
Theorem withdrawal_bank_transfer_debits_without_record
        (now : Z) (user : User) (amount : float) (db : Store) :
  PaymentController.truthyNumber amount = true ->
  PrimFloat.leb amount 0 = false ->
  PrimFloat.ltb (u_walletBalance user) amount = false ->
  PrimFloat.leb 0 (u_walletBalance user - amount) = true ->
  exists db',
    PaymentController.withdrawFromWallet now user amount "bank_transfer" db
    = (mkApiResponse false "Failed to process withdrawal" None 500, db') /\
    transactions db' = transactions db /\
    users db' = updateFirst (fun u => String.eqb (u_id u) (u_id user))
                  (fun _ => mkUser (u_id user) (u_walletBalance user - amount)%float)
                  (users db).
Proof.
  intros H1 H2 H3 H4.
  unfold PaymentController.withdrawFromWallet, QuizController.apiError.
  rewrite H1, H2, H3. simpl negb. simpl orb. cbv iota.
  change (Js.arrayIncludes "bank_transfer" PaymentController.validWithdrawalMethods)
    with true. simpl negb. cbv iota.
  unfold promiseAll.
  assert (Hrej : exists path,
            TransactionModel.save
              (mkTransaction (u_id user) amount "credit" "pending"
                 ("Withdrawal to " ++ "bank_transfer") "bank_transfer"
                 ("withdraw_" ++ Js.showInt now)) db
            = (Throw (ValidationError "Transaction" path), db)).
  { unfold TransactionModel.save.
    destruct (TransactionModel.validate _) as [path|] eqn:E.
    - exists path. reflexivity.
    - apply transaction_validate_method in E. simpl in E.
      repeat (destruct E as [E | E]; [discriminate E|]). contradiction. }
  destruct Hrej as [path Hrej]. rewrite Hrej.
  unfold UserModel.save. cbn [u_walletBalance u_id]. rewrite H4.
  eexists. split; [reflexivity|]. split; reflexivity.
Qed.

Lemma withdrawal_bank_transfer_debits_without_record_witness :
  exists db',
    PaymentController.withdrawFromWallet 7000 (mkUser "u1" 5%float) 2%float
      "bank_transfer" Fixtures.paidStore
    = (mkApiResponse false "Failed to process withdrawal" None 500, db') /\
    transactions db' = transactions Fixtures.paidStore /\
    users db' = updateFirst (fun u => String.eqb (u_id u) "u1")
                  (fun _ => mkUser "u1" (5 - 2)%float)
                  (users Fixtures.paidStore).
Proof.
  apply (withdrawal_bank_transfer_debits_without_record 7000
           (mkUser "u1" 5%float) 2%float Fixtures.paidStore);
    vm_compute; reflexivity.
Defined.
